(** * slunk-mcp: the ping server and the line-delimited JSON-RPC drivers

    A shallow embedding of the repository's Python sources:
    - [slunk-mcp/server.py]        (module [server]),
    - [test_all_mcp_tools.py]      (module [test_all_mcp_tools]),
    - [verify_all_tools.py]        (module [verify_all_tools]),
    - [test_mcp_search.py]         (module [test_mcp_search]),
    - [test_mcp_comprehensive.py]  (module [test_mcp_comprehensive]),
    - [test_mcp_debug_version.py]  (module [test_mcp_debug_version]),
    together with the parts of the Python runtime they rely on: the values
    the scripts handle (module [py]), [str.strip] and [str.startswith]
    (module [str]), the [json] module (module [json]) and a child process
    with its pipes (module [subprocess]).

    Text is a Rocq [string]: a sequence of code points below 256.  Numbers
    are integers; a JSON number with a fraction or an exponent is outside
    the modelled fragment.  Time is given by the readings that
    [time.time()] returns, in seconds, as rationals.

    The definitions come first; the properties, with the claims of the
    specification that they settle, follow them. *)

From Stdlib Require Import String Ascii List ZArith QArith Lia Bool Arith.
From Stdlib Require Import Decimal DecimalString DecimalZ DecimalPos DecimalFacts.
Import ListNotations.

#[local] Close Scope Q_scope.
#[local] Open Scope nat_scope.
#[local] Open Scope list_scope.
#[local] Open Scope string_scope.

(** ** Characters and text *)

Module str.

Definition dquote : ascii := "034"%char.
Definition backslash : ascii := "\"%char.
Definition newline : ascii := "010"%char.

Definition code (c : ascii) : nat := nat_of_ascii c.

(** [str.isspace] on one code point below 256: U+0009..U+000D,
    U+001C..U+0020, U+0085 and U+00A0. *)
Definition isspace (c : ascii) : bool :=
  let n := code c in
  ((9 <=? n)%nat && (n <=? 13)%nat) || ((28 <=? n)%nat && (n <=? 32)%nat)
  || (n =? 133)%nat || (n =? 160)%nat.

Fixpoint lstrip (s : string) : string :=
  match s with
  | EmptyString => EmptyString
  | String c s' => if isspace c then lstrip s' else s
  end.

Fixpoint rstrip (s : string) : string :=
  match s with
  | EmptyString => EmptyString
  | String c s' =>
      match rstrip s' with
      | EmptyString => if isspace c then EmptyString else String c EmptyString
      | r => String c r
      end
  end.

(** [s.strip()] *)
Definition strip (s : string) : string := rstrip (lstrip s).

(** [s.startswith(p)] *)
Definition startswith (s p : string) : bool := String.prefix p s.

(** [sep.join(parts)] *)
Fixpoint join (sep : string) (parts : list string) : string :=
  match parts with
  | [] => EmptyString
  | [p] => p
  | p :: rest => p ++ sep ++ join sep rest
  end.

(** Truth value of a string: [not s] holds for the empty string only. *)
Definition nonempty (s : string) : bool :=
  match s with EmptyString => false | String _ _ => true end.

End str.

(** ** Python values

    The values that [json.loads] builds and that the scripts inspect and
    build themselves.  A [dict] keeps its insertion order, so it is an
    association list; a well-formed dict has pairwise distinct keys. *)

Module py.

Inductive value : Type :=
| VNone
| VBool (b : bool)
| VInt (n : Z)
| VStr (s : string)
| VList (l : list value)
| VDict (m : list (string * value)).

(** Exceptions, by class. *)
Inductive exn : Type :=
| TypeError
| KeyError
| IndexError
| AttributeError
| JSONDecodeError
| BrokenPipeError
| FileNotFoundError
| TimeoutExpired.

(** The outcome of evaluating an expression: a value or a raised
    exception. *)
Inductive result (A : Type) : Type :=
| Ok (a : A)
| Raise (e : exn).
Arguments Ok {A} a.
Arguments Raise {A} e.

Fixpoint dict_get (m : list (string * value)) (k : string) : option value :=
  match m with
  | [] => None
  | (k', v) :: m' => if String.eqb k' k then Some v else dict_get m' k
  end.

(** [d[k] = v]: an existing key keeps its place, a new key goes last. *)
Fixpoint dict_set (m : list (string * value)) (k : string) (v : value)
  : list (string * value) :=
  match m with
  | [] => [(k, v)]
  | (k', v') :: m' =>
      if String.eqb k' k then (k', v) :: m' else (k', v') :: dict_set m' k v
  end.

(** [dict(pairs)] *)
Definition dict_of_pairs (pairs : list (string * value))
  : list (string * value) :=
  fold_left (fun m kv => dict_set m (fst kv) (snd kv)) pairs [].

Fixpoint distinct (ks : list string) : bool :=
  match ks with
  | [] => true
  | k :: ks' => negb (existsb (String.eqb k) ks') && distinct ks'
  end.

(** Every dict inside the value has pairwise distinct keys. *)
Fixpoint wf (v : value) : bool :=
  match v with
  | VList l => forallb wf l
  | VDict m =>
      distinct (map fst m) && forallb (fun kv => wf (snd kv)) m
  | _ => true
  end.

(** Truth value, as tested by [if v], [v and ...]. *)
Definition truthy (v : value) : bool :=
  match v with
  | VNone => false
  | VBool b => b
  | VInt n => negb (n =? 0)%Z
  | VStr s => str.nonempty s
  | VList l => match l with [] => false | _ => true end
  | VDict m => match m with [] => false | _ => true end
  end.

(** [s[i]] on text. *)
Fixpoint char_at (s : string) (i : nat) : option ascii :=
  match s, i with
  | EmptyString, _ => None
  | String c _, O => Some c
  | String _ s', S i' => char_at s' i'
  end.

(** [k in s] on text: [k] occurs in [s]. *)
Fixpoint occurs (k s : string) : bool :=
  String.prefix k s
  || match s with
     | EmptyString => false
     | String _ s' => occurs k s'
     end.

(** [v == s] for a string literal [s]. *)
Definition eq_str (v : value) (s : string) : bool :=
  match v with
  | VStr t => String.eqb t s
  | _ => false
  end.

(** [k in v] *)
Definition contains (k : string) (v : value) : result bool :=
  match v with
  | VDict m => Ok (match dict_get m k with Some _ => true | None => false end)
  | VList l => Ok (existsb (fun x => eq_str x k) l)
  | VStr s => Ok (occurs k s)
  | _ => Raise TypeError
  end.

(** [v[k]] *)
Definition getitem (v : value) (k : string) : result value :=
  match v with
  | VDict m =>
      match dict_get m k with
      | Some x => Ok x
      | None => Raise KeyError
      end
  | _ => Raise TypeError
  end.

(** [v[i]] for a literal index [i >= 0].  The keys of the dicts at hand
    are strings, so an integer key is never found. *)
Definition getitem_at (v : value) (i : nat) : result value :=
  match v with
  | VList l =>
      match nth_error l i with
      | Some x => Ok x
      | None => Raise IndexError
      end
  | VStr s =>
      match char_at s i with
      | Some c => Ok (VStr (String c EmptyString))
      | None => Raise IndexError
      end
  | VDict _ => Raise KeyError
  | _ => Raise TypeError
  end.

(** [len(v)] *)
Definition len (v : value) : result nat :=
  match v with
  | VStr s => Ok (String.length s)
  | VList l => Ok (List.length l)
  | VDict m => Ok (List.length m)
  | _ => Raise TypeError
  end.

(** [v.get(k, default)] *)
Definition get (v : value) (k : string) (default : value) : result value :=
  match v with
  | VDict m =>
      Ok (match dict_get m k with Some x => x | None => default end)
  | _ => Raise AttributeError
  end.

(** The items that [for x in v] runs through. *)
Definition iter (v : value) : result (list value) :=
  match v with
  | VList l => Ok l
  | VDict m => Ok (map (fun kv => VStr (fst kv)) m)
  | VStr s =>
      Ok (map (fun c => VStr (String c EmptyString)) (list_ascii_of_string s))
  | _ => Raise TypeError
  end.

(** [text[:100] + "..." if len(text) > 100 else text]: the length is
    taken first; a long list or dict then fails, on the concatenation
    or on the slice. *)
Definition preview (text : value) : result value :=
  match len text with
  | Raise e => Raise e
  | Ok n =>
      if (100 <? n)%nat then
        match text with
        | VStr s => Ok (VStr (String.substring 0 100 s ++ "..."))
        | _ => Raise TypeError
        end
      else Ok text
  end.

(** [a or b] *)
Definition or_else (a b : value) : value := if truthy a then a else b.


(** [repr] and [str].  A string is quoted with single quotes, unless it
    holds a single quote and no double quote. *)
Definition hexdigit (n : nat) : ascii :=
  match n with
  | 0 => "0" | 1 => "1" | 2 => "2" | 3 => "3" | 4 => "4" | 5 => "5"
  | 6 => "6" | 7 => "7" | 8 => "8" | 9 => "9" | 10 => "a" | 11 => "b"
  | 12 => "c" | 13 => "d" | 14 => "e" | _ => "f"
  end%char.

Definition repr_char (quote : ascii) (c : ascii) : string :=
  let n := str.code c in
  if Ascii.eqb c quote || (n =? 92)%nat then
    String str.backslash (String c EmptyString)
  else if (n =? 10)%nat then String str.backslash "n"
  else if (n =? 13)%nat then String str.backslash "r"
  else if (n =? 9)%nat then String str.backslash "t"
  else if (n <? 32)%nat || ((127 <=? n)%nat && (n <=? 160)%nat)
          || (n =? 173)%nat then
    String str.backslash
      (String "x" (String (hexdigit (n / 16))
                     (String (hexdigit (n mod 16)) EmptyString)))
  else String c EmptyString.

Fixpoint has_char (c : ascii) (s : string) : bool :=
  match s with
  | EmptyString => false
  | String d s' => Ascii.eqb c d || has_char c s'
  end.

Fixpoint repr_chars (quote : ascii) (s : string) : string :=
  match s with
  | EmptyString => EmptyString
  | String c s' => repr_char quote c ++ repr_chars quote s'
  end.

Definition repr_str (s : string) : string :=
  let quote :=
    if has_char "'" s && negb (has_char str.dquote s) then str.dquote
    else "'"%char in
  String quote (repr_chars quote s ++ String quote EmptyString).

Fixpoint repr (v : value) : string :=
  match v with
  | VNone => "None"
  | VBool true => "True"
  | VBool false => "False"
  | VInt n => NilEmpty.string_of_int (Z.to_int n)
  | VStr s => repr_str s
  | VList l => "[" ++ str.join ", " (map repr l) ++ "]"
  | VDict m =>
      "{" ++ str.join ", "
               (map (fun kv => repr_str (fst kv) ++ ": " ++ repr (snd kv)) m)
          ++ "}"
  end.

(** [str(v)], also what an f-string puts for [{v}]. *)
Definition to_str (v : value) : string :=
  match v with
  | VStr s => s
  | _ => repr v
  end.

End py.
Export py.


(** Induction on values that reaches into lists and dicts. *)
Section value_ind2.
Variable P : value -> Prop.
Hypothesis HNone : P VNone.
Hypothesis HBool : forall b, P (VBool b).
Hypothesis HInt : forall n, P (VInt n).
Hypothesis HStr : forall s, P (VStr s).
Hypothesis HList : forall l, Forall P l -> P (VList l).
Hypothesis HDict : forall m, Forall (fun kv => P (snd kv)) m -> P (VDict m).

Fixpoint value_ind2 (v : value) : P v :=
  match v with
  | VNone => HNone
  | VBool b => HBool b
  | VInt n => HInt n
  | VStr s => HStr s
  | VList l =>
      HList l
        ((fix go (l : list value) : Forall P l :=
            match l with
            | [] => Forall_nil _
            | x :: l' => Forall_cons x (value_ind2 x) (go l')
            end) l)
  | VDict m =>
      HDict m
        ((fix go (m : list (string * value))
           : Forall (fun kv => P (snd kv)) m :=
            match m with
            | [] => Forall_nil _
            | (k, x) :: m' =>
                Forall_cons (P := fun kv => P (snd kv)) (k, x)
                  (value_ind2 x) (go m')
            end) m)
  end.
End value_ind2.

(** ** Effects: state and exceptions

    A computation runs on a state and ends with a value or a raised
    exception; the state it leaves behind is kept in both cases, so that
    handlers and [finally] blocks go on from it. *)

Module monad.

Definition M (St A : Type) : Type := St -> result A * St.

Definition ret {St A : Type} (a : A) : M St A := fun s => (Ok a, s).

Definition bind {St A B : Type} (m : M St A) (k : A -> M St B) : M St B :=
  fun s =>
    match m s with
    | (Ok a, s') => k a s'
    | (Raise e, s') => (Raise e, s')
    end.

(** The outcome of a pure expression, as a computation. *)
Definition eval {St A : Type} (r : result A) : M St A := fun s => (r, s).

(** [try: body / except <classes>: handler] *)
Definition try_except {St A : Type} (body : M St A) (catches : exn -> bool)
    (handler : exn -> M St A) : M St A :=
  fun s =>
    match body s with
    | (Ok a, s') => (Ok a, s')
    | (Raise e, s') => if catches e then handler e s' else (Raise e, s')
    end.

(** [try: body / finally: final]: [final] runs on every outcome of
    [body], which then stands unless [final] raises itself. *)
Definition try_finally {St A : Type} (body : M St A) (final : M St unit)
  : M St A :=
  fun s =>
    let (r, s') := body s in
    match final s' with
    | (Ok _, s'') => (r, s'')
    | (Raise e, s'') => (Raise e, s'')
    end.

(** [for x in l: body] *)
Fixpoint for_each {St A : Type} (l : list A) (body : A -> M St unit)
  : M St unit :=
  match l with
  | [] => ret tt
  | x :: l' => bind (body x) (fun _ => for_each l' body)
  end.

(** [except Exception], and a bare [except]. *)
Definition any_exception (e : exn) : bool := true.

Definition is_JSONDecodeError (e : exn) : bool :=
  match e with JSONDecodeError => true | _ => false end.

Definition is_TimeoutExpired (e : exn) : bool :=
  match e with TimeoutExpired => true | _ => false end.

End monad.
Export monad.

Declare Scope monad_scope.
Delimit Scope monad_scope with monad.
Notation "x <- m ;; k" := (bind m (fun x => k))
  (at level 61, m at next level, right associativity) : monad_scope.
Notation "m ;; k" := (bind m (fun _ => k))
  (at level 61, right associativity) : monad_scope.
#[local] Open Scope monad_scope.

(** ** The [json] module of the Python standard library

    [dumps] and [loads] with their default settings, on the values of
    [py.value].  The decoder follows [json.decoder] and [json.scanner]:
    [scanstring], the number pattern, [JSONArray], [JSONObject] and
    [JSONDecoder.decode].  Where Python would build a float (a number
    with a fraction or an exponent, [NaN], [Infinity]) the decoder here
    refuses the text. *)

Module json.

Import str.

(** *** [json.dumps], with its default separators and [ensure_ascii] *)

Definition escape_char (c : ascii) : string :=
  let n := code c in
  if (n =? 34)%nat then String backslash (String dquote EmptyString)
  else if (n =? 92)%nat then String backslash (String backslash EmptyString)
  else if (n =? 10)%nat then String backslash "n"
  else if (n =? 13)%nat then String backslash "r"
  else if (n =? 9)%nat then String backslash "t"
  else if (n =? 8)%nat then String backslash "b"
  else if (n =? 12)%nat then String backslash "f"
  else if (32 <=? n)%nat && (n <=? 126)%nat then String c EmptyString
  else String backslash
         (String "u" (String "0" (String "0"
            (String (hexdigit (n / 16))
               (String (hexdigit (n mod 16)) EmptyString))))).

Fixpoint escape (s : string) : string :=
  match s with
  | EmptyString => EmptyString
  | String c s' => escape_char c ++ escape s'
  end.

Definition dumps_str (s : string) : string :=
  String dquote (escape s ++ String dquote EmptyString).

Definition dumps_int (n : Z) : string :=
  NilEmpty.string_of_int (Z.to_int n).

Fixpoint dumps (v : value) : string :=
  match v with
  | VNone => "null"
  | VBool true => "true"
  | VBool false => "false"
  | VInt n => dumps_int n
  | VStr s => dumps_str s
  | VList l => "[" ++ join ", " (map dumps l) ++ "]"
  | VDict m =>
      "{" ++ join ", "
               (map (fun kv => dumps_str (fst kv) ++ ": " ++ dumps (snd kv)) m)
          ++ "}"
  end.

(** *** [json.loads] *)

(** The decoder's whitespace: space, tab, line feed, carriage return. *)
Definition is_ws (c : ascii) : bool :=
  let n := code c in (n =? 32)%nat || (n =? 9)%nat || (n =? 10)%nat || (n =? 13)%nat.

Fixpoint skip_ws (s : string) : string :=
  match s with
  | String c s' => if is_ws c then skip_ws s' else s
  | EmptyString => EmptyString
  end.

Definition hexval (c : ascii) : option nat :=
  let n := code c in
  if (48 <=? n)%nat && (n <=? 57)%nat then Some (n - 48)
  else if (97 <=? n)%nat && (n <=? 102)%nat then Some (n - 87)
  else if (65 <=? n)%nat && (n <=? 70)%nat then Some (n - 55)
  else None.

Definition hex4 (a b c d : ascii) : option nat :=
  match hexval a, hexval b, hexval c, hexval d with
  | Some x, Some y, Some z, Some w => Some (((x * 16 + y) * 16 + z) * 16 + w)
  | _, _, _, _ => None
  end.

(** The character named by a one-letter escape. *)
Definition unescape (e : ascii) : option ascii :=
  let n := code e in
  if (n =? 34)%nat then Some dquote
  else if (n =? 92)%nat then Some backslash
  else if (n =? 47)%nat then Some "/"%char
  else if (n =? 98)%nat then Some "008"%char
  else if (n =? 102)%nat then Some "012"%char
  else if (n =? 110)%nat then Some "010"%char
  else if (n =? 114)%nat then Some "013"%char
  else if (n =? 116)%nat then Some "009"%char
  else None.

(** [scanstring], strict: the text after an opening quote, up to the
    closing one.  An escape that names a code point above 255 has no
    counterpart in the modelled alphabet and is refused. *)
Fixpoint scanstring (s : string) : option (string * string) :=
  match s with
  | EmptyString => None
  | String c s' =>
      if (code c =? 34)%nat then Some (EmptyString, s')
      else if (code c =? 92)%nat then
        match s' with
        | EmptyString => None
        | String e s'' =>
            if (code e =? 117)%nat then
              match s'' with
              | String h1 (String h2 (String h3 (String h4 r))) =>
                  match hex4 h1 h2 h3 h4 with
                  | Some n =>
                      if (n <? 256)%nat then
                        match scanstring r with
                        | Some (t, r') => Some (String (ascii_of_nat n) t, r')
                        | None => None
                        end
                      else None
                  | None => None
                  end
              | _ => None
              end
            else
              match unescape e with
              | Some ch =>
                  match scanstring s'' with
                  | Some (t, r') => Some (String ch t, r')
                  | None => None
                  end
              | None => None
              end
        end
      else if (code c <? 32)%nat then None
      else
        match scanstring s' with
        | Some (t, r') => Some (String c t, r')
        | None => None
        end
  end.

Definition is_digit (c : ascii) : bool :=
  let n := code c in (48 <=? n)%nat && (n <=? 57)%nat.

Definition digit (c : ascii) (d : uint) : option uint :=
  uint_of_char c (Some d).

(** The longest run of decimal digits at the head of [s]. *)
Fixpoint take_uint (s : string) : uint * string :=
  match s with
  | EmptyString => (Nil, EmptyString)
  | String c s' =>
      if is_digit c then
        let (d, r) := take_uint s' in
        match digit c d with
        | Some d' => (d', r)
        | None => (Nil, s)
        end
      else (Nil, s)
  end.

(** The integer part of a number: a lone zero, or a nonzero digit and the
    digits after it. *)
Definition scan_uint (s : string) : option (uint * string) :=
  match s with
  | String c s' =>
      if (code c =? 48)%nat then Some (D0 Nil, s')
      else if is_digit c then Some (take_uint s)
      else None
  | EmptyString => None
  end.

(** Does a fraction (a point and a digit) or an exponent (e or E, an
    optional sign, a digit) follow?  Then the number is a float. *)
Definition float_follows (s : string) : bool :=
  match s with
  | String c (String d r) =>
      if (code c =? 46)%nat then is_digit d
      else if (code c =? 101)%nat || (code c =? 69)%nat then
        if is_digit d then true
        else if (code d =? 43)%nat || (code d =? 45)%nat then
          match r with String d' _ => is_digit d' | EmptyString => false end
        else false
      else false
  | _ => false
  end.

Definition scan_number (s : string) : option (value * string) :=
  match s with
  | String c s' =>
      if (code c =? 45)%nat then
        match scan_uint s' with
        | Some (d, r) =>
            if float_follows r then None else Some (VInt (Z.of_int (Neg d)), r)
        | None => None
        end
      else
        match scan_uint s with
        | Some (d, r) =>
            if float_follows r then None else Some (VInt (Z.of_int (Pos d)), r)
        | None => None
        end
  | EmptyString => None
  end.

(** [s] with the literal [lit] removed from its head. *)
Fixpoint expect (lit s : string) : option string :=
  match lit with
  | EmptyString => Some s
  | String a lit' =>
      match s with
      | String b s' => if Ascii.eqb a b then expect lit' s' else None
      | EmptyString => None
      end
  end.

(** [scan_once] with [JSONArray] and [JSONObject].  [None] stands for a
    raised [JSONDecodeError].  Each call uses one unit of [fuel]; a call
    chain uses at most two units per character read, so the fuel that
    [decode] gives is never used up ([decode_fuel] below). *)
Fixpoint scan_once (fuel : nat) (s : string) : option (value * string) :=
  match fuel with
  | O => None
  | S fuel' =>
      match s with
      | EmptyString => None
      | String c s' =>
          if (code c =? 34)%nat then
            match scanstring s' with
            | Some (t, r) => Some (VStr t, r)
            | None => None
            end
          else if (code c =? 123)%nat then
            match skip_ws s' with
            | String c1 r1 =>
                if (code c1 =? 125)%nat then Some (VDict [], r1)
                else if (code c1 =? 34)%nat then
                  match scan_members fuel' r1 with
                  | Some (pairs, r) => Some (VDict (dict_of_pairs pairs), r)
                  | None => None
                  end
                else None
            | EmptyString => None
            end
          else if (code c =? 91)%nat then
            match skip_ws s' with
            | String c1 r1 =>
                if (code c1 =? 93)%nat then Some (VList [], r1)
                else
                  match scan_items fuel' (String c1 r1) with
                  | Some (l, r) => Some (VList l, r)
                  | None => None
                  end
            | EmptyString => None
            end
          else if (code c =? 110)%nat then
            match expect "ull" s' with
            | Some r => Some (VNone, r)
            | None => None
            end
          else if (code c =? 116)%nat then
            match expect "rue" s' with
            | Some r => Some (VBool true, r)
            | None => None
            end
          else if (code c =? 102)%nat then
            match expect "alse" s' with
            | Some r => Some (VBool false, r)
            | None => None
            end
          else scan_number s
      end
  end

(** The items of an array, from the first character of an item to past
    the closing bracket. *)
with scan_items (fuel : nat) (s : string) : option (list value * string) :=
  match fuel with
  | O => None
  | S fuel' =>
      match scan_once fuel' s with
      | Some (v, r) =>
          match skip_ws r with
          | String c r1 =>
              if (code c =? 93)%nat then Some ([v], r1)
              else if (code c =? 44)%nat then
                match scan_items fuel' (skip_ws r1) with
                | Some (l, r2) => Some (v :: l, r2)
                | None => None
                end
              else None
          | EmptyString => None
          end
      | None => None
      end
  end

(** The members of an object, from past the opening quote of a key to
    past the closing brace. *)
with scan_members (fuel : nat) (s : string)
  : option (list (string * value) * string) :=
  match fuel with
  | O => None
  | S fuel' =>
      match scanstring s with
      | Some (k, r) =>
          match skip_ws r with
          | String c r1 =>
              if (code c =? 58)%nat then
                match scan_once fuel' (skip_ws r1) with
                | Some (v, r2) =>
                    match skip_ws r2 with
                    | String c2 r3 =>
                        if (code c2 =? 125)%nat then Some ([(k, v)], r3)
                        else if (code c2 =? 44)%nat then
                          match skip_ws r3 with
                          | String c3 r4 =>
                              if (code c3 =? 34)%nat then
                                match scan_members fuel' r4 with
                                | Some (m, r5) => Some ((k, v) :: m, r5)
                                | None => None
                                end
                              else None
                          | EmptyString => None
                          end
                        else None
                    | EmptyString => None
                    end
                | None => None
                end
              else None
          | EmptyString => None
          end
      | None => None
      end
  end.

(** [JSONDecoder.decode]: one value between optional whitespace, and
    nothing after it. *)
Definition decode (s : string) : option value :=
  match scan_once (2 * String.length s + 2) (skip_ws s) with
  | Some (v, r) =>
      match skip_ws r with
      | EmptyString => Some v
      | String _ _ => None
      end
  | None => None
  end.

(** [json.loads(s)]: the decoded value, or [JSONDecodeError]. *)
Definition loads (s : string) : result value :=
  match decode s with
  | Some v => Ok v
  | None => Raise JSONDecodeError
  end.

(** *** The texts that [json.loads] accepts *)

(** [decode] builds a value where the text has one in [value]; the
    decoder of the library accepts more: numbers with a fraction or an
    exponent, [NaN], [Infinity] and [-Infinity], and every escape of
    four hexadecimal digits.  The functions below follow the same scanner
    over all of that syntax and build nothing: [is_json s] tells whether
    [json.loads(s)] returns, [is_json s = false] that it raises
    [JSONDecodeError].  The limits that the interpreter puts on the depth
    of nesting and on the number of digits of an integer are left out,
    here as in [decode]. *)

(** [scanstring], strict, for its end only: the text after the closing
    quote. *)
Fixpoint skip_string (s : string) : option string :=
  match s with
  | EmptyString => None
  | String c s' =>
      if (code c =? 34)%nat then Some s'
      else if (code c =? 92)%nat then
        match s' with
        | EmptyString => None
        | String e s'' =>
            if (code e =? 117)%nat then
              match s'' with
              | String h1 (String h2 (String h3 (String h4 r))) =>
                  match hex4 h1 h2 h3 h4 with
                  | Some _ => skip_string r
                  | None => None
                  end
              | _ => None
              end
            else
              match unescape e with
              | Some _ => skip_string s''
              | None => None
              end
        end
      else if (code c <? 32)%nat then None
      else skip_string s'
  end.

Fixpoint skip_digits (s : string) : string :=
  match s with
  | String c s' => if is_digit c then skip_digits s' else s
  | EmptyString => EmptyString
  end.

(** A fraction at the head of [s], if there is one: a point and one or
    more digits. *)
Definition skip_fraction (s : string) : string :=
  match s with
  | String c (String d r) =>
      if (code c =? 46)%nat && is_digit d then skip_digits r else s
  | _ => s
  end.

(** An exponent at the head of [s], if there is one: e or E, an optional
    sign, one or more digits. *)
Definition skip_exponent (s : string) : string :=
  match s with
  | String c (String d r) =>
      if (code c =? 101)%nat || (code c =? 69)%nat then
        if is_digit d then skip_digits r
        else if (code d =? 43)%nat || (code d =? 45)%nat then
          match r with
          | String d' r' => if is_digit d' then skip_digits r' else s
          | EmptyString => s
          end
        else s
      else s
  | _ => s
  end.

(** A number: an optional minus sign, the integer part, an optional
    fraction, an optional exponent. *)
Definition skip_number (s : string) : option string :=
  match s with
  | String c s' =>
      match scan_uint (if (code c =? 45)%nat then s' else s) with
      | Some (_, r) => Some (skip_exponent (skip_fraction r))
      | None => None
      end
  | EmptyString => None
  end.

(** [scan_once] over the whole syntax.  A text that is no number may
    still be one of the three constants that the decoder takes for
    floats. *)
Fixpoint skip_once (fuel : nat) (s : string) : option string :=
  match fuel with
  | O => None
  | S fuel' =>
      match s with
      | EmptyString => None
      | String c s' =>
          if (code c =? 34)%nat then skip_string s'
          else if (code c =? 123)%nat then
            match skip_ws s' with
            | String c1 r1 =>
                if (code c1 =? 125)%nat then Some r1
                else if (code c1 =? 34)%nat then skip_members fuel' r1
                else None
            | EmptyString => None
            end
          else if (code c =? 91)%nat then
            match skip_ws s' with
            | String c1 r1 =>
                if (code c1 =? 93)%nat then Some r1
                else skip_items fuel' (String c1 r1)
            | EmptyString => None
            end
          else if (code c =? 110)%nat then expect "ull" s'
          else if (code c =? 116)%nat then expect "rue" s'
          else if (code c =? 102)%nat then expect "alse" s'
          else
            match skip_number s with
            | Some r => Some r
            | None =>
                if (code c =? 78)%nat then expect "aN" s'
                else if (code c =? 73)%nat then expect "nfinity" s'
                else if (code c =? 45)%nat then expect "Infinity" s'
                else None
            end
      end
  end

with skip_items (fuel : nat) (s : string) : option string :=
  match fuel with
  | O => None
  | S fuel' =>
      match skip_once fuel' s with
      | Some r =>
          match skip_ws r with
          | String c r1 =>
              if (code c =? 93)%nat then Some r1
              else if (code c =? 44)%nat then skip_items fuel' (skip_ws r1)
              else None
          | EmptyString => None
          end
      | None => None
      end
  end

with skip_members (fuel : nat) (s : string) : option string :=
  match fuel with
  | O => None
  | S fuel' =>
      match skip_string s with
      | Some r =>
          match skip_ws r with
          | String c r1 =>
              if (code c =? 58)%nat then
                match skip_once fuel' (skip_ws r1) with
                | Some r2 =>
                    match skip_ws r2 with
                    | String c2 r3 =>
                        if (code c2 =? 125)%nat then Some r3
                        else if (code c2 =? 44)%nat then
                          match skip_ws r3 with
                          | String c3 r4 =>
                              if (code c3 =? 34)%nat
                              then skip_members fuel' r4
                              else None
                          | EmptyString => None
                          end
                        else None
                    | EmptyString => None
                    end
                | None => None
                end
              else None
          | EmptyString => None
          end
      | None => None
      end
  end.

(** One value between optional whitespace, and nothing after it.  The
    fuel is never used up ([is_json_fuel] below). *)
Definition is_json (s : string) : bool :=
  match skip_once (2 * String.length s + 2) (skip_ws s) with
  | Some r =>
      match skip_ws r with
      | EmptyString => true
      | String _ _ => false
      end
  | None => false
  end.

End json.

(** ** A child process and its pipes

    What [subprocess.Popen] starts, seen from the driver.  The child's
    behaviour is part of the record: the lines it will put on its standard
    output, the text on its standard error, how many writes its standard
    input still takes, and how long it takes to exit once its input is
    closed.  After the last line of [stdout] the stream is at its end, as
    for a child that has closed it. *)

Module subprocess.

Inductive status : Type :=
| Running   (* alive *)
| Exited    (* dead, not yet waited for *)
| Reaped.   (* dead and waited for *)

Record Popen : Type := mkPopen {
  stdin : list string;        (* texts written so far, oldest first *)
  stdin_room : option nat;    (* writes still accepted; [None]: no limit *)
  stdout : list string;       (* lines still to be read *)
  stderr : string;            (* pending text *)
  exit_after : option Q;      (* seconds to exit after end of input *)
  state : status
}.

Definition set_stdout (p : Popen) (l : list string) : Popen :=
  mkPopen (stdin p) (stdin_room p) l (stderr p) (exit_after p) (state p).

Definition set_stderr (p : Popen) (t : string) : Popen :=
  mkPopen (stdin p) (stdin_room p) (stdout p) t (exit_after p) (state p).

Definition set_state (p : Popen) (st : status) : Popen :=
  mkPopen (stdin p) (stdin_room p) (stdout p) (stderr p) (exit_after p) st.

(** [proc.stdin.write(text)] with the [flush()] that follows it. *)
Definition write (text : string) : M Popen unit :=
  fun p =>
    match stdin_room p with
    | Some O => (Raise BrokenPipeError, p)
    | Some (S n) =>
        (Ok tt, mkPopen (stdin p ++ [text])%list (Some n) (stdout p)
                  (stderr p) (exit_after p) (state p))
    | None =>
        (Ok tt, mkPopen (stdin p ++ [text])%list None (stdout p)
                  (stderr p) (exit_after p) (state p))
    end.

(** [proc.stdout.readline()]: the next line, or the empty string at the
    end of the stream.  The lines of [stdout] are those that the child
    writes, and after the last of them the stream is at its end, as for a
    child that has exited or has closed its output.  A read from a child
    that lives on without writing does not return, and has no counterpart
    here: what is proved of a read past the last line holds for a child
    whose output has ended. *)
Definition readline : M Popen string :=
  fun p =>
    match stdout p with
    | [] => (Ok EmptyString, p)
    | line :: rest => (Ok line, set_stdout p rest)
    end.

(** [proc.stderr.read()] *)
Definition read_stderr : M Popen string :=
  fun p => (Ok (stderr p), set_stderr p EmptyString).

(** [proc.terminate()] and [proc.kill()]: the signal ends a running
    child; nobody has waited for it yet. *)
Definition terminate : M Popen unit :=
  fun p =>
    match state p with
    | Running => (Ok tt, set_state p Exited)
    | _ => (Ok tt, p)
    end.

Definition kill : M Popen unit := terminate.

(** [proc.wait()], when it returns: the child has exited and is reaped. *)
Definition wait : M Popen unit :=
  fun p => (Ok tt, set_state p Reaped).

Definition concat_lines (l : list string) : string :=
  fold_right String.append EmptyString l.

(** [proc.communicate(input=text, timeout=t)]: sends [text], closes the
    input, and collects the output until the child exits.  A child that
    exits in time is waited for; otherwise [TimeoutExpired] is raised
    and the child is left as it is.  The output is text already: bytes
    that the codec of text mode refuses, on which the library raises
    [UnicodeDecodeError] once the child has been waited for, have no
    counterpart here. *)
Definition communicate (text : string) (timeout : Q)
  : M Popen (string * string) :=
  fun p =>
    let p1 := mkPopen (stdin p ++ [text])%list (stdin_room p) (stdout p)
                (stderr p) (exit_after p) (state p) in
    match state p, exit_after p with
    | Running, Some t =>
        if Qle_bool t timeout then
          (Ok (concat_lines (stdout p), stderr p),
           mkPopen (stdin p1) (Some O) [] EmptyString (exit_after p) Reaped)
        else (Raise TimeoutExpired, p1)
    | Running, None => (Raise TimeoutExpired, p1)
    | _, _ =>
        (Ok (concat_lines (stdout p), stderr p),
         mkPopen (stdin p) (Some O) [] EmptyString (exit_after p) Reaped)
    end.

(** [proc.communicate()] on a child that has been killed: what is left
    of its output, and the child is waited for. *)
Definition communicate_rest : M Popen (string * string) :=
  fun p =>
    (Ok (concat_lines (stdout p), stderr p),
     mkPopen (stdin p) (Some O) [] EmptyString (exit_after p) Reaped).

End subprocess.
Export subprocess.

(** ** [test_all_mcp_tools.py]

    [print] calls are left out; an expression that a [print] evaluates is
    kept where evaluating it can raise.  [time.sleep] is left out. *)

Module test_all_mcp_tools.

Import str.

Definition max_attempts : nat := 10.

(** The reading loop of [send_request], [for _ in range(attempts)]. *)
Fixpoint read_response (attempts : nat) : M Popen value :=
  match attempts with
  | O => ret VNone
  | S attempts' =>
      response_line <- readline ;;
      if negb (nonempty response_line) then read_response attempts'
      else
        let line := strip response_line in
        if startswith line "[" then read_response attempts'
        else if startswith line "{" then
          parsed <- try_except
                      (v <- eval (json.loads line) ;; ret (Some v))
                      is_JSONDecodeError
                      (fun _ => ret None) ;;
          match parsed with
          | Some v => ret v
          | None => read_response attempts'
          end
        else read_response attempts'
  end.

Definition send_request (request : value) : M Popen value :=
  write (json.dumps request ++ String newline EmptyString) ;;
  read_response max_attempts.

(** The dict literal of a request: the keys jsonrpc, method, params
    and id. *)
Definition request (method : string) (params : value) (id : Z) : value :=
  VDict [("jsonrpc", VStr "2.0"); ("method", VStr method);
         ("params", params); ("id", VInt id)].

(** One entry of [tool_tests]: name, params, description. *)
Definition tool_tests : list (string * value * string) :=
  [ ("searchConversations",
     VDict [("query", VStr "test message")],
     "Testing searchConversations");
    ("search_messages",
     VDict [("query", VStr "test"); ("limit", VInt 5)],
     "Testing search_messages");
    ("get_thread_context",
     VDict [("threadId", VStr "1234567890.123456")],
     "Testing get_thread_context");
    ("get_message_context",
     VDict [("messageId", VStr "1234567890.123456")],
     "Testing get_message_context");
    ("parse_natural_query",
     VDict [("query", VStr "messages from john in #general yesterday")],
     "Testing parse_natural_query");
    ("conversational_search",
     VDict [("query", VStr "show me API discussions");
            ("sessionId", VStr "test-session")],
     "Testing conversational_search");
    ("discover_patterns",
     VDict [("timeRange", VStr "week"); ("minFrequency", VInt 2)],
     "Testing discover_patterns");
    ("suggest_related",
     VDict [("messageId", VStr "1234567890.123456"); ("limit", VInt 3)],
     "Testing suggest_related") ].

(** [enumerate(l, start)] *)
Fixpoint enumerate {A : Type} (l : list A) (start : Z) : list (Z * A) :=
  match l with
  | [] => []
  | x :: l' => (start, x) :: enumerate l' (start + 1)
  end.

(** The body of the loop over [tool_tests]. *)
Definition test_tool (i : Z) (test : string * value * string)
  : M Popen unit :=
  let '(name, params, _) := test in
  response <- send_request
                (request "tools/call"
                   (VDict [("name", VStr name); ("arguments", params)]) i) ;;
  has_result <- eval (if truthy response then contains "result" response
                      else Ok false) ;;
  if has_result then
    result <- eval (getitem response "result") ;;
    has_content <- eval (contains "content" result) ;;
    nonempty_content <-
      (if has_content then
         content <- eval (getitem result "content") ;;
         n <- eval (len content) ;;
         ret (0 <? n)%nat
       else ret false) ;;
    if nonempty_content then
      contents <- eval (getitem result "content") ;;
      content <- eval (getitem_at contents 0) ;;
      type <- eval (getitem content "type") ;;
      if eq_str type "text" then
        text <- eval (getitem content "text") ;;
        _ <- eval (preview text) ;;
        ret tt
      else ret tt
    else ret tt
  else
    has_error <- eval (if truthy response then contains "error" response
                       else Ok false) ;;
    if has_error then
      _ <- eval (getitem response "error") ;;
      ret tt
    else ret tt.

(** The [try] block of [test_mcp_server]. *)
Definition exchange : M Popen unit :=
  _ <- try_except read_stderr any_exception (fun _ => ret EmptyString) ;;
  response <- send_request (request "initialize" (VDict []) 1) ;;
  r <- eval (getitem response "result") ;;
  info <- eval (getitem r "serverInfo") ;;
  _ <- eval (getitem info "name") ;;
  response <- send_request (request "tools/list" (VDict []) 2) ;;
  match response with
  | VNone => ret tt
  | _ =>
      has_error <- eval (contains "error" response) ;;
      if has_error then
        _ <- eval (getitem response "error") ;;
        ret tt
      else
        has_result <- eval (contains "result" response) ;;
        if negb has_result then ret tt
        else
          r <- eval (getitem response "result") ;;
          tools <- eval (getitem r "tools") ;;
          _ <- eval (len tools) ;;
          items <- eval (iter tools) ;;
          for_each items
            (fun tool => _ <- eval (getitem tool "name") ;; ret tt) ;;
          for_each (enumerate tool_tests 3)
            (fun it => test_tool (fst it) (snd it))
  end.

(** [test_mcp_server], from the child that [Popen] has started. *)
Definition test_mcp_server : M Popen unit :=
  try_finally
    (try_except exchange any_exception
       (fun e => _ <- read_stderr ;; ret tt))
    (terminate ;; wait).

End test_all_mcp_tools.

(** ** [verify_all_tools.py]

    The state holds the fields of the [MCPToolVerifier] object and its
    surroundings: the child that [Popen] would start ([None] when the
    executable is missing) and the readings that [time.time()] will
    return, in seconds.  Once the readings are used up, the clock is past
    every deadline. *)

Module verify_all_tools.

Import str.

Record state : Type := mkState {
  proc : option Popen;                    (* self.proc *)
  test_results : list (string * value);   (* self.test_results *)
  clock : list Q;                         (* readings of time.time() *)
  launch : option Popen                   (* what Popen(...) starts *)
}.

(** [MCPToolVerifier()], in given surroundings. *)
Definition init (readings : list Q) (child : option Popen) : state :=
  mkState None [] readings child.

Definition set_proc (s : state) (p : option Popen) : state :=
  mkState p (test_results s) (clock s) (launch s).

(** [self.test_results[k] = v] *)
Definition set_result (k : string) (v : value) : M state unit :=
  fun s =>
    (Ok tt, mkState (proc s) (dict_set (test_results s) k v) (clock s)
              (launch s)).

(** An operation on [self.proc]. *)
Definition on_proc {A : Type} (op : M Popen A) : M state A :=
  fun s =>
    match proc s with
    | Some p => let (r, p') := op p in (r, set_proc s (Some p'))
    | None => (Raise AttributeError, s)
    end.

Definition start_server : M state unit :=
  fun s =>
    match launch s with
    | Some p => (Ok tt, set_proc s (Some p))
    | None => (Raise FileNotFoundError, s)
    end.

Definition Qlt_bool (a b : Q) : bool := negb (Qle_bool b a).

(** [while time.time() - start_time < 10: ...], on the readings left. *)
Fixpoint poll (start_time : Q) (readings : list Q) (p : Popen)
  : result value * (list Q * Popen) :=
  match readings with
  | [] => (Ok VNone, ([], p))
  | now :: readings' =>
      if Qlt_bool (now - start_time) 10 then
        match readline p with
        | (Ok line, p') =>
            if nonempty line then
              match json.loads line with
              | Ok v => (Ok v, (readings', p'))
              | Raise JSONDecodeError => poll start_time readings' p'
              | Raise e => (Raise e, (readings', p'))
              end
            else poll start_time readings' p'
        | (Raise e, p') => (Raise e, (readings', p'))
        end
      else (Ok VNone, (readings', p))
  end.

Definition request_id_default : Z := 1.

(** The text of the request: [json.dumps] of the dict with the keys
    jsonrpc, method, params and id, with [params or {}] for params. *)
Definition request (method : string) (params : value) (request_id : Z)
  : string :=
  json.dumps (VDict [("jsonrpc", VStr "2.0"); ("method", VStr method);
                     ("params", or_else params (VDict []));
                     ("id", VInt request_id)]).

(** [send_request(method, params, request_id)]; a caller that leaves
    out [params] passes [VNone], one that leaves out [request_id]
    passes [request_id_default]. *)
Definition send_request (method : string) (params : value)
    (request_id : Z) : M state value :=
  on_proc (write (request method params request_id
                  ++ String newline EmptyString)) ;;
  fun s =>
    match proc s, clock s with
    | None, _ => (Raise AttributeError, s)
    | Some p, [] => (Ok VNone, s)
    | Some p, start_time :: readings =>
        let '(r, (readings', p')) := poll start_time readings p in
        (r, mkState (Some p') (test_results s) readings' (launch s))
    end.

Definition verify_tool (tool_name : string) (test_params : value)
  : M state bool :=
  response <- send_request "tools/call"
                (VDict [("name", VStr tool_name);
                        ("arguments", test_params)])
                request_id_default ;;
  match response with
  | VNone =>
      set_result tool_name (VStr "TIMEOUT") ;;
      ret false
  | _ =>
      has_error <- eval (contains "error" response) ;;
      if has_error then
        error <- eval (getitem response "error") ;;
        error_msg <- eval (get error "message" (VStr "Unknown error")) ;;
        set_result tool_name (VStr ("ERROR: " ++ to_str error_msg)) ;;
        ret false
      else
        has_result <- eval (contains "result" response) ;;
        if has_result then
          result <- eval (getitem response "result") ;;
          content <- eval (get result "content" (VList [])) ;;
          some_content <-
            (if truthy content then
               n <- eval (len content) ;; ret (0 <? n)%nat
             else ret false) ;;
          if some_content then
            first <- eval (getitem_at content 0) ;;
            text <- eval (get first "text" (VStr EmptyString)) ;;
            if truthy text then
              _ <- eval (preview text) ;;
              set_result tool_name (VStr "SUCCESS") ;;
              ret true
            else
              set_result tool_name (VStr "EMPTY_RESPONSE") ;;
              ret false
          else
            set_result tool_name (VStr "NO_CONTENT") ;;
            ret false
        else ret false
  end.

(** One entry of [tool_tests]: name, params, description. *)
Definition tool_tests : list (string * value * string) :=
  [ ("searchConversations",
     VDict [("query", VStr "test message"); ("limit", VInt 5)],
     "Natural language search");
    ("search_messages",
     VDict [("query", VStr "API"); ("channels", VList [VStr "general"]);
            ("limit", VInt 5)],
     "Filtered message search");
    ("get_thread_context",
     VDict [("thread_id", VStr "1234567890.123456");
            ("include_context", VBool true)],
     "Thread retrieval");
    ("get_message_context",
     VDict [("message_id", VStr "1234567890.123456");
            ("include_thread", VBool true)],
     "Message context analysis");
    ("parse_natural_query",
     VDict [("query", VStr "messages from john in #general yesterday");
            ("include_entities", VBool true)],
     "Query parsing");
    ("conversational_search",
     VDict [("query", VStr "show API discussions");
            ("action", VStr "search"); ("limit", VInt 5)],
     "Conversational search");
    ("discover_patterns",
     VDict [("time_range", VStr "week"); ("pattern_type", VStr "topics");
            ("min_occurrences", VInt 2)],
     "Pattern discovery");
    ("suggest_related",
     VDict [("query_context", VStr "API documentation");
            ("suggestion_type", VStr "similar"); ("limit", VInt 5)],
     "Related content suggestions") ].

(** [run_all_tests], after [self.start_server()]. *)
Definition exercise_server : M state unit :=
  init_response <- send_request "initialize" VNone request_id_default ;;
  initialized <- eval (if truthy init_response
                       then contains "result" init_response
                       else Ok false) ;;
  if initialized then
    r <- eval (getitem init_response "result") ;;
    server_info <- eval (getitem r "serverInfo") ;;
    _ <- eval (getitem server_info "name") ;;
    _ <- eval (getitem server_info "version") ;;
    tools_response <- send_request "tools/list" (VDict []) 2 ;;
    listed <- eval (if truthy tools_response
                    then contains "result" tools_response
                    else Ok false) ;;
    if listed then
      r <- eval (getitem tools_response "result") ;;
      tools <- eval (getitem r "tools") ;;
      _ <- eval (len tools) ;;
      items <- eval (iter tools) ;;
      for_each items
        (fun tool => _ <- eval (getitem tool "name") ;; ret tt) ;;
      for_each tool_tests
        (fun test =>
           let '(name, params, _) := test in
           _ <- verify_tool name params ;; ret tt)
    else ret tt
  else ret tt.

Definition run_all_tests : M state unit :=
  start_server ;;
  exercise_server.

(** The counts of [print_summary]. *)
Definition success_count (results : list (string * value)) : nat :=
  List.length (filter (fun kv => eq_str (snd kv) "SUCCESS") results).

Definition total_count (results : list (string * value)) : nat :=
  List.length results.

(** [print_summary] only counts and prints. *)
Definition print_summary : M state unit := ret tt.

Definition cleanup : M state unit :=
  fun s =>
    match proc s with
    | Some _ => on_proc (terminate ;; wait) s
    | None => (Ok tt, s)
    end.

Definition main : M state unit :=
  try_finally
    (try_except (run_all_tests ;; print_summary) any_exception
       (fun _ => ret tt))
    cleanup.

End verify_all_tools.

(** ** [test_mcp_search.py] *)

Module test_mcp_search.

Import str.

Definition send_request (request : value) : M Popen value :=
  let request_str := json.dumps request ++ String newline EmptyString in
  write request_str ;;
  line <- readline ;;
  let response_line := strip line in
  if nonempty response_line then eval (json.loads response_line)
  else ret VNone.

(** The dict literals of the requests of [test_search]. *)
Definition init_request : value :=
  VDict [("jsonrpc", VStr "2.0"); ("method", VStr "initialize");
         ("params", VDict [("capabilities", VDict [])]); ("id", VInt 1)].

Definition call (name : string) (arguments : value) (id : Z) : value :=
  VDict [("jsonrpc", VStr "2.0"); ("method", VStr "tools/call");
         ("params", VDict [("name", VStr name); ("arguments", arguments)]);
         ("id", VInt id)].

Definition search_request : value :=
  call "search_messages"
    (VDict [("query", VStr "hiring contractors");
            ("channels", VList [VStr "jobs (channel)"]);
            ("limit", VInt 5); ("search_mode", VStr "hybrid")]) 2.

Definition search_request2 : value :=
  call "search_messages"
    (VDict [("query", VStr "contractors contributors LangGraph");
            ("limit", VInt 5); ("search_mode", VStr "hybrid")]) 3.

Definition search_request3 : value :=
  call "searchConversations"
    (VDict [("query",
             VStr "hiring job opening position recruit contractors");
            ("limit", VInt 5)]) 4.

(** The [try] block of [test_search]; each response is only printed. *)
Definition searches : M Popen unit :=
  _ <- send_request init_request ;;
  _ <- send_request search_request ;;
  _ <- send_request search_request2 ;;
  _ <- send_request search_request3 ;;
  ret tt.

(** [test_search], from the child that [Popen] has started. *)
Definition test_search : M Popen unit :=
  try_finally searches (terminate ;; wait).

End test_mcp_search.

(** ** [test_semantic_search.py] *)

Module test_semantic_search.

Import str.

Definition send_request (request : value) : M Popen value :=
  let request_str := json.dumps request ++ String newline EmptyString in
  write request_str ;;
  line <- readline ;;
  let response_line := strip line in
  if nonempty response_line then eval (json.loads response_line)
  else ret VNone.

(** The dict literals of the requests of [test_search]. *)
Definition init_request : value :=
  VDict [("jsonrpc", VStr "2.0"); ("method", VStr "initialize");
         ("params", VDict [("capabilities", VDict [])]); ("id", VInt 1)].

Definition call (name : string) (arguments : value) (id : Z) : value :=
  VDict [("jsonrpc", VStr "2.0"); ("method", VStr "tools/call");
         ("params", VDict [("name", VStr name); ("arguments", arguments)]);
         ("id", VInt id)].

Definition search_request : value :=
  call "searchConversations"
    (VDict [("query",
             VStr "hiring jobs looking for developers contractors");
            ("limit", VInt 5)]) 2.

Definition search_request2 : value :=
  call "search_messages"
    (VDict [("query",
             VStr "LangGraph AutoGen CrewAI agent memory persistence");
            ("search_mode", VStr "semantic"); ("limit", VInt 5)]) 3.

Definition search_request3 : value :=
  call "search_messages"
    (VDict [("query", VStr "contractors contributors");
            ("search_mode", VStr "hybrid"); ("limit", VInt 5)]) 4.

(** What follows each search: the text of the first content item is
    taken when the response has a result with content, and the whole
    response is printed otherwise. *)
Definition show (response : value) : M Popen unit :=
  has_result <- eval (if truthy response then contains "result" response
                      else Ok false) ;;
  has_content <-
    (if has_result then
       result <- eval (getitem response "result") ;;
       eval (contains "content" result)
     else ret false) ;;
  if has_content then
    result <- eval (getitem response "result") ;;
    contents <- eval (getitem result "content") ;;
    first <- eval (getitem_at contents 0) ;;
    _ <- eval (getitem first "text") ;;
    ret tt
  else ret tt.

(** The [try] block of [test_search]. *)
Definition searches : M Popen unit :=
  _ <- send_request init_request ;;
  response <- send_request search_request ;;
  show response ;;
  response <- send_request search_request2 ;;
  show response ;;
  response <- send_request search_request3 ;;
  show response.

(** [test_search], from the child that [Popen] has started. *)
Definition test_search : M Popen unit :=
  try_finally searches (terminate ;; wait).

End test_semantic_search.

(** ** [test_mcp_comprehensive.py]

    Every test case starts a child of its own.  The state keeps the
    [results] dict and all the children started so far; [launch n] is
    what the [n]-th call of [Popen] starts, [None] when the executable is
    missing. *)

Module test_mcp_comprehensive.

Import str.

Definition APP_PATH : string :=
  "/Users/junekim/Library/Developer/Xcode/DerivedData/slunk-swift-hbeqpnnlvrrmfkftkscwaikwwclb/Build/Products/Release/slunk-swift.app/Contents/MacOS/slunk-swift".

Record state : Type := mkState {
  results : list (string * value);
  processes : list Popen
}.

(** [results[name] = v] *)
Definition set_result (name : string) (v : value) : M state unit :=
  fun s => (Ok tt, mkState (dict_set (results s) name v) (processes s)).

(** [str(e)].  Only [FileNotFoundError] reaches the handler that asks
    for it; the classes whose text depends on the raising expression
    are rendered by their name. *)
Definition message (e : exn) : string :=
  match e with
  | FileNotFoundError =>
      "[Errno 2] No such file or directory: '" ++ APP_PATH ++ "'"
  | TypeError => "TypeError"
  | KeyError => "KeyError"
  | IndexError => "IndexError"
  | AttributeError => "AttributeError"
  | JSONDecodeError => "JSONDecodeError"
  | BrokenPipeError => "[Errno 32] Broken pipe"
  | TimeoutExpired => "TimeoutExpired"
  end.

(** [subprocess.Popen([APP_PATH], ...)]: the handle is the position of
    the new child among those started. *)
Definition Popen_app (launch : nat -> option Popen) : M state nat :=
  fun s =>
    let n := List.length (processes s) in
    match launch n with
    | Some p => (Ok n, mkState (results s) (processes s ++ [p])%list)
    | None => (Raise FileNotFoundError, s)
    end.

Fixpoint replace_nth {A : Type} (n : nat) (l : list A) (x : A) : list A :=
  match l, n with
  | [], _ => []
  | _ :: l', O => x :: l'
  | y :: l', S n' => y :: replace_nth n' l' x
  end.

(** An operation on the child behind a handle. *)
Definition on_process {A : Type} (process : nat) (op : M Popen A)
  : M state A :=
  fun s =>
    match nth_error (processes s) process with
    | Some p =>
        let (r, p') := op p in
        (r, mkState (results s) (replace_nth process (processes s) p'))
    | None => (Raise AttributeError, s)
    end.

(** The dict literals of the requests in [test_cases]. *)
Definition request (method : string) (params : value) (id : Z) : value :=
  VDict [("jsonrpc", VStr "2.0"); ("method", VStr method);
         ("params", params); ("id", VInt id)].

Definition call (name : string) (arguments : value) (id : Z) : value :=
  request "tools/call"
    (VDict [("name", VStr name); ("arguments", arguments)]) id.

(** [test_cases]: name and request. *)
Definition test_cases : list (string * value) :=
  [ ("Initialize",
     request "initialize"
       (VDict [("protocolVersion", VStr "2024-11-05");
               ("capabilities", VDict [])]) 1);
    ("Tools List", request "tools/list" (VDict []) 2);
    ("searchConversations",
     call "searchConversations"
       (VDict [("query", VStr "test"); ("limit", VInt 3)]) 3);
    ("search_messages",
     call "search_messages"
       (VDict [("query", VStr "test"); ("limit", VInt 3)]) 4);
    ("get_thread_context",
     call "get_thread_context"
       (VDict [("thread_id", VStr "1234567890.123456")]) 5);
    ("get_message_context",
     call "get_message_context"
       (VDict [("message_id", VStr "1234567890.123456")]) 6);
    ("parse_natural_query",
     call "parse_natural_query"
       (VDict [("query", VStr "what did alice say in engineering?")]) 7);
    ("discover_patterns",
     call "discover_patterns" (VDict [("time_range", VStr "week")]) 8);
    ("suggest_related",
     call "suggest_related"
       (VDict [("query_context", VStr "API discussion")]) 9);
    ("conversational_search",
     call "conversational_search" (VDict [("query", VStr "test")]) 10) ].

(** The body of the loop over [test_cases]. *)
Definition test_case (launch : nat -> option Popen)
    (case : string * value) : M state unit :=
  let (name, request) := case in
  try_except
    (let request_str := json.dumps request ++ String newline EmptyString in
     process <- Popen_app launch ;;
     try_except
       (out <- on_process process (communicate request_str 15) ;;
        let (stdout, stderr) := out in
        if nonempty (strip stdout) then
          set_result name
            (VDict [("status", VStr "success"); ("response", VStr stdout)])
        else
          set_result name
            (VDict [("status", VStr "no_response");
                    ("stderr", VStr stderr)]))
       is_TimeoutExpired
       (fun _ =>
          on_process process kill ;;
          set_result name (VDict [("status", VStr "timeout")])))
    any_exception
    (fun e =>
       set_result name
         (VDict [("status", VStr "error"); ("error", VStr (message e))])).

(** [test_mcp_tools]: the loop; the summary only counts and prints. *)
Definition test_mcp_tools (launch : nat -> option Popen) : M state unit :=
  for_each test_cases (test_case launch).

Definition init : state := mkState [] [].

(** The count of the summary,
    [sum(1 for r in results.values() if r["status"] == "success")]. *)
Fixpoint successful (results : list (string * value)) : result nat :=
  match results with
  | [] => Ok 0
  | (_, r) :: results' =>
      match getitem r "status" with
      | Ok st =>
          match successful results' with
          | Ok n => Ok (if eq_str st "success" then S n else n)
          | Raise e => Raise e
          end
      | Raise e => Raise e
      end
  end.

End test_mcp_comprehensive.

(** ** [test_mcp_debug_version.py] *)

Module test_mcp_debug_version.

Import str.

(** [test_mcp_tool(tool_name, request_data, timeout)], on the child
    that [Popen] would start, [None] when the executable is missing:
    the returned dict, and the child as it is left. *)
Definition test_mcp_tool (tool_name : string) (request_data : value)
    (timeout : Q) (launch : option Popen) : value * option Popen :=
  match launch with
  | None =>
      (VDict [("status", VStr "error");
              ("error", VStr (test_mcp_comprehensive.message
                                FileNotFoundError))], None)
  | Some process =>
      let request_json :=
        json.dumps request_data ++ String newline EmptyString in
      match communicate request_json timeout process with
      | (Ok (stdout, stderr), p) =>
          if nonempty (strip stdout) then
            (VDict [("status", VStr "success"); ("response", VStr stdout);
                    ("stderr", VStr stderr)], Some p)
          else
            (VDict [("status", VStr "no_response");
                    ("stderr", VStr stderr)], Some p)
      | (Raise TimeoutExpired, p) =>
          match (kill ;; communicate_rest) p with
          | (Ok (_, stderr), p') =>
              (VDict [("status", VStr "timeout"); ("stderr", VStr stderr)],
               Some p')
          | (Raise e, p') =>
              (VDict [("status", VStr "error");
                      ("error", VStr (test_mcp_comprehensive.message e))],
               Some p')
          end
      | (Raise e, p) =>
          (VDict [("status", VStr "error");
                  ("error", VStr (test_mcp_comprehensive.message e))],
           Some p)
      end
  end.

(** [test_cases] of [main]: name and request. *)
Definition test_cases : list (string * value) :=
  [ ("Initialize",
     test_mcp_comprehensive.request "initialize"
       (VDict [("protocolVersion", VStr "2024-11-05");
               ("capabilities", VDict [])]) 1);
    ("Tools List", test_mcp_comprehensive.request "tools/list" (VDict []) 2);
    ("searchConversations",
     test_mcp_comprehensive.call "searchConversations"
       (VDict [("query", VStr "test"); ("limit", VInt 3)]) 3);
    ("search_messages",
     test_mcp_comprehensive.call "search_messages"
       (VDict [("query", VStr "test"); ("limit", VInt 3)]) 4) ].

(** The loop of [main]: [results] and the children as they are left,
    oldest first.  [launch n] is what the [n]-th call of [Popen]
    starts. *)
Fixpoint run (launch : nat -> option Popen) (n : nat)
    (cases : list (string * value)) (results : list (string * value))
  : list (string * value) * list (option Popen) :=
  match cases with
  | [] => (results, [])
  | (name, request) :: cases' =>
      let (result, child) := test_mcp_tool name request 15 (launch n) in
      let (results', children) :=
        run launch (S n) cases' (dict_set results name result) in
      (results', child :: children)
  end.

Definition main (launch : nat -> option Popen)
  : list (string * value) * list (option Popen) :=
  run launch 0 test_cases [].

(** The count of the summary, as in [test_mcp_comprehensive]. *)
Definition successful (results : list (string * value)) : result nat :=
  test_mcp_comprehensive.successful results.

End test_mcp_debug_version.

(** ** [test_mcp_single.py] *)

Module test_mcp_single.

(** [test_mcp_tool(tool_name, request_data)], on the child that [Popen]
    would start, [None] when the executable is missing: the child as
    it is left.  The function only prints. *)
Definition test_mcp_tool (tool_name : string) (request_data : value)
    (launch : option Popen) : option Popen :=
  match launch with
  | None => None
  | Some process =>
      let request_json :=
        json.dumps request_data ++ String str.newline EmptyString in
      match communicate request_json 10 process with
      | (Ok _, p) => Some p
      | (Raise TimeoutExpired, p) =>
          Some (snd ((kill ;; communicate_rest) p))
      | (Raise _, p) => Some p
      end
  end.

(** [main]: the three tests, each on a child of its own; [launch n] is
    what the [n]-th call of [Popen] starts.  The children as they are
    left, oldest first. *)
Definition main (launch : nat -> option Popen) : list (option Popen) :=
  let first :=
    test_mcp_tool "Initialize"
      (test_mcp_comprehensive.request "initialize"
         (VDict [("protocolVersion", VStr "2024-11-05");
                 ("capabilities", VDict [])]) 1)
      (launch 0) in
  let second :=
    test_mcp_tool "Tools List"
      (test_mcp_comprehensive.request "tools/list" (VDict []) 2)
      (launch 1) in
  let third :=
    test_mcp_tool "searchConversations"
      (test_mcp_comprehensive.call "searchConversations"
         (VDict [("query", VStr "test message"); ("limit", VInt 5)]) 3)
      (launch 2) in
  [first; second; third].

End test_mcp_single.

(** ** [slunk-mcp/server.py] *)

Module server.

(** [mcp = FastMCP("slunk")]: the name the server is created with. *)
Definition mcp_name : string := "slunk".

(** [async def ping_slunk() -> str] *)
Definition ping_slunk (_ : unit) : string := "Pong slunk!".

(** The docstring of [ping_slunk]. *)
Definition ping_slunk_doc : string := "Ping the slunk server".

(** The kinds of value an argument schema asks for. *)
Inductive kind : Type := KString | KInteger | KBoolean | KList | KMapping.

(** Modelled from the spec: the ToolDescriptor of section 3,
    [{name, description, argument_schema}].  The schema lists, for each
    argument, its key, the kind of its value and whether it is
    required. *)
Record ToolDescriptor : Type := mkTool {
  name : string;
  description : string;
  argument_schema : list (string * kind * bool)
}.

Inductive ErrorKind : Type :=
| UnknownToolError
| InvalidArgumentsError
| NotInitializedError.

(** Modelled from the spec: the three methods of section 6 with their
    parameter shapes, and the Request and Response of section 3.  A
    Response carries exactly one of [result] and [error]. *)
Inductive method : Type :=
| initialize (params : value)
| tools_list
| tools_call (name : string) (arguments : value).

Record Request : Type := mkRequest {
  req_version : string;
  req_method : method;
  req_id : value
}.

Inductive payload : Type :=
| result (r : value)
| error (e : ErrorKind).

Record Response : Type := mkResponse {
  version : string;
  id : value;
  body : payload
}.

(** Modelled from the spec: the session flag of section 4.3. *)
Inductive session : Type := Uninitialized | Initialized.

Definition has_kind (k : kind) (v : value) : bool :=
  match k, v with
  | KString, VStr _ => true
  | KInteger, VInt _ => true
  | KBoolean, VBool _ => true
  | KList, VList _ => true
  | KMapping, VDict _ => true
  | _, _ => false
  end.

(** Modelled from the spec: arguments satisfy a schema unless a
    required key is missing or a value has the wrong kind
    (section 4.2). *)
Definition satisfies (arguments : value)
    (schema : list (string * kind * bool)) : bool :=
  match arguments with
  | VDict m =>
      forallb
        (fun entry =>
           let '(key, k, required) := entry in
           match dict_get m key with
           | Some v => has_kind k v
           | None => negb required
           end)
        schema
  | _ => false
  end.

Section fastmcp.

(** What the source leaves to the FastMCP library, which is not part
    of the sources: the version the server reports, its
    capabilities, and whether it insists on the handshake (the open
    question of section 4.3). *)
Variable server_version : string.
Variable capabilities : value.
Variable strict : bool.

(** The tool registry: what [@mcp.tool()] registers in [server.py],
    each descriptor with its handler. *)
Definition registry : list (ToolDescriptor * (value -> string)) :=
  [ (mkTool "ping_slunk" ping_slunk_doc [], fun _ => ping_slunk tt) ].

(** Modelled from the spec: [list()] of section 4.2. *)
Definition list_tools : list ToolDescriptor := map fst registry.

Definition lookup (tool : string)
  : option (ToolDescriptor * (value -> string)) :=
  find (fun entry => String.eqb (name (fst entry)) tool) registry.

Definition registered (tool : string) : bool :=
  match lookup tool with Some _ => true | None => false end.

(** Modelled from the spec: [dispatch(name, arguments)] of
    section 4.2, which fails with UnknownToolError if the name is
    not registered, with InvalidArgumentsError if the arguments do
    not satisfy the schema, and otherwise invokes the handler and
    wraps its output as [{content: [{type: "text", text: ...}]}]. *)
Definition dispatch (tool : string) (arguments : value)
  : ErrorKind + value :=
  match lookup tool with
  | None => inl UnknownToolError
  | Some (descriptor, handler) =>
      if satisfies arguments (argument_schema descriptor) then
        inr (VDict [("content",
                     VList [VDict [("type", VStr "text");
                                   ("text", VStr (handler arguments))]])])
      else inl InvalidArgumentsError
  end.

Definition kind_name (k : kind) : string :=
  match k with
  | KString => "string"
  | KInteger => "integer"
  | KBoolean => "boolean"
  | KList => "list"
  | KMapping => "mapping"
  end.

(** A descriptor as a value of the [tools/list] result. *)
Definition describe (d : ToolDescriptor) : value :=
  VDict [("name", VStr (name d)); ("description", VStr (description d));
         ("argument_schema",
          VList (map (fun entry =>
                        let '(key, k, required) := entry in
                        VDict [("key", VStr key);
                               ("kind", VStr (kind_name k));
                               ("required", VBool required)])
                   (argument_schema d)))].

(** Modelled from the spec: one request-response cycle (sections 4.3,
    5 and 7).  [initialize] answers with the server's identity and
    moves the session to [Initialized]; a strict server refuses any
    other method before that; a failed dispatch becomes an error
    response. *)
Definition handle (st : session) (req : Request) : Response * session :=
  let reply b := mkResponse (req_version req) (req_id req) b in
  match req_method req with
  | initialize _ =>
      (reply (result
                (VDict [("serverInfo",
                         VDict [("name", VStr mcp_name);
                                ("version", VStr server_version)]);
                        ("capabilities", capabilities)])),
       Initialized)
  | tools_list =>
      match st, strict with
      | Uninitialized, true => (reply (error NotInitializedError), st)
      | _, _ =>
          (reply (result
                    (VDict [("tools", VList (map describe list_tools))])),
           st)
      end
  | tools_call tool arguments =>
      match st, strict with
      | Uninitialized, true => (reply (error NotInitializedError), st)
      | _, _ =>
          match dispatch tool arguments with
          | inr content => (reply (result content), st)
          | inl e => (reply (error e), st)
          end
      end
  end.

(** The server's request loop: one response per request, in
    order. *)
Fixpoint serve (st : session) (reqs : list Request) : list Response :=
  match reqs with
  | [] => []
  | req :: reqs' =>
      let (resp, st') := handle st req in resp :: serve st' reqs'
  end.

End fastmcp.

End server.

(** * Notions used to state and prove the properties *)

Import str json.

(** What may follow a value inside a text that [dumps] has written: the
    end, a comma, a closing bracket or a closing brace. *)
Definition delim (r : string) : bool :=
  match r with
  | EmptyString => true
  | String c _ => (code c =? 44)%nat || (code c =? 93)%nat || (code c =? 125)%nat
  end.

(** Fuel that is enough to scan the text of [v] again. *)
Fixpoint need (v : value) : nat :=
  match v with
  | VList l => S (fold_right (fun x acc => S (need x + acc)) 0 l)
  | VDict m => S (fold_right (fun kv acc => S (need (snd kv) + acc)) 0 m)
  | _ => 1
  end.

(** The same for the items of a list and for the members of a dict. *)
Definition items_need (l : list value) : nat :=
  fold_right (fun x acc => S (need x + acc)) 0 l.

Definition members_need (m : list (string * value)) : nat :=
  fold_right (fun kv acc => S (need (snd kv) + acc)) 0 m.

(** The text of one member of a dict. *)
Definition member_text (kv : string * value) : string :=
  dumps_str (fst kv) ++ ": " ++ dumps (snd kv).

(** Scanning the text of [x], whatever delimiter follows it, gives [x]
    back and stops at the delimiter. *)
Definition roundtrips (x : value) : Prop :=
  wf x = true -> forall r, delim r = true -> forall fuel, need x <= fuel ->
  scan_once fuel (dumps x ++ r) = Some (x, r).

(** A successful scan reads at least one character, and succeeds alike
    with any fuel from twice the number of characters read. *)
Definition scans_with {A : Type}
    (scan : nat -> string -> option (A * string)) (slack : nat)
    (fuel : nat) : Prop :=
  forall (s : string) (x : A) (r : string),
    scan fuel s = Some (x, r) ->
    String.length r < String.length s
    /\ forall g, 2 * (String.length s - String.length r) <= g + slack ->
                 scan g s = Some (x, r).

(** A successful scan reads at least one character, and succeeds alike
    with any fuel from twice the number of characters read. *)
Definition skips_with (skip : nat -> string -> option string) (slack : nat)
    (fuel : nat) : Prop :=
  forall (s r : string),
    skip fuel s = Some r ->
    String.length r < String.length s
    /\ forall g, 2 * (String.length s - String.length r) <= g + slack ->
                 skip g s = Some r.

(** A line feed, as text. *)
Definition nl : string := String newline EmptyString.

(** The line that [send_request] writes for a request. *)
Definition encode (request : value) : string := dumps request ++ nl.

(** The stripped line begins with an opening brace and decodes to [v]. *)
Definition object_line (line : string) (v : value) : Prop :=
  startswith (strip line) "{" = true /\ decode (strip line) = Some v.

(** The stripped line does not begin with an opening brace, and is not
    parsed at all, or it is not JSON, and [json.loads] raises. *)
Definition skipped (line : string) : Prop :=
  startswith (strip line) "{" = false \/ is_json (strip line) = false.

(** The child has written [n] lines or more, or it has ended and its
    stream with it: each of [n] reads returns, with a line or at the end of
    the stream.  A read from a running child that has written all it has
    does not return before the child writes again. *)
Definition reads_return (n : nat) (p : Popen) : Prop :=
  state p = Running -> n <= List.length (stdout p).

(** [decode] has a value for the text when [json.loads] has one. *)
Definition in_reach (s : string) : Prop :=
  is_json s = true -> exists v, decode s = Some v.

(** The stripped line does not begin with an opening brace, or [decode]
    has no value for it. *)
Definition dropped (line : string) : Prop :=
  startswith (strip line) "{" = false \/ decode (strip line) = None.

(** The child after it has taken [text] on its input. *)
Definition wrote (p : Popen) (text : string) : Popen :=
  mkPopen (stdin p ++ [text])%list
    (match stdin_room p with Some n => Some (pred n) | None => None end)
    (stdout p) (stderr p) (exit_after p) (state p).

(** The first request of [test_mcp_server]. *)
Definition initialize_request : value :=
  test_all_mcp_tools.request "initialize" (VDict []) 1.

(** A child that sends the [initialize] request back. *)
Definition echo_child : Popen :=
  mkPopen [] None [encode initialize_request] EmptyString None Running.

(** A line of diagnostic text. *)
Definition noise_line : string := "[DEBUG] starting" ++ nl.

(** A response to a call of [ping_slunk]. *)
Definition pong_response : value :=
  VDict [("jsonrpc", VStr "2.0"); ("id", VInt 1);
         ("result", VDict [("content",
                            VList [VDict [("type", VStr "text");
                                          ("text", VStr "Pong slunk!")]])])].

(** Children that put ten, and nine, lines of diagnostic text before
    the response. *)
Definition noisy_child : Popen :=
  mkPopen [] None
    (repeat noise_line 10 ++ [encode pong_response])%list
    EmptyString None Running.

Definition quiet_child : Popen :=
  mkPopen [] None
    (repeat noise_line 9 ++ [encode pong_response])%list
    EmptyString None Running.

(** A short name for the module of [verify_all_tools.py]. *)
Module V := verify_all_tools.

(** The line is not JSON: [json.loads] raises on it. *)
Definition unparsable (line : string) : Prop := is_json line = false.

(** The number of readings of the clock, after the start, that the loop
    of [send_request] finds within ten seconds of it: as many times the
    loop reads. *)
Fixpoint in_time (start_time : Q) (readings : list Q) : nat :=
  match readings with
  | now :: readings' =>
      if V.Qlt_bool (now - start_time) 10
      then S (in_time start_time readings')
      else 0
  | [] => 0
  end.

(** The texts written to the child so far. *)
Definition sent (s : V.state) : list string :=
  match V.proc s with
  | Some p => stdin p
  | None => []
  end.

(** The line that [send_request] writes. *)
Definition line_of (method : string) (params : value) (request_id : Z)
  : string :=
  V.request method params request_id ++ nl.

(** A computation that, started with a child, keeps it and writes [lines]
    to it, all of them if it returns and some first ones if it raises. *)
Definition writes {A : Type} (c : M V.state A) (lines : list string) : Prop :=
  forall s r s', c s = (r, s') -> V.proc s <> None ->
    V.proc s' <> None
    /\ (forall a, r = Ok a -> sent s' = (sent s ++ lines)%list)
    /\ (forall e, r = Raise e ->
          exists k, sent s' = (sent s ++ firstn k lines)%list).

(** The same, where also a return may come after some first lines only. *)
Definition writes_some {A : Type} (c : M V.state A) (lines : list string)
  : Prop :=
  forall s r s', c s = (r, s') -> V.proc s <> None ->
    V.proc s' <> None
    /\ exists k, sent s' = (sent s ++ firstn k lines)%list.

(** The line that [verify_tool] writes for an entry of [tool_tests]. *)
Definition call_line (test : string * value * string) : string :=
  let '(name, params, _) := test in
  line_of "tools/call"
    (VDict [("name", VStr name); ("arguments", params)])
    V.request_id_default.

(** The requests of a complete run, in the order they are written. *)
Definition expected_lines : list string :=
  line_of "initialize" VNone V.request_id_default
  :: line_of "tools/list" (VDict []) 2
  :: map call_line V.tool_tests.

(** A field of the request that a written line holds. *)
Definition sent_field (line field : string) : option value :=
  match decode (strip line) with
  | Some v =>
      match getitem v field with
      | Ok x => Some x
      | Raise _ => None
      end
  | None => None
  end.

(** Responses to the handshake and to the listing. *)
Definition init_response : value :=
  VDict [("jsonrpc", VStr "2.0"); ("id", VInt 1);
         ("result",
          VDict [("serverInfo",
                  VDict [("name", VStr "slunk"); ("version", VStr "1.0")]);
                 ("capabilities", VDict [])])].

Definition list_response : value :=
  VDict [("jsonrpc", VStr "2.0"); ("id", VInt 2);
         ("result", VDict [("tools", VList [])])].

(** A child that answers the handshake and the listing and, to each of
    the eight calls, only puts a line of diagnostic text. *)
Definition stalling_child : Popen :=
  mkPopen [] None
    (encode init_response :: encode list_response :: repeat noise_line 8)
    EmptyString None Running.

(** A verifier with that child.  The clock has the start of each
    request and then the readings of its loop: the two responses come
    within a second, and each line of diagnostic text comes within a
    second and is followed by a reading past the ten seconds. *)
Definition stalling_verifier : V.state :=
  V.init
    [0; 1; 2; 3;
     10; 11; 21; 30; 31; 41; 50; 51; 61; 70; 71; 81;
     90; 91; 101; 110; 111; 121; 130; 131; 141; 150; 151; 161]%Q
    (Some stalling_child).

(** The verifier once it has started that child. *)
Definition started_verifier : V.state :=
  V.set_proc stalling_verifier (Some stalling_child).

(** A child that puts a JSON number before a JSON object. *)
Definition number_child : Popen :=
  mkPopen [] None ["42" ++ nl; "{}" ++ nl] EmptyString None Running.

(** A child that puts a line of diagnostic text and then its response. *)
Definition slow_child : Popen :=
  mkPopen [] None [noise_line; encode init_response] EmptyString None Running.

(** A JSON array on a line, and a child that puts it before the
    response. *)
Definition array_line : string := "[1, 2]" ++ nl.

Definition array_child : Popen :=
  mkPopen [] None [array_line; encode pong_response] EmptyString None Running.

(** A short name for the module of [test_mcp_comprehensive.py]. *)
Module T := test_mcp_comprehensive.

(** The child exits within [timeout] seconds of the end of its input. *)
Definition exits_within (p : Popen) (timeout : Q) : bool :=
  match exit_after p with
  | Some t => Qle_bool t timeout
  | None => false
  end.

(** The status recorded for a test case. *)
Definition status_of (s : T.state) (name : string) : option value :=
  match dict_get (T.results s) name with
  | Some entry =>
      match getitem entry "status" with
      | Ok v => Some v
      | Raise _ => None
      end
  | None => None
  end.

(** The child after [communicate] has collected its output. *)
Definition collected (p : Popen) (text : string) : Popen :=
  mkPopen (stdin p ++ [text])%list (Some 0) [] EmptyString (exit_after p)
    Reaped.

(** The child after [communicate] has timed out and [kill] has been
    sent. *)
Definition killed (p : Popen) (text : string) : Popen :=
  mkPopen (stdin p ++ [text])%list (stdin_room p) (stdout p) (stderr p)
    (exit_after p) Exited.



Definition stuck_child : Popen :=
  mkPopen [] None [] EmptyString None Running.

(** A verifier whose child only puts a line of diagnostic text, read
    four seconds after the start, and whose clock is past the ten seconds
    at the next look; and the params of a call. *)
Definition search_params : value :=
  VDict [("query", VStr "test message"); ("limit", VInt 5)].

Definition waiting_verifier : V.state :=
  V.mkState (Some (mkPopen [] None [noise_line] EmptyString None Running)) []
    [0; 4; 12; 13]%Q None.

(** [result.content[0].text] *)
Definition first_text (r : value) : result value :=
  match getitem r "content" with
  | Ok content =>
      match getitem_at content 0 with
      | Ok first => getitem first "text"
      | Raise e => Raise e
      end
  | Raise e => Raise e
  end.

(** [result.serverInfo.name] *)
Definition server_name (r : value) : result value :=
  match getitem r "serverInfo" with
  | Ok info => getitem info "name"
  | Raise e => Raise e
  end.

(** [c] appends [lines] to the log: all of them when it returns, some
    first ones when it raises. *)
Definition emits {St A : Type} (out : St -> list string) (c : M St A)
    (lines : list string) : Prop :=
  forall s r s', c s = (r, s') ->
    (forall a, r = Ok a -> out s' = (out s ++ lines)%list)
    /\ (forall e, r = Raise e ->
          exists k, out s' = (out s ++ firstn k lines)%list).

(** The same, where also a return may come after some first lines only. *)
Definition emits_some {St A : Type} (out : St -> list string) (c : M St A)
    (lines : list string) : Prop :=
  forall s r s', c s = (r, s') ->
    exists k, out s' = (out s ++ firstn k lines)%list.

(** [c] leaves the property [I] of the state as it finds it, whether it
    returns or raises. *)
Definition keeps {St A : Type} (I : St -> Prop) (c : M St A) : Prop :=
  forall s r s', c s = (r, s') -> I s -> I s'.

(** A short name for the module of [test_all_mcp_tools.py]. *)
Module TA := test_all_mcp_tools.

(** The request that the loop over [tool_tests] sends for an entry. *)
Definition tool_request (it : Z * (string * value * string)) : value :=
  let '(i, (name, params, _)) := it in
  TA.request "tools/call"
    (VDict [("name", VStr name); ("arguments", params)]) i.

(** The requests of a complete run, in the order they are sent. *)
Definition all_requests : list value :=
  TA.request "initialize" (VDict []) 1
  :: TA.request "tools/list" (VDict []) 2
  :: map tool_request (TA.enumerate TA.tool_tests 3).

(** The response to the handshake holds the name of the server. *)
Definition answers_handshake (v : value) : Prop :=
  exists r info name,
    getitem v "result" = Ok r /\ getitem r "serverInfo" = Ok info
    /\ getitem info "name" = Ok name.

(** The response to the listing holds a list of tools that all have a
    name. *)
Definition lists_tools (v : value) : Prop :=
  exists r tools,
    getitem v "result" = Ok r /\ getitem r "tools" = Ok (VList tools)
    /\ Forall (fun tool => exists name, getitem tool "name" = Ok name) tools.

(** It has no error either. *)
Definition answers_listing (v : value) : Prop :=
  contains "error" v = Ok false /\ lists_tools v.

(** A child that answers the handshake and the listing and then puts
    eighty lines of diagnostic text. *)
Definition rambling_child : Popen :=
  mkPopen [] None
    (encode init_response :: encode list_response :: repeat noise_line 80)
    EmptyString None Running.

(** A response whose content is an empty list. *)
Definition empty_result : value :=
  VDict [("jsonrpc", VStr "2.0"); ("id", VInt 3);
         ("result", VDict [("content", VList [])])].

(** A verdict other than success that [verify_tool] records. *)
Definition failure (why : string) : Prop :=
  In why ["TIMEOUT"; "EMPTY_RESPONSE"; "NO_CONTENT"]
  \/ exists msg, why = "ERROR: " ++ msg.

(** The names of the table [tool_tests]. *)
Definition tool_names : list string :=
  map (fun test => fst (fst test)) V.tool_tests.

(** A child that puts one line of diagnostic text. *)
Definition chatty_child : Popen :=
  mkPopen [] None [noise_line] EmptyString None Running.

(** A verifier with that child.  The line is read a second after the
    start, and the clock is past the ten seconds at the next look. *)
Definition deaf_verifier : V.state :=
  V.init [0; 1; 11]%Q (Some chatty_child).

(** The keys of a dict of results are pairwise distinct and are names of
    the table [tool_tests]. *)
Definition tidy (results : list (string * value)) : Prop :=
  NoDup (map fst results) /\ incl (map fst results) tool_names.

(** The response to the handshake holds the name and the version of the
    server. *)
Definition names_server (v : value) : Prop :=
  exists r info name version,
    getitem v "result" = Ok r /\ getitem r "serverInfo" = Ok info
    /\ getitem info "name" = Ok name /\ getitem info "version" = Ok version.

(** The results after every tool of the list has been recorded as a
    timeout. *)
Definition all_timeouts (tests : list (string * value * string))
    (results : list (string * value)) : list (string * value) :=
  fold_left (fun m test => dict_set m (fst (fst test)) (VStr "TIMEOUT"))
    tests results.

(** [calls] requests in a row get no response.  For each of them the
    clock has the start and then the readings of the loop; the lines that
    the child writes before a reading is found past the ten seconds are
    not JSON, each read of the loop gets such a line, and the same holds
    of the next request with what is left of the clock and of the
    lines. *)
Fixpoint unanswered (calls : nat) (clock : list Q) (lines : list string)
  : Prop :=
  match calls with
  | 0 => True
  | S calls' =>
      match clock with
      | [] => False
      | start_time :: readings =>
          in_time start_time readings <= List.length lines
          /\ Forall unparsable (firstn (in_time start_time readings) lines)
          /\ unanswered calls' (skipn (S (in_time start_time readings)) readings)
               (skipn (in_time start_time readings) lines)
      end
  end.

(** A verifier whose child puts a line of diagnostic text and then its
    response, and whose clock is past the deadline once the first line has
    been read. *)
Definition slow_verifier : V.state :=
  V.mkState (Some slow_child) [] [0%Q; 9%Q; 11%Q; 12%Q; 13%Q] None.

(** Short names for the modules of [test_mcp_search.py] and
    [test_semantic_search.py]. *)
Module MS := test_mcp_search.

Module SS := test_semantic_search.

(** The requests of the two scripts, in the order they are sent. *)
Definition search_requests : list value :=
  [MS.init_request; MS.search_request; MS.search_request2; MS.search_request3].

Definition semantic_requests : list value :=
  [SS.init_request; SS.search_request; SS.search_request2; SS.search_request3].

(** What [send_request] makes of the line it reads. *)
Definition reading (line : string) : result value :=
  if nonempty (strip line) then loads (strip line) else Ok VNone.

(** The child after one exchange: the request is written and one line
    is taken off the output. *)
Definition exchanged (p : Popen) (request : value) : Popen :=
  set_stdout (wrote p (encode request)) (tl (stdout p)).

(** A line that [send_request] takes without an exception: it is blank,
    or its stripped text parses. *)
Definition fine (line : string) : Prop :=
  nonempty (strip line) = false \/ exists v, decode (strip line) = Some v.

(** A line that is not blank and, stripped, is not JSON. *)
Definition garbled (line : string) : Prop :=
  nonempty (strip line) = true /\ is_json (strip line) = false.

(** Exchanges in a row, each response dropped. *)
Fixpoint exchanges (requests : list value) : M Popen unit :=
  match requests with
  | [] => ret tt
  | request :: requests' =>
      _ <- MS.send_request request ;; exchanges requests'
  end.

(** A child that puts an empty line before its response. *)
Definition late_child : Popen :=
  mkPopen [] None [nl; encode pong_response] EmptyString None Running.

(** A child that answers the handshake and then puts diagnostic text. *)
Definition logging_child : Popen :=
  mkPopen [] None [encode init_response; noise_line; encode pong_response]
    EmptyString None Running.


(** A response whose content is an empty list, and a child that gives it
    to the first search. *)
Definition empty_response : value :=
  VDict [("jsonrpc", VStr "2.0"); ("id", VInt 2);
         ("result", VDict [("content", VList [])])].

Definition empty_handed_child : Popen :=
  mkPopen [] None [encode init_response; encode empty_response] EmptyString
    None Running.

(** The statuses that a result can have. *)
Definition statuses : list string :=
  ["success"; "no_response"; "timeout"; "error"].

(** An entry of [results] has one of them. *)
Definition reported (entry : value) : Prop :=
  exists status, getitem entry "status" = Ok (VStr status) /\ In status statuses.

(** The keys of a dict after a key has been set. *)
Definition add_key (keys : list string) (k : string) : list string :=
  if existsb (String.eqb k) keys then keys else (keys ++ [k])%list.

(** The entries that a test case records. *)
Definition answered (out err : string) : value :=
  if nonempty (strip out) then
    VDict [("status", VStr "success"); ("response", VStr out)]
  else VDict [("status", VStr "no_response"); ("stderr", VStr err)].

Definition timed_out : value := VDict [("status", VStr "timeout")].

Definition failed (e : exn) : value :=
  VDict [("status", VStr "error"); ("error", VStr (T.message e))].

(** Short names for the modules of [test_mcp_debug_version.py] and
    [test_mcp_single.py]. *)
Module DV := test_mcp_debug_version.

Module SG := test_mcp_single.

(** The child, if one was started, has been waited for. *)
Definition reaped (child : option Popen) : Prop :=
  forall p, child = Some p -> state p = Reaped.

(** * Properties *)

Lemma append_assoc (a b c : string) : (a ++ b) ++ c = a ++ (b ++ c).
Proof. induction a; simpl; congruence. Qed.

Lemma append_nil_r (a : string) : a ++ EmptyString = a.
Proof. induction a; simpl; congruence. Qed.

Lemma length_append (a b : string) :
  String.length (a ++ b) = String.length a + String.length b.
Proof. induction a; simpl; congruence. Qed.

(** ** [json.loads] undoes [json.dumps] *)

Lemma scanstring_escape_char (c : ascii) (t : string) :
  scanstring (escape_char c ++ t) =
  match scanstring t with
  | Some (u, r) => Some (String c u, r)
  | None => None
  end.
Proof.
  destruct c as [[|] [|] [|] [|] [|] [|] [|] [|]]; reflexivity.
Qed.

Lemma scanstring_escape (s r : string) :
  scanstring (escape s ++ String dquote r) = Some (s, r).
Proof.
  induction s as [|c s IH]; simpl.
  - reflexivity.
  - rewrite append_assoc, scanstring_escape_char, IH. reflexivity.
Qed.

Lemma delim_not_digit c r : delim (String c r) = true -> is_digit c = false.
Proof.
  unfold delim, is_digit. intros H.
  destruct (code c =? 44)%nat eqn:E1; [apply Nat.eqb_eq in E1; rewrite E1; reflexivity|].
  destruct (code c =? 93)%nat eqn:E2; [apply Nat.eqb_eq in E2; rewrite E2; reflexivity|].
  destruct (code c =? 125)%nat eqn:E3; [apply Nat.eqb_eq in E3; rewrite E3; reflexivity|].
  discriminate.
Qed.

Lemma delim_float_follows r : delim r = true -> float_follows r = false.
Proof.
  destruct r as [|c r]; [reflexivity|]. unfold delim, float_follows. intros H.
  destruct r as [|d r]; [reflexivity|].
  destruct (code c =? 44)%nat eqn:E1; [apply Nat.eqb_eq in E1; rewrite E1; reflexivity|].
  destruct (code c =? 93)%nat eqn:E2; [apply Nat.eqb_eq in E2; rewrite E2; reflexivity|].
  destruct (code c =? 125)%nat eqn:E3; [apply Nat.eqb_eq in E3; rewrite E3; reflexivity|].
  discriminate.
Qed.

Lemma take_uint_digits (d : uint) (r : string) :
  delim r = true ->
  take_uint (NilEmpty.string_of_uint d ++ r) = (d, r).
Proof.
  intros Hr. induction d; simpl;
    try (rewrite IHd; reflexivity).
  destruct r as [|c r]; [reflexivity|].
  simpl. rewrite (delim_not_digit _ _ Hr). reflexivity.
Qed.

Lemma nzhead_not_D0 d d' : nzhead d <> D0 d'.
Proof. induction d; simpl; try discriminate; assumption. Qed.

Lemma to_uint_head (p : positive) :
  exists c t, NilEmpty.string_of_uint (Pos.to_uint p) = String c t
              /\ is_digit c = true /\ (code c =? 48)%nat = false.
Proof.
  pose proof (Unsigned.to_of (Pos.to_uint p)) as H.
  rewrite Unsigned.of_to in H. simpl in H.
  pose proof (Unsigned.to_uint_nonnil p) as Hn.
  destruct (Pos.to_uint p) as [|d|d|d|d|d|d|d|d|d|d] eqn:E;
    try congruence;
    try (simpl; eexists; eexists; split; [reflexivity|split; reflexivity]).
  exfalso. unfold unorm in H. simpl in H.
  destruct (nzhead d) eqn:Ed; try discriminate.
  - inversion H; subst. pose proof (Unsigned.to_uint_nonzero p) as Hz.
    apply Hz. rewrite E. reflexivity.
  - eapply nzhead_not_D0. rewrite Ed. rewrite <- H. reflexivity.
Qed.

Lemma scan_uint_pos (p : positive) (r : string) :
  delim r = true ->
  scan_uint (NilEmpty.string_of_uint (Pos.to_uint p) ++ r)
  = Some (Pos.to_uint p, r).
Proof.
  intros Hr. destruct (to_uint_head p) as (c & t & E & Hd & Hz).
  pose proof (take_uint_digits (Pos.to_uint p) r Hr) as T.
  rewrite E in *. cbn [append] in *. unfold scan_uint. rewrite Hz, Hd.
  rewrite T. reflexivity.
Qed.

Lemma scan_number_dumps_int (n : Z) (r : string) :
  delim r = true ->
  scan_number (dumps_int n ++ r) = Some (VInt n, r).
Proof.
  intros Hr. pose proof (delim_float_follows r Hr) as Hf.
  unfold dumps_int. destruct n as [|p|p].
  - simpl. rewrite Hf. reflexivity.
  - change (Z.to_int (Z.pos p)) with (Pos (Pos.to_uint p)).
    destruct (to_uint_head p) as (c & t & E & Hd & Hz).
    pose proof (scan_uint_pos p r Hr) as S.
    unfold NilEmpty.string_of_int. rewrite E in *.
    unfold scan_number. cbn [append].
    assert (Hm : (code c =? 45)%nat = false).
    { unfold is_digit in Hd. apply andb_true_iff in Hd. destruct Hd as [H1 H2].
      apply Nat.leb_le in H1. apply Nat.eqb_neq. lia. }
    rewrite Hm. cbn [append] in S. rewrite S, Hf.
    rewrite <- (DecimalZ.of_to (Z.pos p)). reflexivity.
  - change (Z.to_int (Z.neg p)) with (Neg (Pos.to_uint p)).
    unfold NilEmpty.string_of_int, scan_number. cbn [append].
    change (code "-" =? 45)%nat with true. cbv iota.
    rewrite (scan_uint_pos p r Hr), Hf.
    rewrite <- (DecimalZ.of_to (Z.neg p)). reflexivity.
Qed.

Lemma dumps_head (v : value) :
  exists c t, dumps v = String c t /\ is_ws c = false.
Proof.
  destruct v as [|[|]|n|s|l|m]; simpl;
    try (eexists; eexists; split; [reflexivity|reflexivity]).
  unfold dumps_int. destruct n as [|p|p].
  - eexists; eexists; split; reflexivity.
  - change (Z.to_int (Z.pos p)) with (Pos (Pos.to_uint p)). simpl.
    destruct (to_uint_head p) as (c & t & E & Hd & Hz).
    exists c, t. split; [assumption|].
    unfold is_digit in Hd. apply andb_true_iff in Hd. destruct Hd as [H1 H2].
    apply Nat.leb_le in H1. unfold is_ws.
    repeat (apply orb_false_iff; split); apply Nat.eqb_neq; lia.
  - eexists; eexists; split; reflexivity.
Qed.

Lemma skip_ws_dumps (v : value) (r : string) :
  skip_ws (dumps v ++ r) = dumps v ++ r.
Proof.
  destruct (dumps_head v) as (c & t & E & Hc). rewrite E. simpl.
  rewrite Hc. reflexivity.
Qed.

Lemma skip_ws_space (s : string) : skip_ws (String " " s) = skip_ws s.
Proof. reflexivity. Qed.

Lemma scan_items_join (l : list value) :
  Forall roundtrips l -> l <> [] -> forallb wf l = true ->
  forall r fuel, items_need l <= fuel ->
  scan_items fuel (join ", " (map dumps l) ++ String "]" r) = Some (l, r).
Proof.
  induction 1 as [|x l Hx Hl IH]; [congruence|].
  intros _ Hwf r fuel Hfuel. simpl in Hwf. apply andb_true_iff in Hwf.
  destruct Hwf as [Hwx Hwl]. unfold items_need in Hfuel. simpl in Hfuel.
  fold (items_need l) in Hfuel.
  destruct fuel as [|fuel]; [lia|]. cbn [scan_items].
  destruct l as [|y l].
  - simpl. rewrite (Hx Hwx (String "]" r) eq_refl fuel ltac:(lia)).
    reflexivity.
  - change (join ", " (map dumps (x :: y :: l)))
      with (dumps x ++ ", " ++ join ", " (map dumps (y :: l))).
    rewrite !append_assoc.
    rewrite (Hx Hwx (", " ++ join ", " (map dumps (y :: l)) ++ String "]" r)
               eq_refl fuel ltac:(lia)).
    cbn [append skip_ws]. change (is_ws ",") with false. cbv iota.
    change (code "," =? 93)%nat with false.
    change (code "," =? 44)%nat with true. cbv iota.
    rewrite skip_ws_space.
    assert (Hs : skip_ws (join ", " (map dumps (y :: l)) ++ String "]" r)
                 = join ", " (map dumps (y :: l)) ++ String "]" r).
    { destruct l as [|z l]; simpl.
      - apply skip_ws_dumps.
      - rewrite append_assoc. apply skip_ws_dumps. }
    rewrite Hs.
    rewrite (IH ltac:(discriminate) Hwl r fuel ltac:(lia)). reflexivity.
Qed.

Lemma member_text_app (k : string) (x : value) (rest : string) :
  member_text (k, x) ++ rest
  = String dquote (escape k ++ String dquote (": " ++ dumps x ++ rest)).
Proof.
  unfold member_text, dumps_str. simpl. rewrite !append_assoc. reflexivity.
Qed.

Lemma skip_ws_colon (s : string) : skip_ws (String ":" s) = String ":" s.
Proof. reflexivity. Qed.

Lemma skip_ws_comma (s : string) : skip_ws (String "," s) = String "," s.
Proof. reflexivity. Qed.

Lemma skip_ws_dquote (s : string) : skip_ws (String dquote s) = String dquote s.
Proof. reflexivity. Qed.

Lemma scan_members_join (m : list (string * value)) :
  Forall (fun kv => roundtrips (snd kv)) m -> m <> [] ->
  forallb (fun kv => wf (snd kv)) m = true ->
  forall r fuel, members_need m <= fuel ->
  exists t, join ", " (map member_text m) ++ String "}" r = String dquote t
            /\ scan_members fuel t = Some (m, r).
Proof.
  induction 1 as [|[k x] m Hx Hm IH]; [congruence|].
  intros _ Hwf r fuel Hfuel. simpl in Hwf. apply andb_true_iff in Hwf.
  destruct Hwf as [Hwx Hwm]. unfold members_need in Hfuel. simpl in Hfuel.
  fold (members_need m) in Hfuel. simpl in Hx.
  destruct fuel as [|fuel]; [lia|].
  destruct m as [|kv m].
  - exists (escape k ++ String dquote (": " ++ dumps x ++ String "}" r)).
    split.
    + apply member_text_app.
    + cbn [scan_members]. rewrite scanstring_escape.
      cbn [append]. rewrite skip_ws_colon.
      change (code ":" =? 58)%nat with true. cbv iota.
      rewrite skip_ws_space, skip_ws_dumps.
      rewrite (Hx Hwx (String "}" r) eq_refl fuel ltac:(lia)).
      reflexivity.
  - destruct (IH ltac:(discriminate) Hwm r fuel ltac:(lia)) as (t & Et & St).
    exists (escape k ++ String dquote
              (": " ++ dumps x ++ ", " ++ join ", " (map member_text (kv :: m))
                 ++ String "}" r)).
    split.
    + change (join ", " (map member_text ((k, x) :: kv :: m)))
        with (member_text (k, x) ++ ", " ++ join ", " (map member_text (kv :: m))).
      rewrite append_assoc, member_text_app, append_assoc. reflexivity.
    + cbn [scan_members]. rewrite scanstring_escape.
      cbn [append]. rewrite skip_ws_colon.
      change (code ":" =? 58)%nat with true. cbv iota.
      rewrite skip_ws_space, skip_ws_dumps.
      rewrite (Hx Hwx (String "," (String " " (join ", " (map member_text (kv :: m)) ++ String "}" r)))
                 eq_refl fuel ltac:(lia)).
      rewrite skip_ws_comma.
      change (code "," =? 125)%nat with false.
      change (code "," =? 44)%nat with true. cbv iota.
      rewrite skip_ws_space.
      rewrite Et. rewrite skip_ws_dquote.
      change (code dquote =? 34)%nat with true. cbv iota.
      rewrite St. reflexivity.
Qed.

Lemma dict_set_fresh (m : list (string * value)) k v :
  existsb (String.eqb k) (map fst m) = false ->
  dict_set m k v = (m ++ [(k, v)])%list.
Proof.
  induction m as [|[k' v'] m IH]; simpl; [reflexivity|].
  intros H. apply orb_false_iff in H. destruct H as [H1 H2].
  rewrite String.eqb_sym, H1, (IH H2). reflexivity.
Qed.

Lemma existsb_app_false {A} (f : A -> bool) l1 l2 :
  existsb f (l1 ++ l2)%list = false <->
  existsb f l1 = false /\ existsb f l2 = false.
Proof. rewrite existsb_app. apply orb_false_iff. Qed.

Lemma distinct_app_cons (a : list string) k (b : list string) :
  distinct (a ++ k :: b)%list = true ->
  existsb (String.eqb k) a = false /\ distinct ((a ++ [k]) ++ b)%list = true.
Proof.
  induction a as [|x a IH]; simpl.
  - intros H. split; [reflexivity|assumption].
  - intros H. apply andb_true_iff in H. destruct H as [H1 H2].
    destruct (IH H2) as [E D]. apply negb_true_iff in H1.
    apply existsb_app_false in H1. destruct H1 as [H1a H1b].
    simpl in H1b. apply orb_false_iff in H1b. destruct H1b as [Hxk Hxb].
    split.
    + apply orb_false_iff. split; [rewrite String.eqb_sym; assumption|assumption].
    + apply andb_true_iff. split; [|assumption].
      apply negb_true_iff. rewrite <- List.app_assoc. simpl.
      apply existsb_app_false. split; [assumption|].
      simpl. apply orb_false_iff. split; assumption.
Qed.

Lemma dict_of_pairs_acc (m acc : list (string * value)) :
  distinct (map fst (acc ++ m)%list) = true ->
  fold_left (fun d kv => dict_set d (fst kv) (snd kv)) m acc = (acc ++ m)%list.
Proof.
  revert acc. induction m as [|[k v] m IH]; intros acc H; simpl.
  - rewrite List.app_nil_r. reflexivity.
  - rewrite map_app in H. simpl in H.
    apply distinct_app_cons in H. destruct H as [Hk Hd].
    rewrite (dict_set_fresh acc k v Hk).
    rewrite IH.
    + rewrite <- List.app_assoc. reflexivity.
    + rewrite !map_app. simpl. exact Hd.
Qed.

Lemma dict_of_pairs_distinct (m : list (string * value)) :
  distinct (map fst m) = true -> dict_of_pairs m = m.
Proof. intros H. unfold dict_of_pairs. apply (dict_of_pairs_acc m [] H). Qed.

Lemma scan_once_dumps (v : value) : roundtrips v.
Proof.
  induction v as [| b | n | s | l IH | m IH] using value_ind2;
    unfold roundtrips; intros Hwf r Hr fuel Hfuel;
    (destruct fuel as [|fuel]; [simpl in Hfuel; lia|]).
  - reflexivity.
  - destruct b; reflexivity.
  - destruct (dumps_head (VInt n)) as (c & t & E & Hc).
    pose proof (scan_number_dumps_int n r Hr) as S.
    simpl in E. cbn [dumps]. rewrite E in *. cbn [append scan_once] in *.
    destruct (code c =? 34)%nat eqn:E34; [exfalso|].
    { apply Nat.eqb_eq in E34. unfold scan_number in S.
      rewrite E34 in S. simpl in S. unfold scan_uint in S.
      rewrite E34 in S. simpl in S. unfold is_digit in S. rewrite E34 in S.
      discriminate. }
    destruct (code c =? 123)%nat eqn:E123; [exfalso|].
    { apply Nat.eqb_eq in E123. unfold scan_number in S.
      rewrite E123 in S. simpl in S. unfold scan_uint in S.
      rewrite E123 in S. simpl in S. unfold is_digit in S. rewrite E123 in S.
      discriminate. }
    destruct (code c =? 91)%nat eqn:E91; [exfalso|].
    { apply Nat.eqb_eq in E91. unfold scan_number in S.
      rewrite E91 in S. simpl in S. unfold scan_uint in S.
      rewrite E91 in S. simpl in S. unfold is_digit in S. rewrite E91 in S.
      discriminate. }
    destruct (code c =? 110)%nat eqn:E110; [exfalso|].
    { apply Nat.eqb_eq in E110. unfold scan_number in S.
      rewrite E110 in S. simpl in S. unfold scan_uint in S.
      rewrite E110 in S. simpl in S. unfold is_digit in S. rewrite E110 in S.
      discriminate. }
    destruct (code c =? 116)%nat eqn:E116; [exfalso|].
    { apply Nat.eqb_eq in E116. unfold scan_number in S.
      rewrite E116 in S. simpl in S. unfold scan_uint in S.
      rewrite E116 in S. simpl in S. unfold is_digit in S. rewrite E116 in S.
      discriminate. }
    destruct (code c =? 102)%nat eqn:E102; [exfalso|].
    { apply Nat.eqb_eq in E102. unfold scan_number in S.
      rewrite E102 in S. simpl in S. unfold scan_uint in S.
      rewrite E102 in S. simpl in S. unfold is_digit in S. rewrite E102 in S.
      discriminate. }
    exact S.
  - cbn [dumps]. unfold dumps_str. cbn [append scan_once].
    change (code dquote =? 34)%nat with true. cbv iota.
    rewrite append_assoc. cbn [append]. rewrite scanstring_escape. reflexivity.
  - cbn [dumps]. cbn [append scan_once].
    change (code "[" =? 34)%nat with false.
    change (code "[" =? 123)%nat with false.
    change (code "[" =? 91)%nat with true. cbv iota.
    destruct l as [|x l].
    + reflexivity.
    + rewrite append_assoc.
      assert (Hs : skip_ws (join ", " (map dumps (x :: l)) ++ "]" ++ r)
                   = join ", " (map dumps (x :: l)) ++ "]" ++ r).
      { destruct l as [|z l]; simpl.
        - apply skip_ws_dumps.
        - rewrite append_assoc. apply skip_ws_dumps. }
      rewrite Hs.
      assert (Hi : scan_items fuel (join ", " (map dumps (x :: l)) ++ "]" ++ r)
                   = Some (x :: l, r)).
      { apply scan_items_join; try assumption; try discriminate.
        simpl in Hfuel. unfold items_need. simpl. lia. }
      destruct (join ", " (map dumps (x :: l)) ++ "]" ++ r) as [|c1 r1] eqn:Ej.
      { destruct (dumps_head x) as (c & t & E & Hc).
        destruct l; simpl in Ej; rewrite E in Ej; discriminate. }
      destruct (code c1 =? 93)%nat eqn:E93.
      { exfalso. destruct (dumps_head x) as (c & t & E & Hc).
        apply Nat.eqb_eq in E93.
        assert (c = c1).
        { destruct l; simpl in Ej; rewrite E in Ej; simpl in Ej; congruence. }
        subst c1. clear Ej Hi Hs.
        destruct x as [|[|]|n|s|l'|m']; simpl in E;
          try (injection E as <- _; discriminate).
        unfold dumps_int in E. destruct n as [|p|p].
        - injection E as <- _; discriminate.
        - change (Z.to_int (Z.pos p)) with (Pos (Pos.to_uint p)) in E.
          simpl in E. destruct (to_uint_head p) as (c' & t' & E' & Hd & Hz).
          rewrite E' in E. injection E as <- _.
          unfold is_digit in Hd. rewrite E93 in Hd. discriminate.
        - injection E as <- _; discriminate. }
      rewrite Hi. reflexivity.
  - change (dumps (VDict m)) with ("{" ++ join ", " (map member_text m) ++ "}").
    cbn [append scan_once].
    change (code "{" =? 34)%nat with false.
    change (code "{" =? 123)%nat with true. cbv iota.
    simpl in Hwf. apply andb_true_iff in Hwf. destruct Hwf as [Hd Hw].
    destruct m as [|kv m].
    + reflexivity.
    + rewrite append_assoc.
      destruct (scan_members_join (kv :: m) IH ltac:(discriminate) Hw r fuel)
        as (t & Et & St).
      { simpl in Hfuel. unfold members_need. simpl. lia. }
      change ("}" ++ r) with (String "}" r). rewrite Et.
      cbn [skip_ws]. change (is_ws dquote) with false. cbv iota.
      change (code dquote =? 125)%nat with false.
      change (code dquote =? 34)%nat with true. cbv iota.
      rewrite St. rewrite (dict_of_pairs_distinct _ Hd). reflexivity.
Qed.

Lemma dumps_length_pos (v : value) : 1 <= String.length (dumps v).
Proof.
  destruct (dumps_head v) as (c & t & E & _). rewrite E. simpl. lia.
Qed.

Lemma items_need_bound (l : list value) :
  Forall (fun x => need x <= 2 * String.length (dumps x)) l ->
  items_need l <= 2 * String.length (join ", " (map dumps l)) + 1.
Proof.
  induction 1 as [|x l Hx Hl IH]; [simpl; lia|].
  unfold items_need in *. cbn [fold_right].
  destruct l as [|y l].
  - simpl in *. lia.
  - change (join ", " (map dumps (x :: y :: l)))
      with (dumps x ++ ", " ++ join ", " (map dumps (y :: l))).
    rewrite !length_append. simpl String.length at 2.
    lia.
Qed.

Lemma member_text_length (kv : string * value) :
  String.length (dumps (snd kv)) <= String.length (member_text kv).
Proof. unfold member_text. rewrite !length_append. lia. Qed.

Lemma members_need_bound (m : list (string * value)) :
  Forall (fun kv => need (snd kv) <= 2 * String.length (dumps (snd kv))) m ->
  members_need m <= 2 * String.length (join ", " (map member_text m)) + 1.
Proof.
  induction 1 as [|x l Hx Hl IH]; [simpl; lia|].
  unfold members_need in *. cbn [fold_right].
  pose proof (member_text_length x) as Hm.
  destruct l as [|y l].
  - simpl in *. lia.
  - change (join ", " (map member_text (x :: y :: l)))
      with (member_text x ++ ", " ++ join ", " (map member_text (y :: l))).
    rewrite !length_append. simpl String.length at 2.
    lia.
Qed.

Lemma need_bound (v : value) : need v <= 2 * String.length (dumps v).
Proof.
  induction v as [| b | n | s | l IH | m IH] using value_ind2.
  - pose proof (dumps_length_pos VNone). simpl in *. lia.
  - pose proof (dumps_length_pos (VBool b)).
    change (need (VBool b)) with 1. lia.
  - pose proof (dumps_length_pos (VInt n)).
    change (need (VInt n)) with 1. lia.
  - pose proof (dumps_length_pos (VStr s)).
    change (need (VStr s)) with 1. lia.
  - pose proof (items_need_bound l IH) as H.
    change (need (VList l)) with (S (items_need l)).
    change (dumps (VList l)) with ("[" ++ join ", " (map dumps l) ++ "]").
    rewrite !length_append. simpl String.length. lia.
  - pose proof (members_need_bound m IH) as H.
    change (need (VDict m)) with (S (members_need m)).
    change (dumps (VDict m)) with ("{" ++ join ", " (map member_text m) ++ "}").
    rewrite !length_append. simpl String.length. lia.
Qed.

(** [json.loads(json.dumps(v)) == v] *)
Theorem decode_dumps (v : value) : wf v = true -> decode (dumps v) = Some v.
Proof.
  intros Hwf. unfold decode.
  pose proof (skip_ws_dumps v EmptyString) as Hs.
  rewrite append_nil_r in Hs. rewrite Hs.
  pose proof (scan_once_dumps v Hwf EmptyString eq_refl
                (2 * String.length (dumps v) + 2)) as H.
  rewrite append_nil_r in H. rewrite H.
  - reflexivity.
  - pose proof (need_bound v). lia.
Qed.

Lemma rstrip_app (a b : string) :
  rstrip b <> EmptyString -> rstrip (a ++ b) = a ++ rstrip b.
Proof.
  intros Hb. induction a as [|c a IH]; simpl; [reflexivity|].
  rewrite IH. destruct (a ++ rstrip b) eqn:E; [|reflexivity].
  exfalso. destruct a; simpl in E; [contradiction|discriminate].
Qed.

Lemma append_nonempty (a : string) (c : ascii) (b : string) :
  a ++ String c b <> EmptyString.
Proof. destruct a; discriminate. Qed.

Lemma strip_dumps_dict (m : list (string * value)) :
  strip (dumps (VDict m) ++ String newline EmptyString) = dumps (VDict m).
Proof.
  change (dumps (VDict m)) with ("{" ++ join ", " (map member_text m) ++ "}").
  set (J := join ", " (map member_text m)).
  assert (HJ : rstrip (J ++ String "}" (String newline EmptyString))
               = J ++ "}").
  { rewrite rstrip_app; [reflexivity|discriminate]. }
  unfold strip. rewrite !append_assoc. cbn [append lstrip].
  change (isspace "{") with false. cbv iota.
  change (String "{" (J ++ String "}" (String newline EmptyString)))
    with ("{" ++ (J ++ String "}" (String newline EmptyString))).
  rewrite rstrip_app; rewrite HJ; [reflexivity|apply append_nonempty].
Qed.

Theorem loads_dumps (v : value) : wf v = true -> loads (dumps v) = Ok v.
Proof. intros H. unfold loads. rewrite (decode_dumps v H). reflexivity. Qed.

(** ** The fuel of [json.decode] is enough *)

Lemma skip_ws_length (s : string) :
  String.length (skip_ws s) <= String.length s.
Proof.
  induction s as [|c s IH]; simpl; [lia|].
  destruct (is_ws c); simpl; lia.
Qed.

Lemma scanstring_length (s : string) : forall (t r : string),
  scanstring s = Some (t, r) -> String.length r < String.length s.
Proof.
  induction s as [s IH] using (well_founded_induction
    (Wf_nat.well_founded_ltof _ String.length)).
  unfold Wf_nat.ltof in IH. intros t r.
  destruct s as [|c s']; [discriminate|]. cbn [scanstring].
  destruct (code c =? 34)%nat.
  { intros [= <- <-]. simpl. lia. }
  destruct (code c =? 92)%nat.
  { destruct s' as [|e s'']; [discriminate|].
    destruct (code e =? 117)%nat.
    - destruct s'' as [|h1 [|h2 [|h3 [|h4 r0]]]]; try discriminate.
      destruct (hex4 h1 h2 h3 h4) as [n|]; [|discriminate].
      destruct (n <? 256)%nat; [|discriminate].
      destruct (scanstring r0) as [[t0 r1]|] eqn:E; [|discriminate].
      intros [= <- <-]. apply IH in E; cbn [String.length] in *; lia.
    - destruct (unescape e); [|discriminate].
      destruct (scanstring s'') as [[t0 r1]|] eqn:E; [|discriminate].
      intros [= <- <-]. apply IH in E; cbn [String.length] in *; lia. }
  destruct (code c <? 32)%nat; [discriminate|].
  destruct (scanstring s') as [[t0 r1]|] eqn:E; [|discriminate].
  intros [= <- <-]. apply IH in E; cbn [String.length] in *; lia.
Qed.

Lemma expect_length (lit s r : string) :
  expect lit s = Some r -> String.length r <= String.length s.
Proof.
  revert s. induction lit as [|a lit IH]; intros s; simpl.
  - intros [= <-]. lia.
  - destruct s as [|b s]; [discriminate|].
    destruct (Ascii.eqb a b); [|discriminate].
    intros H. apply IH in H. simpl. lia.
Qed.

Lemma take_uint_length (s : string) :
  String.length (snd (take_uint s)) <= String.length s.
Proof.
  induction s as [|c s IH]; simpl; [lia|].
  destruct (is_digit c); [|simpl; lia].
  destruct (take_uint s) as [d r]. simpl in IH.
  destruct (digit c d); simpl; lia.
Qed.

Lemma scan_uint_length (s : string) (d : uint) (r : string) :
  scan_uint s = Some (d, r) -> String.length r < String.length s.
Proof.
  unfold scan_uint. destruct s as [|c s]; [discriminate|].
  destruct (code c =? 48)%nat.
  { intros [= <- <-]. simpl. lia. }
  destruct (is_digit c) eqn:Ed; [|discriminate].
  intros [= H]. pose proof (take_uint_length s) as L.
  cbn [take_uint] in H. rewrite Ed in H.
  destruct (take_uint s) as [d0 r0]. simpl in L.
  destruct (digit c d0) eqn:Eg.
  - injection H as <- <-. simpl. lia.
  - exfalso. unfold digit, is_digit in *.
    destruct c as [[|] [|] [|] [|] [|] [|] [|] [|]]; simpl in *; discriminate.
Qed.

Lemma scan_number_length (s : string) (v : value) (r : string) :
  scan_number s = Some (v, r) -> String.length r < String.length s.
Proof.
  unfold scan_number. destruct s as [|c s]; [discriminate|].
  destruct (code c =? 45)%nat.
  - destruct (scan_uint s) as [[d r0]|] eqn:E; [|discriminate].
    destruct (float_follows r0); [discriminate|].
    intros [= <- <-]. apply scan_uint_length in E. simpl. lia.
  - destruct (scan_uint (String c s)) as [[d r0]|] eqn:E; [|discriminate].
    destruct (float_follows r0); [discriminate|].
    intros [= <- <-]. apply scan_uint_length in E. exact E.
Qed.

Lemma scan_fuel (fuel : nat) :
  scans_with scan_once 0 fuel
  /\ scans_with scan_items 1 fuel
  /\ scans_with scan_members 1 fuel.
Proof.
  induction fuel as [|fuel (IHo & IHi & IHm)].
  { split; [|split]; intros s x r H; discriminate. }
  split; [|split]; intros s x r H.
  - (* scan_once *)
    destruct s as [|c s']; [discriminate|]. cbn [scan_once] in H.
    destruct (code c =? 34)%nat eqn:E34.
    { destruct (scanstring s') as [[t r0]|] eqn:Es; [|discriminate].
      injection H as <- <-. pose proof (scanstring_length _ _ _ Es) as L.
      split; [simpl; lia|]. intros g Hg. destruct g as [|g]; [cbn [String.length] in *; lia|].
      cbn [scan_once]. rewrite E34, Es. reflexivity. }
    destruct (code c =? 123)%nat eqn:E123.
    { pose proof (skip_ws_length s') as Lw.
      destruct (skip_ws s') as [|c1 r1] eqn:Ew; [discriminate|].
      destruct (code c1 =? 125)%nat eqn:E125.
      { injection H as <- <-. cbn [String.length] in *. split; [lia|].
        intros g Hg. destruct g as [|g]; [lia|].
        cbn [scan_once]. rewrite E34, E123, Ew, E125. reflexivity. }
      destruct (code c1 =? 34)%nat eqn:E34'; [|discriminate].
      destruct (scan_members fuel r1) as [[pairs r0]|] eqn:Em; [|discriminate].
      injection H as <- <-. destruct (IHm _ _ _ Em) as [L Hm].
      cbn [String.length] in *. split; [lia|].
      intros g Hg. destruct g as [|g]; [lia|].
      cbn [scan_once]. rewrite E34, E123, Ew, E125, E34'.
      rewrite (Hm g); [reflexivity|lia]. }
    destruct (code c =? 91)%nat eqn:E91.
    { pose proof (skip_ws_length s') as Lw.
      destruct (skip_ws s') as [|c1 r1] eqn:Ew; [discriminate|].
      destruct (code c1 =? 93)%nat eqn:E93.
      { injection H as <- <-. cbn [String.length] in *. split; [lia|].
        intros g Hg. destruct g as [|g]; [lia|].
        cbn [scan_once]. rewrite E34, E123, E91, Ew, E93. reflexivity. }
      destruct (scan_items fuel (String c1 r1)) as [[l r0]|] eqn:Ei;
        [|discriminate].
      injection H as <- <-. destruct (IHi _ _ _ Ei) as [L Hi].
      cbn [String.length] in *. split; [lia|].
      intros g Hg. destruct g as [|g]; [lia|].
      cbn [scan_once]. rewrite E34, E123, E91, Ew, E93.
      rewrite (Hi g); [reflexivity|cbn [String.length]; lia]. }
    destruct (code c =? 110)%nat eqn:E110.
    { destruct (expect "ull" s') as [r0|] eqn:Ee; [|discriminate].
      injection H as <- <-. pose proof (expect_length _ _ _ Ee) as L.
      split; [simpl; lia|]. intros g Hg. destruct g as [|g]; [cbn [String.length] in *; lia|].
      cbn [scan_once]. rewrite E34, E123, E91, E110, Ee. reflexivity. }
    destruct (code c =? 116)%nat eqn:E116.
    { destruct (expect "rue" s') as [r0|] eqn:Ee; [|discriminate].
      injection H as <- <-. pose proof (expect_length _ _ _ Ee) as L.
      split; [simpl; lia|]. intros g Hg. destruct g as [|g]; [cbn [String.length] in *; lia|].
      cbn [scan_once]. rewrite E34, E123, E91, E110, E116, Ee. reflexivity. }
    destruct (code c =? 102)%nat eqn:E102.
    { destruct (expect "alse" s') as [r0|] eqn:Ee; [|discriminate].
      injection H as <- <-. pose proof (expect_length _ _ _ Ee) as L.
      split; [simpl; lia|]. intros g Hg. destruct g as [|g]; [cbn [String.length] in *; lia|].
      cbn [scan_once]. rewrite E34, E123, E91, E110, E116, E102, Ee.
      reflexivity. }
    pose proof (scan_number_length _ _ _ H) as L. split; [exact L|].
    intros g Hg. destruct g as [|g]; [cbn [String.length] in *; lia|].
    cbn [scan_once]. rewrite E34, E123, E91, E110, E116, E102. exact H.
  - (* scan_items *)
    cbn [scan_items] in H.
    destruct (scan_once fuel s) as [[v r0]|] eqn:Eo; [|discriminate].
    destruct (IHo _ _ _ Eo) as [L Ho].
    pose proof (skip_ws_length r0) as Lw.
    destruct (skip_ws r0) as [|c r1] eqn:Ew; [discriminate|].
    destruct (code c =? 93)%nat eqn:E93.
    { injection H as <- <-. cbn [String.length] in *. split; [lia|].
      intros g Hg. destruct g as [|g]; [lia|].
      cbn [scan_items]. rewrite (Ho g) by lia. rewrite Ew, E93. reflexivity. }
    destruct (code c =? 44)%nat eqn:E44; [|discriminate].
    pose proof (skip_ws_length r1) as Lw1.
    destruct (scan_items fuel (skip_ws r1)) as [[l r2]|] eqn:Ei; [|discriminate].
    injection H as <- <-. destruct (IHi _ _ _ Ei) as [L2 Hi].
    cbn [String.length] in *. split; [lia|].
    intros g Hg. destruct g as [|g]; [lia|].
    cbn [scan_items]. rewrite (Ho g) by lia. rewrite Ew, E93, E44.
    rewrite (Hi g) by lia. reflexivity.
  - (* scan_members *)
    cbn [scan_members] in H.
    destruct (scanstring s) as [[k r0]|] eqn:Es; [|discriminate].
    pose proof (scanstring_length _ _ _ Es) as L0.
    pose proof (skip_ws_length r0) as Lw.
    destruct (skip_ws r0) as [|c r1] eqn:Ew; [discriminate|].
    destruct (code c =? 58)%nat eqn:E58; [|discriminate].
    pose proof (skip_ws_length r1) as Lw1.
    destruct (scan_once fuel (skip_ws r1)) as [[v r2]|] eqn:Eo; [|discriminate].
    destruct (IHo _ _ _ Eo) as [L Ho].
    pose proof (skip_ws_length r2) as Lw2.
    destruct (skip_ws r2) as [|c2 r3] eqn:Ew2; [discriminate|].
    destruct (code c2 =? 125)%nat eqn:E125.
    { injection H as <- <-. cbn [String.length] in *. split; [lia|].
      intros g Hg. destruct g as [|g]; [lia|].
      cbn [scan_members]. rewrite Es, Ew, E58. rewrite (Ho g) by lia.
      rewrite Ew2, E125. reflexivity. }
    destruct (code c2 =? 44)%nat eqn:E44; [|discriminate].
    pose proof (skip_ws_length r3) as Lw3.
    destruct (skip_ws r3) as [|c3 r4] eqn:Ew3; [discriminate|].
    destruct (code c3 =? 34)%nat eqn:E34; [|discriminate].
    destruct (scan_members fuel r4) as [[m r5]|] eqn:Em; [|discriminate].
    injection H as <- <-. destruct (IHm _ _ _ Em) as [L5 Hm].
    cbn [String.length] in *. split; [lia|].
    intros g Hg. destruct g as [|g]; [lia|].
    cbn [scan_members]. rewrite Es, Ew, E58. rewrite (Ho g) by lia.
    rewrite Ew2, E125, E44, Ew3, E34. rewrite (Hm g) by lia. reflexivity.
Qed.

(** What [scan_once] reads with some fuel, [json.decode] reads with
    its own. *)
Theorem decode_fuel (fuel : nat) (s : string) (v : value) (r : string) :
  scan_once fuel (skip_ws s) = Some (v, r) ->
  skip_ws r = EmptyString ->
  decode s = Some v.
Proof.
  intros H Hr. unfold decode.
  destruct (scan_fuel fuel) as [Ho _]. destruct (Ho _ _ _ H) as [L Hg].
  pose proof (skip_ws_length s) as Lw.
  rewrite (Hg (2 * String.length s + 2)) by lia.
  rewrite Hr. reflexivity.
Qed.

(** ** What [json.decode] reads is JSON *)

Lemma scanstring_skip (s : string) : forall (t r : string),
  scanstring s = Some (t, r) -> skip_string s = Some r.
Proof.
  induction s as [s IH] using (well_founded_induction
    (Wf_nat.well_founded_ltof _ String.length)).
  unfold Wf_nat.ltof in IH. intros t r.
  destruct s as [|c s']; [discriminate|]. cbn [scanstring skip_string].
  destruct (code c =? 34)%nat.
  { intros [= <- <-]. reflexivity. }
  destruct (code c =? 92)%nat.
  { destruct s' as [|e s'']; [discriminate|].
    destruct (code e =? 117)%nat.
    - destruct s'' as [|h1 [|h2 [|h3 [|h4 r0]]]]; try discriminate.
      destruct (hex4 h1 h2 h3 h4) as [n|]; [|discriminate].
      destruct (n <? 256)%nat; [|discriminate].
      destruct (scanstring r0) as [[t0 r1]|] eqn:E; [|discriminate].
      intros [= <- <-]. apply IH in E; [exact E|cbn [String.length]; lia].
    - destruct (unescape e); [|discriminate].
      destruct (scanstring s'') as [[t0 r1]|] eqn:E; [|discriminate].
      intros [= <- <-]. apply IH in E; [exact E|cbn [String.length]; lia]. }
  destruct (code c <? 32)%nat; [discriminate|].
  destruct (scanstring s') as [[t0 r1]|] eqn:E; [|discriminate].
  intros [= <- <-]. apply IH in E; [exact E|cbn [String.length]; lia].
Qed.

Lemma no_float_no_fraction (s : string) :
  float_follows s = false -> skip_fraction s = s.
Proof.
  unfold float_follows, skip_fraction.
  destruct s as [|c [|d r]]; try reflexivity.
  destruct (code c =? 46)%nat; [|reflexivity].
  intros ->. reflexivity.
Qed.

Lemma no_float_no_exponent (s : string) :
  float_follows s = false -> skip_exponent s = s.
Proof.
  unfold float_follows, skip_exponent.
  destruct s as [|c [|d r]]; try reflexivity.
  destruct (code c =? 46)%nat eqn:E46.
  { apply Nat.eqb_eq in E46. rewrite E46. reflexivity. }
  destruct ((code c =? 101)%nat || (code c =? 69)%nat); [|reflexivity].
  destruct (is_digit d); [discriminate|].
  destruct ((code d =? 43)%nat || (code d =? 45)%nat); [|reflexivity].
  destruct r as [|d' r']; [reflexivity|].
  intros ->. reflexivity.
Qed.

Lemma scan_number_skip (s : string) (v : value) (r : string) :
  scan_number s = Some (v, r) -> skip_number s = Some r.
Proof.
  unfold scan_number, skip_number. destruct s as [|c s]; [discriminate|].
  destruct (code c =? 45)%nat.
  - destruct (scan_uint s) as [[d r0]|]; [|discriminate].
    destruct (float_follows r0) eqn:Ef; [discriminate|].
    intros [= <- <-].
    rewrite (no_float_no_fraction _ Ef), (no_float_no_exponent _ Ef).
    reflexivity.
  - destruct (scan_uint (String c s)) as [[d r0]|]; [|discriminate].
    destruct (float_follows r0) eqn:Ef; [discriminate|].
    intros [= <- <-].
    rewrite (no_float_no_fraction _ Ef), (no_float_no_exponent _ Ef).
    reflexivity.
Qed.

(** Where the scanner of [decode] reads a value, the scanner of the
    whole syntax reads the same characters. *)
Lemma scan_skip (fuel : nat) :
  (forall s v r, scan_once fuel s = Some (v, r) -> skip_once fuel s = Some r)
  /\ (forall s l r,
        scan_items fuel s = Some (l, r) -> skip_items fuel s = Some r)
  /\ (forall s m r,
        scan_members fuel s = Some (m, r) -> skip_members fuel s = Some r).
Proof.
  induction fuel as [|fuel (IHo & IHi & IHm)].
  { split; [|split]; intros s x r H; discriminate. }
  split; [|split]; intros s x r H.
  - destruct s as [|c s']; [discriminate|].
    cbn [scan_once] in H. cbn [skip_once].
    destruct (code c =? 34)%nat.
    { destruct (scanstring s') as [[t r0]|] eqn:Es; [|discriminate].
      injection H as <- <-. eapply scanstring_skip. exact Es. }
    destruct (code c =? 123)%nat.
    { destruct (skip_ws s') as [|c1 r1]; [discriminate|].
      destruct (code c1 =? 125)%nat; [injection H as <- <-; reflexivity|].
      destruct (code c1 =? 34)%nat; [|discriminate].
      destruct (scan_members fuel r1) as [[pairs r0]|] eqn:Em; [|discriminate].
      injection H as <- <-. eapply IHm. exact Em. }
    destruct (code c =? 91)%nat.
    { destruct (skip_ws s') as [|c1 r1]; [discriminate|].
      destruct (code c1 =? 93)%nat; [injection H as <- <-; reflexivity|].
      destruct (scan_items fuel (String c1 r1)) as [[l r0]|] eqn:Ei;
        [|discriminate].
      injection H as <- <-. eapply IHi. exact Ei. }
    destruct (code c =? 110)%nat.
    { destruct (expect "ull" s'); [|discriminate].
      injection H as <- <-. reflexivity. }
    destruct (code c =? 116)%nat.
    { destruct (expect "rue" s'); [|discriminate].
      injection H as <- <-. reflexivity. }
    destruct (code c =? 102)%nat.
    { destruct (expect "alse" s'); [|discriminate].
      injection H as <- <-. reflexivity. }
    rewrite (scan_number_skip _ _ _ H). reflexivity.
  - cbn [scan_items] in H. cbn [skip_items].
    destruct (scan_once fuel s) as [[v r0]|] eqn:Eo; [|discriminate].
    rewrite (IHo _ _ _ Eo).
    destruct (skip_ws r0) as [|c r1]; [discriminate|].
    destruct (code c =? 93)%nat; [injection H as <- <-; reflexivity|].
    destruct (code c =? 44)%nat; [|discriminate].
    destruct (scan_items fuel (skip_ws r1)) as [[l r2]|] eqn:Ei; [|discriminate].
    injection H as <- <-. eapply IHi. exact Ei.
  - cbn [scan_members] in H. cbn [skip_members].
    destruct (scanstring s) as [[k r0]|] eqn:Es; [|discriminate].
    rewrite (scanstring_skip _ _ _ Es).
    destruct (skip_ws r0) as [|c r1]; [discriminate|].
    destruct (code c =? 58)%nat; [|discriminate].
    destruct (scan_once fuel (skip_ws r1)) as [[v r2]|] eqn:Eo; [|discriminate].
    rewrite (IHo _ _ _ Eo).
    destruct (skip_ws r2) as [|c2 r3]; [discriminate|].
    destruct (code c2 =? 125)%nat; [injection H as <- <-; reflexivity|].
    destruct (code c2 =? 44)%nat; [|discriminate].
    destruct (skip_ws r3) as [|c3 r4]; [discriminate|].
    destruct (code c3 =? 34)%nat; [|discriminate].
    destruct (scan_members fuel r4) as [[m r5]|] eqn:Em; [|discriminate].
    injection H as <- <-. eapply IHm. exact Em.
Qed.

(** A text that [decode] reads is one that [json.loads] accepts. *)
Lemma decode_is_json (s : string) (v : value) :
  decode s = Some v -> is_json s = true.
Proof.
  unfold decode, is_json.
  destruct (scan_once _ (skip_ws s)) as [[v0 r]|] eqn:E; [|discriminate].
  destruct (scan_skip (2 * String.length s + 2)) as [Ho _].
  rewrite (Ho _ _ _ E). destruct (skip_ws r); [reflexivity|discriminate].
Qed.

(** A text that [json.loads] refuses is one that [decode] refuses. *)
Lemma not_json_decode (s : string) : is_json s = false -> decode s = None.
Proof.
  intros H. destruct (decode s) as [v|] eqn:E; [|reflexivity].
  apply decode_is_json in E. congruence.
Qed.

(** ** The fuel of [is_json] is enough *)

Lemma skip_string_length (s : string) : forall (r : string),
  skip_string s = Some r -> String.length r < String.length s.
Proof.
  induction s as [s IH] using (well_founded_induction
    (Wf_nat.well_founded_ltof _ String.length)).
  unfold Wf_nat.ltof in IH. intros r.
  destruct s as [|c s']; [discriminate|]. cbn [skip_string].
  destruct (code c =? 34)%nat.
  { intros [= <-]. simpl. lia. }
  destruct (code c =? 92)%nat.
  { destruct s' as [|e s'']; [discriminate|].
    destruct (code e =? 117)%nat.
    - destruct s'' as [|h1 [|h2 [|h3 [|h4 r0]]]]; try discriminate.
      destruct (hex4 h1 h2 h3 h4) as [n|]; [|discriminate].
      intros E. apply IH in E; cbn [String.length] in *; lia.
    - destruct (unescape e); [|discriminate].
      intros E. apply IH in E; cbn [String.length] in *; lia. }
  destruct (code c <? 32)%nat; [discriminate|].
  intros E. apply IH in E; cbn [String.length] in *; lia.
Qed.

Lemma skip_digits_length (s : string) :
  String.length (skip_digits s) <= String.length s.
Proof.
  induction s as [|c s IH]; simpl; [lia|].
  destruct (is_digit c); simpl; lia.
Qed.

Lemma skip_fraction_length (s : string) :
  String.length (skip_fraction s) <= String.length s.
Proof.
  unfold skip_fraction. destruct s as [|c [|d r]]; try lia.
  destruct ((code c =? 46)%nat && is_digit d); [|lia].
  pose proof (skip_digits_length r). cbn [String.length]. lia.
Qed.

Lemma skip_exponent_length (s : string) :
  String.length (skip_exponent s) <= String.length s.
Proof.
  unfold skip_exponent. destruct s as [|c [|d r]]; try lia.
  destruct ((code c =? 101)%nat || (code c =? 69)%nat); [|lia].
  destruct (is_digit d).
  { pose proof (skip_digits_length r). cbn [String.length]. lia. }
  destruct ((code d =? 43)%nat || (code d =? 45)%nat); [|lia].
  destruct r as [|d' r']; [lia|].
  destruct (is_digit d'); [|lia].
  pose proof (skip_digits_length r'). cbn [String.length]. lia.
Qed.

Lemma skip_number_length (s r : string) :
  skip_number s = Some r -> String.length r < String.length s.
Proof.
  unfold skip_number. destruct s as [|c s]; [discriminate|].
  destruct (scan_uint (if (code c =? 45)%nat then s else String c s))
    as [[d r0]|] eqn:E; [|discriminate].
  intros [= <-]. apply scan_uint_length in E.
  pose proof (skip_fraction_length r0).
  pose proof (skip_exponent_length (skip_fraction r0)).
  destruct (code c =? 45)%nat; cbn [String.length] in *; lia.
Qed.

Lemma skip_fuel (fuel : nat) :
  skips_with skip_once 0 fuel
  /\ skips_with skip_items 1 fuel
  /\ skips_with skip_members 1 fuel.
Proof.
  induction fuel as [|fuel (IHo & IHi & IHm)].
  { split; [|split]; intros s r H; discriminate. }
  split; [|split]; intros s r H.
  - destruct s as [|c s']; [discriminate|]. cbn [skip_once] in H.
    destruct (code c =? 34)%nat eqn:E34.
    { pose proof (skip_string_length _ _ H) as L.
      split; [simpl; lia|]. intros g Hg.
      destruct g as [|g]; [cbn [String.length] in *; lia|].
      cbn [skip_once]. rewrite E34. exact H. }
    destruct (code c =? 123)%nat eqn:E123.
    { pose proof (skip_ws_length s') as Lw.
      destruct (skip_ws s') as [|c1 r1] eqn:Ew; [discriminate|].
      destruct (code c1 =? 125)%nat eqn:E125.
      { injection H as <-. cbn [String.length] in *. split; [lia|].
        intros g Hg. destruct g as [|g]; [lia|].
        cbn [skip_once]. rewrite E34, E123, Ew, E125. reflexivity. }
      destruct (code c1 =? 34)%nat eqn:E34'; [|discriminate].
      destruct (IHm _ _ H) as [L Hm].
      cbn [String.length] in *. split; [lia|].
      intros g Hg. destruct g as [|g]; [lia|].
      cbn [skip_once]. rewrite E34, E123, Ew, E125, E34'.
      apply Hm. lia. }
    destruct (code c =? 91)%nat eqn:E91.
    { pose proof (skip_ws_length s') as Lw.
      destruct (skip_ws s') as [|c1 r1] eqn:Ew; [discriminate|].
      destruct (code c1 =? 93)%nat eqn:E93.
      { injection H as <-. cbn [String.length] in *. split; [lia|].
        intros g Hg. destruct g as [|g]; [lia|].
        cbn [skip_once]. rewrite E34, E123, E91, Ew, E93. reflexivity. }
      destruct (IHi _ _ H) as [L Hi].
      cbn [String.length] in *. split; [lia|].
      intros g Hg. destruct g as [|g]; [lia|].
      cbn [skip_once]. rewrite E34, E123, E91, Ew, E93.
      apply Hi. cbn [String.length]. lia. }
    destruct (code c =? 110)%nat eqn:E110.
    { pose proof (expect_length _ _ _ H) as L.
      split; [simpl; lia|]. intros g Hg.
      destruct g as [|g]; [cbn [String.length] in *; lia|].
      cbn [skip_once]. rewrite E34, E123, E91, E110. exact H. }
    destruct (code c =? 116)%nat eqn:E116.
    { pose proof (expect_length _ _ _ H) as L.
      split; [simpl; lia|]. intros g Hg.
      destruct g as [|g]; [cbn [String.length] in *; lia|].
      cbn [skip_once]. rewrite E34, E123, E91, E110, E116. exact H. }
    destruct (code c =? 102)%nat eqn:E102.
    { pose proof (expect_length _ _ _ H) as L.
      split; [simpl; lia|]. intros g Hg.
      destruct g as [|g]; [cbn [String.length] in *; lia|].
      cbn [skip_once]. rewrite E34, E123, E91, E110, E116, E102. exact H. }
    assert (L : String.length r < String.length (String c s')).
    { destruct (skip_number (String c s')) as [r0|] eqn:En.
      - injection H as <-. apply skip_number_length. exact En.
      - destruct (code c =? 78)%nat.
        { apply expect_length in H. simpl. lia. }
        destruct (code c =? 73)%nat.
        { apply expect_length in H. simpl. lia. }
        destruct (code c =? 45)%nat; [|discriminate].
        apply expect_length in H. simpl. lia. }
    split; [exact L|]. intros g Hg.
    destruct g as [|g]; [cbn [String.length] in *; lia|].
    cbn [skip_once]. rewrite E34, E123, E91, E110, E116, E102. exact H.
  - cbn [skip_items] in H.
    destruct (skip_once fuel s) as [r0|] eqn:Eo; [|discriminate].
    destruct (IHo _ _ Eo) as [L Ho].
    pose proof (skip_ws_length r0) as Lw.
    destruct (skip_ws r0) as [|c r1] eqn:Ew; [discriminate|].
    destruct (code c =? 93)%nat eqn:E93.
    { injection H as <-. cbn [String.length] in *. split; [lia|].
      intros g Hg. destruct g as [|g]; [lia|].
      cbn [skip_items]. rewrite (Ho g) by lia. rewrite Ew, E93. reflexivity. }
    destruct (code c =? 44)%nat eqn:E44; [|discriminate].
    pose proof (skip_ws_length r1) as Lw1.
    destruct (IHi _ _ H) as [L2 Hi].
    cbn [String.length] in *. split; [lia|].
    intros g Hg. destruct g as [|g]; [lia|].
    cbn [skip_items]. rewrite (Ho g) by lia. rewrite Ew, E93, E44.
    apply Hi. lia.
  - cbn [skip_members] in H.
    destruct (skip_string s) as [r0|] eqn:Es; [|discriminate].
    pose proof (skip_string_length _ _ Es) as L0.
    pose proof (skip_ws_length r0) as Lw.
    destruct (skip_ws r0) as [|c r1] eqn:Ew; [discriminate|].
    destruct (code c =? 58)%nat eqn:E58; [|discriminate].
    pose proof (skip_ws_length r1) as Lw1.
    destruct (skip_once fuel (skip_ws r1)) as [r2|] eqn:Eo; [|discriminate].
    destruct (IHo _ _ Eo) as [L Ho].
    pose proof (skip_ws_length r2) as Lw2.
    destruct (skip_ws r2) as [|c2 r3] eqn:Ew2; [discriminate|].
    destruct (code c2 =? 125)%nat eqn:E125.
    { injection H as <-. cbn [String.length] in *. split; [lia|].
      intros g Hg. destruct g as [|g]; [lia|].
      cbn [skip_members]. rewrite Es, Ew, E58. rewrite (Ho g) by lia.
      rewrite Ew2, E125. reflexivity. }
    destruct (code c2 =? 44)%nat eqn:E44; [|discriminate].
    pose proof (skip_ws_length r3) as Lw3.
    destruct (skip_ws r3) as [|c3 r4] eqn:Ew3; [discriminate|].
    destruct (code c3 =? 34)%nat eqn:E34; [|discriminate].
    destruct (IHm _ _ H) as [L5 Hm].
    cbn [String.length] in *. split; [lia|].
    intros g Hg. destruct g as [|g]; [lia|].
    cbn [skip_members]. rewrite Es, Ew, E58. rewrite (Ho g) by lia.
    rewrite Ew2, E125, E44, Ew3, E34. apply Hm. lia.
Qed.

(** What [skip_once] reads with some fuel, [is_json] reads with its
    own. *)
Lemma is_json_fuel (fuel : nat) (s r : string) :
  skip_once fuel (skip_ws s) = Some r ->
  skip_ws r = EmptyString ->
  is_json s = true.
Proof.
  intros H Hr. unfold is_json.
  destruct (skip_fuel fuel) as [Ho _]. destruct (Ho _ _ H) as [L Hg].
  pose proof (skip_ws_length s) as Lw.
  rewrite (Hg (2 * String.length s + 2)) by lia.
  rewrite Hr. reflexivity.
Qed.

(** ** The decoder of [test_all_mcp_tools.send_request] *)

Lemma skipped_dropped (line : string) : skipped line -> dropped line.
Proof.
  intros [H|H]; [left; exact H|right; apply not_json_decode; exact H].
Qed.

Lemma dropped_skipped (line : string) :
  in_reach (strip line) -> dropped line -> skipped line.
Proof.
  intros Hr [H|H]; [left; exact H|right].
  destruct (is_json (strip line)) eqn:E; [|reflexivity].
  destruct (Hr E) as [v Hv]. congruence.
Qed.

Lemma startswith_bracket (s : string) :
  startswith s "[" = true -> startswith s "{" = false.
Proof.
  unfold startswith. destruct s as [|c s]; cbn [prefix]; [discriminate|].
  destruct (ascii_dec "[" c) as [e|ne]; [subst c; reflexivity|discriminate].
Qed.

Lemma set_stdout_same (p : Popen) : set_stdout p (stdout p) = p.
Proof. destruct p; reflexivity. Qed.

Lemma stdout_set_stdout (p : Popen) l : stdout (set_stdout p l) = l.
Proof. reflexivity. Qed.

(** One round of the loop. *)
Lemma read_response_S (n : nat) (p : Popen) :
  test_all_mcp_tools.read_response (S n) p =
  match stdout p with
  | [] => test_all_mcp_tools.read_response n p
  | line :: rest =>
      if startswith (strip line) "{" then
        match decode (strip line) with
        | Some v => (Ok v, set_stdout p rest)
        | None => test_all_mcp_tools.read_response n (set_stdout p rest)
        end
      else test_all_mcp_tools.read_response n (set_stdout p rest)
  end.
Proof.
  cbn [test_all_mcp_tools.read_response]. unfold bind at 1, readline.
  destruct (stdout p) as [|line rest].
  - reflexivity.
  - destruct line as [|c l]; [reflexivity|].
    cbn [nonempty negb].
    destruct (startswith (strip (String c l)) "[") eqn:Eb.
    + rewrite (startswith_bracket _ Eb). reflexivity.
    + destruct (startswith (strip (String c l)) "{") eqn:Ec; [|reflexivity].
      unfold bind, try_except, eval, ret, loads.
      destruct (decode (strip (String c l))); reflexivity.
Qed.

Lemma read_response_spec (n : nat) : forall p : Popen,
  (exists pre line post v,
      stdout p = (pre ++ line :: post)%list /\ List.length pre < n
      /\ Forall dropped pre /\ object_line line v
      /\ test_all_mcp_tools.read_response n p = (Ok v, set_stdout p post))
  \/ (Forall dropped (firstn n (stdout p))
      /\ test_all_mcp_tools.read_response n p
         = (Ok VNone, set_stdout p (skipn n (stdout p)))).
Proof.
  induction n as [|n IH]; intros p.
  - right. split; [constructor|]. simpl. rewrite set_stdout_same. reflexivity.
  - rewrite read_response_S. destruct (stdout p) as [|line rest] eqn:E.
    + right. split; [constructor|].
      destruct (IH p) as [(pre & l & post & v & H & _)|[_ H]].
      * rewrite E in H. destruct pre; discriminate.
      * rewrite H, E. destruct n; reflexivity.
    + assert (Hcont :
        dropped line ->
        (exists pre line0 post v,
          line :: rest = (pre ++ line0 :: post)%list /\ List.length pre < S n
          /\ Forall dropped pre /\ object_line line0 v
          /\ test_all_mcp_tools.read_response n (set_stdout p rest)
             = (Ok v, set_stdout p post))
        \/ (Forall dropped (firstn (S n) (line :: rest))
            /\ test_all_mcp_tools.read_response n (set_stdout p rest)
               = (Ok VNone, set_stdout p (skipn (S n) (line :: rest))))).
      { intros Hs.
        destruct (IH (set_stdout p rest))
          as [(pre & l & post & v & H1 & H2 & H3 & H4 & H5)|[H1 H2]].
        - left. exists (line :: pre), l, post, v.
          rewrite stdout_set_stdout in H1. subst rest.
          repeat split; try assumption; try (simpl; lia).
          + constructor; assumption.
          + apply H4.
          + apply H4.
        - right. rewrite stdout_set_stdout in *. split.
          + simpl. constructor; assumption.
          + rewrite H2. reflexivity. }
      destruct (startswith (strip line) "{") eqn:Ec.
      * destruct (decode (strip line)) as [v|] eqn:Ed.
        -- left. exists [], line, rest, v.
           repeat split; try assumption; try (simpl; lia). constructor.
        -- apply Hcont. right. assumption.
      * apply Hcont. left. assumption.
Qed.

(** *** What decodes to a dict begins with a brace, and conversely *)

Lemma code_inj (c : ascii) (n : nat) :
  (code c =? n)%nat = true -> c = ascii_of_nat n.
Proof.
  intros H. apply Nat.eqb_eq in H. rewrite <- H. unfold code.
  symmetry. apply ascii_nat_embedding.
Qed.

Lemma scan_number_int (s : string) (v : value) (r : string) :
  scan_number s = Some (v, r) -> exists n, v = VInt n.
Proof.
  unfold scan_number. destruct s as [|c s]; [discriminate|].
  destruct (code c =? 45)%nat.
  - destruct (scan_uint s) as [[d r0]|]; [|discriminate].
    destruct (float_follows r0); [discriminate|].
    intros [= <- <-]. eexists; reflexivity.
  - destruct (scan_uint (String c s)) as [[d r0]|]; [|discriminate].
    destruct (float_follows r0); [discriminate|].
    intros [= <- <-]. eexists; reflexivity.
Qed.

Lemma scan_once_dict (fuel : nat) (c : ascii) (s : string)
    (m : list (string * value)) (r : string) :
  scan_once fuel (String c s) = Some (VDict m, r) ->
  (code c =? 123)%nat = true.
Proof.
  destruct fuel as [|fuel]; [discriminate|]. cbn [scan_once].
  destruct (code c =? 34)%nat.
  { destruct (scanstring s) as [[t r0]|]; discriminate. }
  destruct (code c =? 123)%nat; [reflexivity|].
  destruct (code c =? 91)%nat.
  { destruct (skip_ws s) as [|c1 r1]; [discriminate|].
    destruct (code c1 =? 93)%nat; [discriminate|].
    destruct (scan_items fuel (String c1 r1)) as [[l r0]|]; discriminate. }
  destruct (code c =? 110)%nat.
  { destruct (expect "ull" s); discriminate. }
  destruct (code c =? 116)%nat.
  { destruct (expect "rue" s); discriminate. }
  destruct (code c =? 102)%nat.
  { destruct (expect "alse" s); discriminate. }
  intros H. apply scan_number_int in H. destruct H as [n H]. discriminate.
Qed.

Lemma scan_once_brace (fuel : nat) (s : string) (v : value) (r : string) :
  scan_once fuel (String "{" s) = Some (v, r) -> exists m, v = VDict m.
Proof.
  destruct fuel as [|fuel]; [discriminate|]. cbn [scan_once].
  change (code "{" =? 34)%nat with false.
  change (code "{" =? 123)%nat with true. cbv iota.
  destruct (skip_ws s) as [|c1 r1]; [discriminate|].
  destruct (code c1 =? 125)%nat.
  { intros [= <- <-]. eexists; reflexivity. }
  destruct (code c1 =? 34)%nat; [|discriminate].
  destruct (scan_members fuel r1) as [[pairs r0]|]; [|discriminate].
  intros [= <- <-]. eexists; reflexivity.
Qed.

Lemma startswith_brace (s : string) :
  startswith s "{" = true <-> exists t, s = String "{" t.
Proof.
  unfold startswith. split.
  - destruct s as [|c s]; cbn [prefix]; [discriminate|].
    destruct (ascii_dec "{" c) as [e|ne]; [|discriminate].
    subst c. intros _. eexists; reflexivity.
  - intros [t ->]. destruct t; reflexivity.
Qed.

Lemma decode_brace_dict (s : string) (v : value) :
  startswith s "{" = true -> decode s = Some v -> exists m, v = VDict m.
Proof.
  intros Hs. apply startswith_brace in Hs. destruct Hs as [t ->].
  unfold decode. cbn [skip_ws]. change (is_ws "{") with false. cbv iota.
  destruct (scan_once _ (String "{" t)) as [[v0 r]|] eqn:E; [|discriminate].
  destruct (skip_ws r); [|discriminate]. intros [= <-].
  eapply scan_once_brace. exact E.
Qed.

Lemma is_ws_isspace (c : ascii) : is_ws c = true -> isspace c = true.
Proof.
  unfold is_ws, isspace. intros H.
  repeat (apply orb_true_iff in H; destruct H as [H|H]);
    apply Nat.eqb_eq in H; rewrite H; reflexivity.
Qed.

Lemma lstrip_head (s : string) (c : ascii) (r : string) :
  lstrip s = String c r -> isspace c = false.
Proof.
  induction s as [|d s IH]; simpl; [discriminate|].
  destruct (isspace d) eqn:E; [assumption|].
  intros [= <- <-]. assumption.
Qed.

Lemma rstrip_head (s : string) (c : ascii) (r : string) :
  rstrip s = String c r -> exists t, s = String c t.
Proof.
  destruct s as [|d s]; simpl; [discriminate|].
  destruct (rstrip s).
  - destruct (isspace d); [discriminate|]. intros [= <- <-]. eexists; reflexivity.
  - intros [= <- <-]. eexists; reflexivity.
Qed.

Lemma strip_head (s : string) (c : ascii) (r : string) :
  strip s = String c r -> isspace c = false.
Proof.
  unfold strip. intros H. apply rstrip_head in H. destruct H as [t H].
  eapply lstrip_head. exact H.
Qed.

Lemma decode_dict_brace (line : string) (m : list (string * value)) :
  decode (strip line) = Some (VDict m) -> startswith (strip line) "{" = true.
Proof.
  destruct (strip line) as [|c r] eqn:E; [discriminate|].
  pose proof (strip_head _ _ _ E) as Hc.
  assert (Hw : is_ws c = false).
  { destruct (is_ws c) eqn:W; [|reflexivity].
    apply is_ws_isspace in W. congruence. }
  unfold decode. cbn [skip_ws]. rewrite Hw.
  destruct (scan_once _ (String c r)) as [[v0 r0]|] eqn:S; [|discriminate].
  destruct (skip_ws r0); [|discriminate]. intros [= ->].
  apply scan_once_dict in S. apply code_inj in S. subst c.
  apply startswith_brace. eexists; reflexivity.
Qed.

Lemma object_line_dict (line : string) (v : value) :
  object_line line v -> exists m, v = VDict m.
Proof. intros [H1 H2]. eapply decode_brace_dict; eassumption. Qed.

(** *** Sending *)

Lemma write_ok (p : Popen) (text : string) :
  stdin_room p <> Some 0 -> write text p = (Ok tt, wrote p text).
Proof.
  unfold write, wrote. destruct (stdin_room p) as [[|n]|]; try reflexivity.
  intros H. exfalso. apply H. reflexivity.
Qed.

Lemma write_full (p : Popen) (text : string) :
  stdin_room p = Some 0 -> write text p = (Raise BrokenPipeError, p).
Proof. unfold write. intros ->. reflexivity. Qed.

Lemma send_request_ok (request : value) (p : Popen) :
  stdin_room p <> Some 0 ->
  test_all_mcp_tools.send_request request p
  = test_all_mcp_tools.read_response test_all_mcp_tools.max_attempts
      (wrote p (encode request)).
Proof.
  intros H. unfold test_all_mcp_tools.send_request, bind.
  fold nl. fold (encode request). rewrite (write_ok _ _ H). reflexivity.
Qed.

Lemma send_request_full (request : value) (p : Popen) :
  stdin_room p = Some 0 ->
  test_all_mcp_tools.send_request request p = (Raise BrokenPipeError, p).
Proof.
  intros H. unfold test_all_mcp_tools.send_request, bind.
  rewrite (write_full _ _ H). reflexivity.
Qed.

Lemma read_response_skip (noise : list string) : forall (n : nat) (p : Popen)
    (rest : list string),
  Forall skipped noise ->
  stdout p = (noise ++ rest)%list ->
  test_all_mcp_tools.read_response (List.length noise + n) p
  = test_all_mcp_tools.read_response n (set_stdout p rest).
Proof.
  induction noise as [|l noise IH]; intros n p rest Hs E.
  - simpl in *. rewrite <- E, set_stdout_same. reflexivity.
  - inversion Hs as [|? ? Hl Hn]; subst.
    cbn [List.length Nat.add]. rewrite read_response_S, E.
    cbn [List.app].
    assert (Hgo : test_all_mcp_tools.read_response (List.length noise + n)
                    (set_stdout p (noise ++ rest)%list)
                  = test_all_mcp_tools.read_response n (set_stdout p rest)).
    { rewrite (IH n (set_stdout p (noise ++ rest)%list) rest Hn eq_refl).
      reflexivity. }
    destruct (skipped_dropped _ Hl) as [Hd|Hd]; rewrite Hd.
    + exact Hgo.
    + destruct (startswith (strip l) "{"); exact Hgo.
Qed.

Lemma read_response_object (n : nat) (p : Popen) (line : string)
    (rest : list string) (v : value) :
  stdout p = line :: rest -> object_line line v ->
  test_all_mcp_tools.read_response (S n) p = (Ok v, set_stdout p rest).
Proof.
  intros E [H1 H2]. rewrite read_response_S, E, H1, H2. reflexivity.
Qed.

(** Claim C4.  Decoding the encoded form of a request gives the request
    back.  For every request, a dict all of whose dicts have distinct
    keys: the line that [send_request] writes for it is its JSON text and
    a newline; stripping that line and parsing it with [json.loads] gives
    a value equal to the request; and when that line is the next one on
    the response stream, [send_request] returns the request. *)
Theorem send_request_decodes_its_own_encoding
    (m : list (string * value)) (p : Popen) (rest : list string) :
  wf (VDict m) = true ->
  stdin_room p <> Some 0 ->
  stdout p = encode (VDict m) :: rest ->
  loads (strip (encode (VDict m))) = Ok (VDict m)
  /\ exists p',
       test_all_mcp_tools.send_request (VDict m) p = (Ok (VDict m), p')
       /\ stdin p' = (stdin p ++ [encode (VDict m)])%list
       /\ stdout p' = rest.
Proof.
  intros Hwf Hroom Hout.
  assert (Hs : strip (encode (VDict m)) = dumps (VDict m))
    by apply strip_dumps_dict.
  split.
  - rewrite Hs. apply loads_dumps. exact Hwf.
  - rewrite (send_request_ok _ _ Hroom).
    eexists. split; [|split].
    + apply read_response_object with (line := encode (VDict m)).
      * exact Hout.
      * split.
        -- rewrite Hs. apply startswith_brace. eexists. reflexivity.
        -- rewrite Hs. apply decode_dumps. exact Hwf.
    + reflexivity.
    + reflexivity.
Qed.

Lemma send_request_decodes_its_own_encoding_witness :
  loads (strip (encode initialize_request)) = Ok initialize_request
  /\ exists p',
       test_all_mcp_tools.send_request initialize_request echo_child
       = (Ok initialize_request, p')
       /\ stdin p' = (stdin echo_child ++ [encode initialize_request])%list
       /\ stdout p' = [].
Proof.
  apply (send_request_decodes_its_own_encoding
           [("jsonrpc", VStr "2.0"); ("method", VStr "initialize");
            ("params", VDict []); ("id", VInt 1)] echo_child []).
  - vm_compute. reflexivity.
  - vm_compute. discriminate.
  - vm_compute. reflexivity.
Defined.

(** Claim C3 fails as stated.  The stream holds ten lines that are not
    JSON, stripped or not, and then one line with a JSON object;
    [send_request] returns [None], not the object: each of the ten lines
    has used up one of the ten attempts. *)
Lemma ten_noise_lines_hide_the_response :
  stdout noisy_child = (repeat noise_line 10 ++ [encode pong_response])%list
  /\ Forall (fun l => is_json l = false /\ is_json (strip l) = false)
       (repeat noise_line 10)
  /\ decode (strip (encode pong_response)) = Some pong_response
  /\ fst (test_all_mcp_tools.send_request initialize_request noisy_child)
     = Ok VNone.
Proof.
  split; [reflexivity|]. split; [|split].
  - repeat constructor.
  - vm_compute. reflexivity.
  - vm_compute. reflexivity.
Qed.

(** Claim C3, amended.  For every response stream that holds fewer than
    ten lines whose stripped text is not JSON and then a line whose
    stripped text is a JSON object, [send_request] returns exactly that
    object, all the lines before it are discarded and none of them makes
    it fail. *)
Theorem response_after_fewer_than_ten_noise_lines
    (request : value) (p : Popen) (noise : list string) (line : string)
    (rest : list string) (m : list (string * value)) :
  stdin_room p <> Some 0 ->
  stdout p = (noise ++ line :: rest)%list ->
  Forall (fun l => is_json (strip l) = false) noise ->
  List.length noise < test_all_mcp_tools.max_attempts ->
  decode (strip line) = Some (VDict m) ->
  exists p',
    test_all_mcp_tools.send_request request p = (Ok (VDict m), p')
    /\ stdout p' = rest.
Proof.
  intros Hroom Hout Hnoise Hlen Hline.
  rewrite (send_request_ok _ _ Hroom).
  unfold test_all_mcp_tools.max_attempts in *.
  replace 10 with (List.length noise + S (9 - List.length noise)) by lia.
  rewrite (read_response_skip noise _ (wrote p (encode request)) (line :: rest)).
  - eexists. split.
    + apply read_response_object with (line := line); [reflexivity|].
      split; [|exact Hline]. eapply decode_dict_brace. exact Hline.
    + reflexivity.
  - eapply Forall_impl; [|exact Hnoise]. intros l Hl. right. exact Hl.
  - exact Hout.
Qed.

Lemma response_after_fewer_than_ten_noise_lines_witness :
  exists p',
    test_all_mcp_tools.send_request initialize_request quiet_child
    = (Ok pong_response, p')
    /\ stdout p' = [].
Proof.
  apply (response_after_fewer_than_ten_noise_lines initialize_request
           quiet_child (repeat noise_line 9) (encode pong_response) []
           [("jsonrpc", VStr "2.0"); ("id", VInt 1);
            ("result", VDict [("content",
                               VList [VDict [("type", VStr "text");
                                             ("text", VStr "Pong slunk!")]])])]).
  - vm_compute. discriminate.
  - reflexivity.
  - repeat constructor.
  - vm_compute. lia.
  - vm_compute. reflexivity.
Defined.

(** ** [verify_all_tools] *)

(** The loop reads lines and changes nothing else of the child; it does
    not raise. *)
Lemma poll_spec (readings : list Q) : forall (start_time : Q) (p : Popen),
  exists (v : value) (readings' : list Q) (p' : Popen),
    V.poll start_time readings p = (Ok v, (readings', p'))
    /\ stdin p' = stdin p /\ stdin_room p' = stdin_room p
    /\ state p' = state p
    /\ exists k, stdout p' = skipn k (stdout p).
Proof.
  induction readings as [|now readings IH]; intros start_time p.
  - exists VNone, [], p. repeat split. exists 0. reflexivity.
  - cbn [V.poll].
    destruct (V.Qlt_bool (now - start_time) 10).
    + unfold readline. destruct (stdout p) as [|line rest] eqn:E.
      * cbn [nonempty].
        destruct (IH start_time p) as (v & rd & p' & H & H1 & H2 & H3 & k & Hk).
        exists v, rd, p'. rewrite H. repeat split; try assumption.
        exists k. rewrite Hk, E. reflexivity.
      * assert (Hcont :
          exists v readings' p',
            V.poll start_time readings (set_stdout p rest)
            = (Ok v, (readings', p'))
            /\ stdin p' = stdin p /\ stdin_room p' = stdin_room p
            /\ state p' = state p
            /\ exists k, stdout p' = skipn k (line :: rest)).
        { destruct (IH start_time (set_stdout p rest))
            as (v & rd & p' & H & H1 & H2 & H3 & k & Hk).
          exists v, rd, p'. repeat split; try assumption.
          exists (S k). exact Hk. }
        destruct line as [|c l]; cbn [nonempty]; [exact Hcont|].
        unfold loads. destruct (decode (String c l)) as [v|]; [|exact Hcont].
        exists v, readings, (set_stdout p rest). repeat split.
        exists 1. reflexivity.
    + exists VNone, readings, p. repeat split. exists 0. reflexivity.
Qed.

Lemma set_stdout_twice (p : Popen) (l1 l2 : list string) :
  set_stdout (set_stdout p l1) l2 = set_stdout p l2.
Proof. reflexivity. Qed.

(** The loop returns the value of the first line that decodes, when it
    reads that far before the ten seconds are over. *)
Lemma poll_found (pre : list string) : forall (readings : list Q)
    (start_time : Q) (p : Popen) (line : string) (post : list string)
    (v : value),
  stdout p = (pre ++ line :: post)%list ->
  List.length pre < in_time start_time readings ->
  Forall (fun l => decode l = None) pre ->
  decode line = Some v ->
  V.poll start_time readings p
  = (Ok v, (skipn (S (List.length pre)) readings, set_stdout p post)).
Proof.
  induction pre as [|l pre IH]; intros readings start_time p line post v
    Hout Hlen Hpre Hline.
  - destruct readings as [|now readings]; cbn [in_time] in Hlen;
      [cbn in Hlen; lia|].
    cbn [V.poll]. destruct (V.Qlt_bool (now - start_time) 10);
      [|cbn in Hlen; lia].
    unfold readline. rewrite Hout. cbn [List.app].
    destruct line as [|c line]; [discriminate|]. cbn [nonempty].
    unfold loads. rewrite Hline. reflexivity.
  - destruct readings as [|now readings]; cbn [in_time] in Hlen;
      [cbn in Hlen; lia|].
    cbn [V.poll]. destruct (V.Qlt_bool (now - start_time) 10);
      [|cbn in Hlen; lia].
    inversion Hpre as [|? ? Hl Hpre']; subst.
    unfold readline. rewrite Hout. cbn [List.app].
    assert (Hgo : V.poll start_time readings
                    (set_stdout p (pre ++ line :: post)%list)
                  = (Ok v, (skipn (S (List.length (l :: pre))) (now :: readings),
                            set_stdout p post))).
    { rewrite (IH readings start_time
                 (set_stdout p (pre ++ line :: post)%list) line post v);
        [reflexivity|reflexivity| |exact Hpre'|exact Hline].
      cbn [List.length] in Hlen. lia. }
    destruct l as [|c l]; cbn [nonempty]; [exact Hgo|].
    unfold loads. rewrite Hl. exact Hgo.
Qed.

(** The loop returns [None] when no line that it reads before the ten
    seconds are over decodes, and leaves the lines after these unread. *)
Lemma poll_none (readings : list Q) : forall (start_time : Q) (p : Popen),
  Forall (fun l => decode l = None)
    (firstn (in_time start_time readings) (stdout p)) ->
  V.poll start_time readings p
  = (Ok VNone,
     (skipn (S (in_time start_time readings)) readings,
      set_stdout p (skipn (in_time start_time readings) (stdout p)))).
Proof.
  induction readings as [|now readings IH]; intros start_time p Hun.
  - cbn. rewrite set_stdout_same. reflexivity.
  - cbn [V.poll in_time] in *.
    destruct (V.Qlt_bool (now - start_time) 10).
    + unfold readline. destruct (stdout p) as [|l rest] eqn:E.
      * cbn [nonempty]. rewrite (IH start_time p).
        -- rewrite E, !skipn_nil. reflexivity.
        -- rewrite E, firstn_nil. constructor.
      * cbn [firstn] in Hun. inversion Hun as [|? ? Hl Hrest]; subst.
        assert (Hgo : V.poll start_time readings (set_stdout p rest)
                      = (Ok VNone,
                         (skipn (S (S (in_time start_time readings)))
                            (now :: readings),
                          set_stdout p
                            (skipn (S (in_time start_time readings))
                               (l :: rest))))).
        { rewrite (IH start_time (set_stdout p rest) Hrest). reflexivity. }
        destruct l as [|c l]; cbn [nonempty]; [exact Hgo|].
        unfold loads. rewrite Hl. exact Hgo.
    + cbn. rewrite set_stdout_same. reflexivity.
Qed.

Lemma unparsable_undecoded (lines : list string) :
  Forall unparsable lines -> Forall (fun l => decode l = None) lines.
Proof.
  intros H. eapply Forall_impl; [|exact H].
  intros l Hl. apply not_json_decode. exact Hl.
Qed.

(** *** What a run writes to the child *)

Lemma writes_writes_some {A : Type} (c : M V.state A) lines :
  writes c lines -> writes_some c lines.
Proof.
  intros H s r s' E Hp. destruct (H s r s' E Hp) as (H1 & H2 & H3).
  split; [assumption|]. destruct r as [a|e].
  - exists (List.length lines). rewrite firstn_all. eapply H2. reflexivity.
  - eapply H3. reflexivity.
Qed.

Lemma writes_ret {A : Type} (a : A) : writes (ret (St := V.state) a) [].
Proof.
  intros s r s' E Hp. unfold ret in E. injection E as <- <-.
  split; [assumption|]. split.
  - intros _ _. rewrite List.app_nil_r. reflexivity.
  - intros e He. discriminate.
Qed.

Lemma writes_eval {A : Type} (x : result A) : writes (eval (St := V.state) x) [].
Proof.
  intros s r s' E Hp. unfold eval in E. injection E as <- <-.
  split; [assumption|]. split.
  - intros _ _. rewrite List.app_nil_r. reflexivity.
  - intros e He. exists 0. rewrite List.app_nil_r. reflexivity.
Qed.

Lemma firstn_app_le {A : Type} (k : nat) (l1 l2 : list A) :
  exists k', firstn k l1 = firstn k' (l1 ++ l2)%list.
Proof.
  destruct (Nat.le_ge_cases k (List.length l1)) as [H|H].
  - exists k. rewrite firstn_app.
    replace (k - List.length l1) with 0 by lia.
    rewrite firstn_O, List.app_nil_r. reflexivity.
  - exists (List.length l1). rewrite firstn_app, Nat.sub_diag, firstn_O.
    rewrite List.app_nil_r, firstn_all, firstn_all2 by lia. reflexivity.
Qed.

Lemma app_firstn_app {A : Type} (k : nat) (l1 l2 : list A) :
  exists k', (l1 ++ firstn k l2)%list = firstn k' (l1 ++ l2)%list.
Proof.
  exists (List.length l1 + k). rewrite firstn_app.
  rewrite (@firstn_all2 _ (List.length l1 + k) l1) by lia.
  replace (List.length l1 + k - List.length l1) with k by lia. reflexivity.
Qed.

Lemma writes_bind {A B : Type} (c : M V.state A) (k : A -> M V.state B)
    (l1 l2 : list string) :
  writes c l1 -> (forall a, writes (k a) l2) ->
  writes (bind c k) (l1 ++ l2)%list.
Proof.
  intros Hc Hk s r s' E Hp. unfold bind in E.
  destruct (c s) as [[a|e] s1] eqn:Ec.
  - destruct (Hc s _ s1 Ec Hp) as (P1 & O1 & _).
    specialize (O1 a eq_refl).
    destruct (Hk a s1 r s' E P1) as (P2 & O2 & R2).
    split; [assumption|]. split.
    + intros b Hb. rewrite (O2 b Hb), O1, List.app_assoc. reflexivity.
    + intros e He. destruct (R2 e He) as [j Hj]. rewrite Hj, O1.
      destruct (app_firstn_app j l1 l2) as [k' Hk'].
      exists k'. rewrite <- Hk', List.app_assoc. reflexivity.
  - injection E as <- <-.
    destruct (Hc s _ s1 Ec Hp) as (P1 & _ & R1).
    split; [assumption|]. split; [intros b Hb; discriminate|].
    intros e' He'. destruct (R1 e eq_refl) as [j Hj].
    destruct (firstn_app_le j l1 l2) as [k' Hk'].
    exists k'. rewrite Hj, Hk'. reflexivity.
Qed.

Lemma writes_some_bind {A B : Type} (c : M V.state A)
    (k : A -> M V.state B) (l1 l2 : list string) :
  writes c l1 -> (forall a, writes_some (k a) l2) ->
  writes_some (bind c k) (l1 ++ l2)%list.
Proof.
  intros Hc Hk s r s' E Hp. unfold bind in E.
  destruct (c s) as [[a|e] s1] eqn:Ec.
  - destruct (Hc s _ s1 Ec Hp) as (P1 & O1 & _).
    specialize (O1 a eq_refl).
    destruct (Hk a s1 r s' E P1) as (P2 & j & Hj).
    split; [assumption|]. rewrite Hj, O1.
    destruct (app_firstn_app j l1 l2) as [k' Hk'].
    exists k'. rewrite <- Hk', List.app_assoc. reflexivity.
  - injection E as <- <-.
    destruct (Hc s _ s1 Ec Hp) as (P1 & _ & R1).
    split; [assumption|]. destruct (R1 e eq_refl) as [j Hj].
    destruct (firstn_app_le j l1 l2) as [k' Hk'].
    exists k'. rewrite Hj, Hk'. reflexivity.
Qed.

Lemma writes_some_nothing {A : Type} (c : M V.state A) (lines : list string) :
  writes c [] -> writes_some c lines.
Proof.
  intros H s r s' E Hp. destruct (writes_writes_some c [] H s r s' E Hp)
    as (P & k & Hk).
  split; [assumption|]. exists 0. rewrite Hk, firstn_nil. reflexivity.
Qed.

Lemma writes_set_result (k : string) (v : value) :
  writes (V.set_result k v) [].
Proof.
  intros s r s' E Hp. unfold V.set_result in E. injection E as <- <-.
  split; [assumption|]. split.
  - intros _ _. unfold sent. simpl. rewrite List.app_nil_r. reflexivity.
  - intros e He. discriminate.
Qed.

Lemma verify_send_request_unfold (method : string) (params : value) (id : Z)
    (s : V.state) (p : Popen) :
  V.proc s = Some p -> stdin_room p <> Some 0 ->
  V.send_request method params id s =
  match V.clock s with
  | [] =>
      (Ok VNone,
       V.set_proc s (Some (wrote p (line_of method params id))))
  | start_time :: readings =>
      let '(r, (readings', p')) :=
        V.poll start_time readings (wrote p (line_of method params id)) in
      (r, V.mkState (Some p') (V.test_results s) readings' (V.launch s))
  end.
Proof.
  intros Hp Hroom. unfold V.send_request, bind, V.on_proc. rewrite Hp.
  fold nl. fold (line_of method params id).
  rewrite (write_ok _ _ Hroom). cbn [V.proc V.set_proc V.clock].
  destruct (V.clock s); reflexivity.
Qed.

Lemma verify_send_request_full (method : string) (params : value) (id : Z)
    (s : V.state) (p : Popen) :
  V.proc s = Some p -> stdin_room p = Some 0 ->
  V.send_request method params id s = (Raise BrokenPipeError, s).
Proof.
  intros Hp Hroom. unfold V.send_request, bind, V.on_proc. rewrite Hp.
  rewrite (write_full _ _ Hroom). destruct s. simpl in *. subst. reflexivity.
Qed.

Lemma writes_send_request (method : string) (params : value) (id : Z) :
  writes (V.send_request method params id) [line_of method params id].
Proof.
  intros s r s' E Hp. destruct (V.proc s) as [p|] eqn:Ep; [|congruence].
  destruct (stdin_room p) as [[|n]|] eqn:Er.
  - rewrite (verify_send_request_full _ _ _ s p Ep Er) in E. injection E as <- <-.
    split; [congruence|]. split; [intros a Ha; discriminate|].
    intros e He. exists 0. rewrite List.app_nil_r. reflexivity.
  - rewrite (verify_send_request_unfold _ _ _ s p Ep) in E by congruence.
    destruct (V.clock s) as [|start_time readings].
    + injection E as <- <-. split; [discriminate|].
      unfold sent. rewrite Ep. cbn. split.
      * intros _ _. reflexivity.
      * intros e He. discriminate.
    + destruct (poll_spec readings start_time (wrote p (line_of method params id)))
        as (v0 & rd & p' & H & H1 & _).
      rewrite H in E. injection E as <- <-. split; [discriminate|].
      unfold sent. rewrite Ep. cbn. rewrite H1. cbn. split.
      * intros _ _. reflexivity.
      * intros e He. exists 1. reflexivity.
  - rewrite (verify_send_request_unfold _ _ _ s p Ep) in E by congruence.
    destruct (V.clock s) as [|start_time readings].
    + injection E as <- <-. split; [discriminate|].
      unfold sent. rewrite Ep. cbn. split.
      * intros _ _. reflexivity.
      * intros e He. discriminate.
    + destruct (poll_spec readings start_time (wrote p (line_of method params id)))
        as (v0 & rd & p' & H & H1 & _).
      rewrite H in E. injection E as <- <-. split; [discriminate|].
      unfold sent. rewrite Ep. cbn. rewrite H1. cbn. split.
      * intros _ _. reflexivity.
      * intros e He. exists 1. reflexivity.
Qed.

Lemma writes_bind_nil {A B : Type} (c : M V.state A) (k : A -> M V.state B) :
  writes c [] -> (forall a, writes (k a) []) -> writes (bind c k) [].
Proof. intros Hc Hk. apply (writes_bind c k [] [] Hc Hk). Qed.

Lemma writes_some_bind_nil {A B : Type} (c : M V.state A)
    (k : A -> M V.state B) (lines : list string) :
  writes c [] -> (forall a, writes_some (k a) lines) ->
  writes_some (bind c k) lines.
Proof. intros Hc Hk. apply (writes_some_bind c k [] lines Hc Hk). Qed.

Ltac quiet :=
  repeat first
    [ apply writes_ret
    | apply writes_eval
    | apply writes_set_result
    | apply writes_bind_nil; [|intros ?]
    | match goal with
      | |- writes (if ?b then _ else _) _ => destruct b
      | |- writes (match ?x with _ => _ end) _ => destruct x
      end ].

Lemma writes_verify_tool (tool_name : string) (test_params : value) :
  writes (V.verify_tool tool_name test_params)
    [line_of "tools/call"
       (VDict [("name", VStr tool_name); ("arguments", test_params)])
       V.request_id_default].
Proof.
  unfold V.verify_tool.
  apply (writes_bind _ _ [_] []); [apply writes_send_request|].
  intros response. quiet.
Qed.

Lemma writes_for_each_nil {A : Type} (l : list A) (body : A -> M V.state unit) :
  (forall x, writes (body x) []) -> writes (for_each l body) [].
Proof.
  intros H. induction l as [|x l IH]; cbn [for_each].
  - apply writes_ret.
  - apply writes_bind_nil; [apply H|intros _; exact IH].
Qed.

Lemma writes_for_each {A : Type} (l : list A) (body : A -> M V.state unit)
    (f : A -> string) :
  (forall x, writes (body x) [f x]) -> writes (for_each l body) (map f l).
Proof.
  intros H. induction l as [|x l IH]; cbn [for_each map].
  - apply writes_ret.
  - apply (writes_bind _ _ [f x] (map f l)); [apply H|intros _; exact IH].
Qed.

Lemma writes_some_exercise_server :
  writes_some V.exercise_server expected_lines.
Proof.
  unfold V.exercise_server, expected_lines.
  apply (writes_some_bind _ _ [_] _); [apply writes_send_request|].
  intros init_response.
  apply writes_some_bind_nil; [quiet|]. intros initialized.
  destruct initialized; [|apply writes_some_nothing; quiet].
  apply writes_some_bind_nil; [quiet|]. intros r.
  apply writes_some_bind_nil; [quiet|]. intros server_info.
  apply writes_some_bind_nil; [quiet|]. intros _.
  apply writes_some_bind_nil; [quiet|]. intros _.
  apply (writes_some_bind _ _ [_] _); [apply writes_send_request|].
  intros tools_response.
  apply writes_some_bind_nil; [quiet|]. intros listed.
  destruct listed; [|apply writes_some_nothing; quiet].
  apply writes_some_bind_nil; [quiet|]. intros r'.
  apply writes_some_bind_nil; [quiet|]. intros tools.
  apply writes_some_bind_nil; [quiet|]. intros _.
  apply writes_some_bind_nil; [quiet|]. intros items.
  apply writes_some_bind_nil.
  { apply writes_for_each_nil. intros tool. quiet. }
  intros _. apply writes_writes_some.
  apply writes_for_each. intros [[name params] descr].
  apply (writes_bind _ _ [_] []); [apply writes_verify_tool|].
  intros _. apply writes_ret.
Qed.

Lemma cleanup_spec (s : V.state) :
  exists s', V.cleanup s = (Ok tt, s')
    /\ sent s' = sent s
    /\ match V.proc s with
       | None => V.proc s' = None
       | Some _ => exists p', V.proc s' = Some p' /\ state p' = Reaped
       end.
Proof.
  unfold V.cleanup, V.on_proc, sent. destruct (V.proc s) as [p|] eqn:E.
  - unfold bind, terminate, wait.
    destruct (state p); eexists; (split; [reflexivity|]); cbn;
      (split; [reflexivity|]); eexists; split; reflexivity.
  - eexists. split; [reflexivity|]. rewrite E. split; reflexivity.
Qed.

Lemma main_spec (s : V.state) :
  V.proc s = None ->
  exists r s', V.main s = (r, s')
    /\ match V.launch s with
       | None => V.proc s' = None
       | Some child =>
           exists p' k,
             V.proc s' = Some p' /\ state p' = Reaped
             /\ stdin p' = (stdin child ++ firstn k expected_lines)%list
       end.
Proof.
  intros Hfresh. unfold V.main, try_finally, try_except.
  unfold V.run_all_tests. unfold bind at 1. unfold bind at 1.
  unfold V.start_server at 1.
  destruct (V.launch s) as [child|] eqn:El.
  - destruct (V.exercise_server (V.set_proc s (Some child))) as [r1 s1] eqn:E1.
    destruct (writes_some_exercise_server _ _ _ E1 ltac:(discriminate))
      as (P1 & k & Hk).
    change (match r1 with
            | Ok a => (fun _ : unit => V.print_summary) a s1
            | Raise e => (Raise e, s1)
            end)
      with (match r1 with
            | Ok _ => V.print_summary s1
            | Raise e => (@Raise unit e, s1)
            end).
    destruct (match r1 with
              | Ok _ => V.print_summary s1
              | Raise e => (@Raise unit e, s1)
              end) as [r3 s3] eqn:E3.
    assert (s3 = s1) by (destruct r1; inversion E3; reflexivity). subst s3.
    destruct (cleanup_spec s1) as (s' & Hc & Hs & Hp).
    destruct (V.proc s1) as [p1|] eqn:Ep1; [|congruence].
    destruct Hp as (p' & Hp' & Hst).
    assert (Hsent : stdin p' = (stdin child ++ firstn k expected_lines)%list).
    { unfold sent in Hs, Hk. rewrite Hp', Ep1 in Hs. rewrite Ep1 in Hk.
      cbn in Hk. rewrite Hs, Hk. reflexivity. }
    destruct r3 as [a|e]; cbn; rewrite Hc; eexists; eexists;
      (split; [reflexivity|]); exists p', k; auto.
  - cbn. destruct (cleanup_spec s) as (s' & Hc & Hs & Hp). rewrite Hc.
    rewrite Hfresh in Hp. eexists; eexists. split; [reflexivity|assumption].
Qed.

(** *** Correlation ids *)

Lemma line_of_decodes (method : string) (params : value) (request_id : Z) :
  wf params = true ->
  decode (strip (line_of method params request_id))
  = Some (VDict [("jsonrpc", VStr "2.0"); ("method", VStr method);
                 ("params", or_else params (VDict []));
                 ("id", VInt request_id)]).
Proof.
  intros Hwf. unfold line_of, V.request, nl.
  rewrite strip_dumps_dict. apply decode_dumps.
  cbn [wf map fst snd forallb distinct existsb negb andb orb].
  unfold or_else. destruct (truthy params); cbn; rewrite ?Hwf; reflexivity.
Qed.

Lemma line_of_fields (method : string) (params : value) (request_id : Z) :
  wf params = true ->
  sent_field (line_of method params request_id) "method" = Some (VStr method)
  /\ sent_field (line_of method params request_id) "id"
     = Some (VInt request_id).
Proof.
  intros Hwf. unfold sent_field. rewrite (line_of_decodes _ _ _ Hwf).
  split; reflexivity.
Qed.

(** With room on the input of the child, [send_request] writes its line
    and returns what the loop returns; it does not raise. *)
Lemma verify_send_request_writes (method : string) (params : value) (id : Z)
    (s : V.state) (p : Popen) :
  V.proc s = Some p -> stdin_room p <> Some 0 ->
  exists v s' p',
    V.send_request method params id s = (Ok v, s')
    /\ V.proc s' = Some p'
    /\ stdin p' = (stdin p ++ [line_of method params id])%list
    /\ V.test_results s' = V.test_results s.
Proof.
  intros Hp Hroom. rewrite (verify_send_request_unfold _ _ _ s p Hp Hroom).
  destruct (V.clock s) as [|start_time readings].
  - eexists; eexists; eexists. split; [reflexivity|]. cbn. auto.
  - destruct (poll_spec readings start_time (wrote p (line_of method params id)))
      as (v & rd & p' & H & H1 & _).
    rewrite H. exists v. eexists; exists p'. split; [reflexivity|].
    cbn. rewrite H1. auto.
Qed.

Lemma verify_tool_after (tool_name : string) (test_params : value) :
  exists K : value -> M V.state bool,
    V.verify_tool tool_name test_params
    = bind (V.send_request "tools/call"
              (VDict [("name", VStr tool_name); ("arguments", test_params)])
              V.request_id_default) K
    /\ forall response, writes (K response) [].
Proof.
  eexists. split; [reflexivity|]. intros response. cbv beta. quiet.
Qed.

(** With room on the input of the child, [verify_tool] writes one line,
    whatever comes back and whether it returns or raises. *)
Lemma verify_tool_writes (tool_name : string) (test_params : value)
    (s : V.state) (p : Popen) :
  V.proc s = Some p -> stdin_room p <> Some 0 ->
  exists r s' p',
    V.verify_tool tool_name test_params s = (r, s')
    /\ V.proc s' = Some p'
    /\ stdin p'
       = (stdin p ++ [call_line (tool_name, test_params, EmptyString)])%list.
Proof.
  intros Hp Hroom.
  destruct (verify_tool_after tool_name test_params) as (K & -> & HK).
  destruct (verify_send_request_writes "tools/call"
              (VDict [("name", VStr tool_name); ("arguments", test_params)])
              V.request_id_default s p Hp Hroom)
    as (v & s1 & p1 & Hs & Hp1 & Hin & _).
  unfold bind. rewrite Hs.
  destruct (K v s1) as [r s'] eqn:E.
  assert (Hne : V.proc s1 <> None) by congruence.
  destruct (writes_writes_some _ _ (HK v) s1 r s' E Hne) as (P & k & Hk).
  destruct (V.proc s') as [p'|] eqn:Ep'; [|congruence].
  exists r, s', p'. split; [reflexivity|]. split; [exact Ep'|].
  unfold sent in Hk. rewrite Ep', Hp1, firstn_nil, List.app_nil_r in Hk.
  rewrite Hk, Hin. reflexivity.
Qed.

Lemma exercise_server_after_handshake :
  exists K : value -> M V.state unit,
    V.exercise_server
    = bind (V.send_request "initialize" VNone V.request_id_default) K
    /\ forall init_response,
         writes_some (K init_response)
           (line_of "tools/list" (VDict []) 2 :: map call_line V.tool_tests).
Proof.
  eexists. split; [reflexivity|]. intros init_response. cbv beta.
  apply writes_some_bind_nil; [quiet|]. intros initialized.
  destruct initialized; [|apply writes_some_nothing; quiet].
  apply writes_some_bind_nil; [quiet|]. intros r.
  apply writes_some_bind_nil; [quiet|]. intros server_info.
  apply writes_some_bind_nil; [quiet|]. intros _.
  apply writes_some_bind_nil; [quiet|]. intros _.
  apply (writes_some_bind _ _ [_] _); [apply writes_send_request|].
  intros tools_response.
  apply writes_some_bind_nil; [quiet|]. intros listed.
  destruct listed; [|apply writes_some_nothing; quiet].
  apply writes_some_bind_nil; [quiet|]. intros r'.
  apply writes_some_bind_nil; [quiet|]. intros tools.
  apply writes_some_bind_nil; [quiet|]. intros _.
  apply writes_some_bind_nil; [quiet|]. intros items.
  apply writes_some_bind_nil.
  { apply writes_for_each_nil. intros tool. quiet. }
  intros _. apply writes_writes_some.
  apply writes_for_each. intros [[name params] descr].
  apply (writes_bind _ _ [_] []); [apply writes_verify_tool|].
  intros _. apply writes_ret.
Qed.

(** With room on the input of the child, the [initialize] request is
    written whatever follows. *)
Lemma exercise_server_sends (s : V.state) (p : Popen) (r : result unit)
    (s' : V.state) :
  V.proc s = Some p -> stdin_room p <> Some 0 ->
  V.exercise_server s = (r, s') ->
  V.proc s' <> None
  /\ exists k, 1 <= k /\ sent s' = (sent s ++ firstn k expected_lines)%list.
Proof.
  intros Hp Hroom.
  destruct exercise_server_after_handshake as (K & -> & HK).
  destruct (verify_send_request_writes "initialize" VNone
              V.request_id_default s p Hp Hroom)
    as (v & s1 & p1 & Hs & Hp1 & Hin & _).
  unfold bind. rewrite Hs. intros E.
  assert (Hne : V.proc s1 <> None) by congruence.
  destruct (HK v s1 r s' E Hne) as (P & k & Hk).
  split; [exact P|]. exists (S k). split; [lia|].
  rewrite Hk. unfold sent at 1 2. rewrite Hp1, Hp, Hin.
  unfold expected_lines. cbn [firstn]. rewrite <- List.app_assoc.
  reflexivity.
Qed.

Lemma main_sends (s : V.state) (child : Popen) :
  V.launch s = Some child -> stdin_room child <> Some 0 ->
  exists s' p' k,
    V.main s = (Ok tt, s')
    /\ V.proc s' = Some p' /\ state p' = Reaped
    /\ 1 <= k
    /\ stdin p' = (stdin child ++ firstn k expected_lines)%list.
Proof.
  intros Hl Hroom. unfold V.main, try_finally, try_except.
  unfold V.run_all_tests. unfold bind at 1. unfold bind at 1.
  unfold V.start_server at 1. rewrite Hl.
  destruct (V.exercise_server (V.set_proc s (Some child))) as [r1 s1] eqn:E1.
  destruct (exercise_server_sends (V.set_proc s (Some child)) child r1 s1
              eq_refl Hroom E1)
    as (P1 & k & Hk1 & Hk).
  destruct (V.proc s1) as [p1|] eqn:Ep1; [|congruence].
  destruct (cleanup_spec s1) as (s' & Hc & Hs & Hp).
  rewrite Ep1 in Hp. destruct Hp as (p' & Hp' & Hst).
  assert (Hsent : stdin p' = (stdin child ++ firstn k expected_lines)%list).
  { unfold sent in Hs, Hk. rewrite Hp', Ep1 in Hs. rewrite Ep1 in Hk.
    cbn in Hk. rewrite Hs, Hk. reflexivity. }
  exists s', p', k.
  destruct r1 as [[]|e]; cbn; rewrite Hc; auto.
Qed.

(** Claim C10.  [send_request] writes one line for a request, and the
    line holds the method and the id that it was given.  [verify_tool]
    gives it no id, so that each call of [verify_tool] writes one
    [tools/call] request with the default id 1, whatever the tool, its
    params and the response.  A run of [verify_all_tools] on a freshly
    started child writes the first requests of [expected_lines], and the
    [initialize] request at the least; these are an [initialize] request
    with id 1, a [tools/list] request with id 2, and eight [tools/call]
    requests with id 1.  In the run of [stalling_verifier] all ten are
    written to the one child, nine of them with the same id. *)
Theorem verify_all_tools_ids :
  (forall (method : string) (params : value) (id : Z) (s : V.state)
      (p : Popen) (r : result value) (s' : V.state),
      wf params = true ->
      V.proc s = Some p -> stdin_room p <> Some 0 ->
      V.send_request method params id s = (r, s') ->
      exists p',
        V.proc s' = Some p'
        /\ stdin p' = (stdin p ++ [line_of method params id])%list
        /\ sent_field (line_of method params id) "method" = Some (VStr method)
        /\ sent_field (line_of method params id) "id" = Some (VInt id))
  /\ (forall (tool_name : string) (test_params : value) (s : V.state)
        (p : Popen) (r : result bool) (s' : V.state),
        wf test_params = true ->
        V.proc s = Some p -> stdin_room p <> Some 0 ->
        V.verify_tool tool_name test_params s = (r, s') ->
        exists p' line,
          V.proc s' = Some p'
          /\ stdin p' = (stdin p ++ [line])%list
          /\ sent_field line "method" = Some (VStr "tools/call")
          /\ sent_field line "id" = Some (VInt 1))
  /\ (forall (readings : list Q) (child : Popen),
        stdin child = [] -> stdin_room child <> Some 0 ->
        exists p' k,
          V.proc (snd (V.main (V.init readings (Some child)))) = Some p'
          /\ 1 <= k
          /\ stdin p' = firstn k expected_lines)
  /\ (map (fun line => sent_field line "method") expected_lines
      = Some (VStr "initialize") :: Some (VStr "tools/list")
        :: repeat (Some (VStr "tools/call")) 8
      /\ map (fun line => sent_field line "id") expected_lines
         = Some (VInt 1) :: Some (VInt 2) :: repeat (Some (VInt 1)) 8)
  /\ sent (snd (V.main stalling_verifier)) = expected_lines.
Proof.
  split; [|split; [|split; [|split]]].
  - intros method params id s p r s' Hwf Hp Hroom E.
    destruct (verify_send_request_writes method params id s p Hp Hroom)
      as (v & s1 & p' & Hs & Hp' & Hin & _).
    rewrite Hs in E. injection E as <- <-.
    destruct (line_of_fields method params id Hwf) as [Hm Hi].
    exists p'. auto.
  - intros tool_name test_params s p r s' Hwf Hp Hroom E.
    destruct (verify_tool_writes tool_name test_params s p Hp Hroom)
      as (r1 & s1 & p' & Hv & Hp' & Hin).
    rewrite Hv in E. injection E as <- <-.
    destruct (line_of_fields "tools/call"
                (VDict [("name", VStr tool_name); ("arguments", test_params)])
                V.request_id_default) as [Hm Hi].
    { cbn. rewrite Hwf. reflexivity. }
    exists p', (call_line (tool_name, test_params, EmptyString)).
    auto.
  - intros readings child Hfresh Hroom.
    destruct (main_sends (V.init readings (Some child)) child eq_refl Hroom)
      as (s' & p' & k & Hm & Hp' & _ & Hk & Hin).
    rewrite Hfresh in Hin. rewrite Hm. exists p', k. auto.
  - split; vm_compute; reflexivity.
  - vm_compute. reflexivity.
Qed.

Lemma verify_all_tools_ids_witness :
  (exists p',
      V.proc (snd (V.send_request "tools/list" (VDict []) 2 started_verifier))
      = Some p'
      /\ stdin p' = [line_of "tools/list" (VDict []) 2]
      /\ sent_field (line_of "tools/list" (VDict []) 2) "method"
         = Some (VStr "tools/list")
      /\ sent_field (line_of "tools/list" (VDict []) 2) "id"
         = Some (VInt 2))
  /\ (exists p' line,
         V.proc (snd (V.verify_tool "conversational_search"
                        (VDict [("query", VStr "test"); ("limit", VInt 3)])
                        started_verifier))
         = Some p'
         /\ stdin p' = [line]
         /\ sent_field line "method" = Some (VStr "tools/call")
         /\ sent_field line "id" = Some (VInt 1))
  /\ exists p' k,
       V.proc (snd (V.main stalling_verifier)) = Some p'
       /\ 1 <= k
       /\ stdin p' = firstn k expected_lines.
Proof.
  destruct verify_all_tools_ids as (Hs & Hv & Hm & _).
  split; [|split].
  - apply (Hs "tools/list" (VDict []) 2%Z started_verifier stalling_child
             (fst (V.send_request "tools/list" (VDict []) 2 started_verifier)));
      [reflexivity|reflexivity|discriminate|].
    apply surjective_pairing.
  - apply (Hv "conversational_search"
             (VDict [("query", VStr "test"); ("limit", VInt 3)])
             started_verifier stalling_child
             (fst (V.verify_tool "conversational_search"
                     (VDict [("query", VStr "test"); ("limit", VInt 3)])
                     started_verifier)));
      [reflexivity|reflexivity|discriminate|].
    apply surjective_pairing.
  - apply (Hm (V.clock stalling_verifier) stalling_child);
      [reflexivity|discriminate].
Defined.

(** *** The decoders *)

Lemma object_line_not_skipped (line : string) (v : value) :
  object_line line v -> skipped line -> False.
Proof.
  intros [H1 H2] [H|H]; [congruence|].
  apply decode_is_json in H2. congruence.
Qed.

Lemma Forall_firstn {A : Type} (P : A -> Prop) (k : nat) (l : list A) :
  Forall P l -> Forall P (firstn k l).
Proof.
  intros H. revert k. induction H as [|x l Hx Hl IH]; intros k.
  - rewrite firstn_nil. constructor.
  - destruct k; [constructor|]. rewrite firstn_cons. constructor; auto.
Qed.

Lemma Forall_prefix {A : Type} (P : A -> Prop) (n : nat) (pre : list A)
    (x : A) (post : list A) :
  Forall P (firstn n (pre ++ x :: post)%list) -> List.length pre < n ->
  Forall P pre /\ P x.
Proof.
  revert n. induction pre as [|y pre IH]; intros n H Hn.
  - destruct n; [lia|]. cbn in H. inversion H as [|? ? Hx _]; subst.
    split; [constructor|exact Hx].
  - destruct n; [cbn in Hn; lia|]. cbn in H, Hn.
    inversion H as [|? ? Hy Hrest]; subst.
    destruct (IH n Hrest) as [Hpre Hx]; [lia|].
    split; [constructor; assumption|assumption].
Qed.

Lemma read_response_none (n : nat) (p : Popen) :
  Forall skipped (firstn n (stdout p)) ->
  test_all_mcp_tools.read_response n p
  = (Ok VNone, set_stdout p (skipn n (stdout p))).
Proof.
  intros Hs.
  destruct (read_response_spec n p)
    as [(pre & line & post & v & Ho & Hl & _ & Hobj & _)|[_ H]]; [|exact H].
  exfalso. rewrite Ho in Hs.
  destruct (Forall_prefix _ _ _ _ _ Hs Hl) as [_ Hline].
  exact (object_line_not_skipped _ _ Hobj Hline).
Qed.

Lemma read_response_found (n : nat) (p : Popen) (pre : list string)
    (line : string) (post : list string) (v : value) :
  stdout p = (pre ++ line :: post)%list ->
  List.length pre < n ->
  Forall skipped pre ->
  object_line line v ->
  test_all_mcp_tools.read_response n p = (Ok v, set_stdout p post).
Proof.
  intros Hout Hlen Hpre Hobj.
  replace n with (List.length pre + S (n - List.length pre - 1)) by lia.
  rewrite (read_response_skip pre _ p (line :: post) Hpre Hout).
  rewrite (read_response_object _ (set_stdout p (line :: post)) line post v
             eq_refl Hobj).
  reflexivity.
Qed.

(** Among lines for which [decode] has a value when [json.loads] has
    one, there is a first line that is an object, or all are skipped. *)
Lemma first_object_or_none (n : nat) : forall lines : list string,
  Forall (fun l => in_reach (strip l)) (firstn n lines) ->
  (exists pre line post m,
      lines = (pre ++ line :: post)%list /\ List.length pre < n
      /\ Forall skipped pre /\ object_line line (VDict m))
  \/ Forall skipped (firstn n lines).
Proof.
  induction n as [|n IH]; intros lines Hr.
  { right. constructor. }
  destruct lines as [|l lines]; [right; constructor|].
  cbn [firstn] in Hr. inversion Hr as [|? ? Hl Hrest]; subst.
  assert (Hcont : skipped l ->
    (exists pre line post m,
        l :: lines = (pre ++ line :: post)%list /\ List.length pre < S n
        /\ Forall skipped pre /\ object_line line (VDict m))
    \/ Forall skipped (firstn (S n) (l :: lines))).
  { intros Hs. destruct (IH lines Hrest)
      as [(pre & line & post & m & H1 & H2 & H3 & H4)|H].
    - left. exists (l :: pre), line, post, m. subst lines.
      repeat split; try apply H4; [cbn; lia|constructor; assumption].
    - right. cbn [firstn]. constructor; assumption. }
  destruct (startswith (strip l) "{") eqn:Eb; [|apply Hcont; left; exact Eb].
  destruct (decode (strip l)) as [v|] eqn:Ed.
  - left. destruct (decode_brace_dict _ _ Eb Ed) as [m ->].
    exists [], l, lines, m. repeat split; try assumption; [cbn; lia|constructor].
  - apply Hcont. apply dropped_skipped; [exact Hl|right; exact Ed].
Qed.

(** The same for the lines that [verify_all_tools] reads: there is a
    first line that decodes, or none is JSON. *)
Lemma first_value_or_none (n : nat) : forall lines : list string,
  Forall in_reach (firstn n lines) ->
  (exists pre line post v,
      lines = (pre ++ line :: post)%list /\ List.length pre < n
      /\ Forall unparsable pre /\ decode line = Some v)
  \/ Forall unparsable (firstn n lines).
Proof.
  induction n as [|n IH]; intros lines Hr.
  { right. constructor. }
  destruct lines as [|l lines]; [right; constructor|].
  cbn [firstn] in Hr. inversion Hr as [|? ? Hl Hrest]; subst.
  destruct (decode l) as [v|] eqn:Ed.
  - left. exists [], l, lines, v.
    repeat split; try assumption; [cbn; lia|constructor].
  - assert (Hu : unparsable l).
    { unfold unparsable. destruct (is_json l) eqn:E; [|reflexivity].
      destruct (Hl E) as [v Hv]. congruence. }
    destruct (IH lines Hrest)
      as [(pre & line & post & v & H1 & H2 & H3 & H4)|H].
    + left. exists (l :: pre), line, post, v. subst lines.
      repeat split; try assumption; [cbn; lia|constructor; assumption].
    + right. cbn [firstn]. constructor; assumption.
Qed.

(** Claim C2 fails as stated.  The first line of the stream is the JSON
    number 42 and the second is a JSON object;
    [verify_all_tools.send_request] returns the number, not the first
    line that is a JSON object. *)
Lemma verify_all_tools_returns_a_number :
  decode ("42" ++ nl) = Some (VInt 42)
  /\ decode ("{}" ++ nl) = Some (VDict [])
  /\ fst (V.send_request "initialize" VNone V.request_id_default
            (V.mkState (Some number_child) [] [0%Q; 1%Q; 2%Q; 3%Q] None))
     = Ok (VInt 42).
Proof. repeat split; vm_compute; reflexivity. Qed.

(** [test_mcp_search.send_request] has no handler around [json.loads]. *)
Example test_mcp_search_raises_on_noise :
  fst (test_mcp_search.send_request initialize_request
         (mkPopen [] None [noise_line; encode pong_response] EmptyString None
            Running))
  = Raise JSONDecodeError.
Proof. vm_compute. reflexivity. Qed.

(** Claim C2, amended.  The reading loop of
    [test_all_mcp_tools.send_request], for every stream and every bound
    on the attempts: when a line whose stripped text begins with a brace
    and decodes to an object comes after fewer lines than the bound, all
    of them skipped (not beginning with a brace, or not JSON), the loop
    returns that object and leaves the lines after it; when the lines
    that the attempts reach are all skipped, it returns [None] after
    exactly that many reads, provided each read returns (the child has
    written that many lines, or has ended).  The loop of
    [verify_all_tools.send_request], for every stream and every clock,
    reads once for each reading of the clock that is within ten seconds
    of the start, up to the first that is not: when a line that decodes,
    an object or not, comes after fewer lines than that, none of them
    JSON, the loop returns its value; when none of the lines that it
    reads is JSON it returns [None], past the ten seconds, and leaves the
    other lines unread.  One of the two cases applies to every stream
    whose lines are not JSON or are within the reach of [decode].  In
    none of them does a line that is not JSON raise an exception. *)
Theorem decoders_skip_malformed_lines :
  (forall (attempts : nat) (p : Popen) (pre : list string) (line : string)
      (post : list string) (m : list (string * value)),
      stdout p = (pre ++ line :: post)%list ->
      List.length pre < attempts ->
      Forall skipped pre ->
      object_line line (VDict m) ->
      test_all_mcp_tools.read_response attempts p
      = (Ok (VDict m), set_stdout p post))
  /\ (forall (attempts : nat) (p : Popen),
        Forall skipped (firstn attempts (stdout p)) ->
        reads_return attempts p ->
        test_all_mcp_tools.read_response attempts p
        = (Ok VNone, set_stdout p (skipn attempts (stdout p))))
  /\ (forall (attempts : nat) (lines : list string),
        Forall (fun l => in_reach (strip l)) (firstn attempts lines) ->
        (exists pre line post m,
            lines = (pre ++ line :: post)%list
            /\ List.length pre < attempts
            /\ Forall skipped pre
            /\ object_line line (VDict m))
        \/ Forall skipped (firstn attempts lines))
  /\ (forall (start_time : Q) (readings : list Q) (p : Popen)
        (pre : list string) (line : string) (post : list string) (v : value),
        stdout p = (pre ++ line :: post)%list ->
        List.length pre < in_time start_time readings ->
        Forall unparsable pre ->
        decode line = Some v ->
        V.poll start_time readings p
        = (Ok v, (skipn (S (List.length pre)) readings, set_stdout p post)))
  /\ (forall (start_time : Q) (readings : list Q) (p : Popen),
        Forall unparsable (firstn (in_time start_time readings) (stdout p)) ->
        reads_return (in_time start_time readings) p ->
        V.poll start_time readings p
        = (Ok VNone,
           (skipn (S (in_time start_time readings)) readings,
            set_stdout p (skipn (in_time start_time readings) (stdout p)))))
  /\ (forall (reads : nat) (lines : list string),
        Forall in_reach (firstn reads lines) ->
        (exists pre line post v,
            lines = (pre ++ line :: post)%list
            /\ List.length pre < reads
            /\ Forall unparsable pre
            /\ decode line = Some v)
        \/ Forall unparsable (firstn reads lines)).
Proof.
  split; [|split; [|split; [|split; [|split]]]].
  - intros attempts p pre line post m. apply read_response_found.
  - intros attempts p Hs _. apply read_response_none. exact Hs.
  - intros attempts lines. apply first_object_or_none.
  - intros start_time readings p pre line post v Hout Hlen Hpre Hline.
    apply (poll_found pre readings start_time p line post v Hout Hlen);
      [apply unparsable_undecoded; exact Hpre|exact Hline].
  - intros start_time readings p Hun _. apply poll_none.
    apply unparsable_undecoded. exact Hun.
  - intros reads lines. apply first_value_or_none.
Qed.

Lemma decoders_skip_malformed_lines_witness :
  test_all_mcp_tools.read_response 10 quiet_child
  = (Ok pong_response, set_stdout quiet_child [])
  /\ test_all_mcp_tools.read_response 10 noisy_child
     = (Ok VNone, set_stdout noisy_child [encode pong_response])
  /\ V.poll 0 [1; 2; 11]%Q slow_child
     = (Ok init_response, ([11]%Q, set_stdout slow_child []))
  /\ V.poll 0 [9; 11; 12]%Q slow_child
     = (Ok VNone, ([12]%Q, set_stdout slow_child [encode init_response])).
Proof.
  destruct decoders_skip_malformed_lines as (Ha & Hb & _ & Hc & Hd & _).
  split; [|split; [|split]].
  - apply (Ha 10 quiet_child (repeat noise_line 9) (encode pong_response) []
             [("jsonrpc", VStr "2.0"); ("id", VInt 1);
              ("result", VDict [("content",
                                 VList [VDict [("type", VStr "text");
                                               ("text", VStr "Pong slunk!")]])])]).
    + reflexivity.
    + vm_compute. lia.
    + repeat constructor.
    + split; vm_compute; reflexivity.
  - apply (Hb 10 noisy_child).
    + repeat constructor.
    + intros _. vm_compute. lia.
  - apply (Hc 0%Q [1; 2; 11]%Q slow_child [noise_line] (encode init_response)
             [] init_response).
    + reflexivity.
    + vm_compute. lia.
    + repeat constructor.
    + vm_compute. reflexivity.
  - apply (Hd 0%Q [9; 11; 12]%Q slow_child).
    + repeat constructor.
    + intros _. vm_compute. lia.
Defined.

(** Claim C9.  [test_all_mcp_tools.send_request] returns a value other
    than [None] only for a line, among the first ten, whose stripped text
    begins with a brace.  A well-formed JSON line that is no object, such
    as the array [[1, 2]], is skipped, and so is every line that does not
    begin with a brace or is not JSON; such a line, and a read at the end
    of the stream of a child that has ended, each use up one attempt.
    The attempts are ten, so a response after ten skipped lines is not
    read and [None] is returned. *)
Theorem send_request_returns_only_brace_lines :
  (forall (request : value) (p p' : Popen) (v : value),
      test_all_mcp_tools.send_request request p = (Ok v, p') ->
      v <> VNone ->
      exists pre line post,
        stdout p = (pre ++ line :: post)%list
        /\ List.length pre < 10
        /\ startswith (strip line) "{" = true
        /\ decode (strip line) = Some v
        /\ stdout p' = post)
  /\ (decode (strip array_line) = Some (VList [VInt 1; VInt 2])
      /\ forall (n : nat) (p : Popen) (rest : list string),
           stdout p = array_line :: rest ->
           test_all_mcp_tools.read_response (S n) p
           = test_all_mcp_tools.read_response n (set_stdout p rest))
  /\ (forall (n : nat) (p : Popen) (line : string) (rest : list string),
        stdout p = line :: rest ->
        skipped line ->
        test_all_mcp_tools.read_response (S n) p
        = test_all_mcp_tools.read_response n (set_stdout p rest))
  /\ (forall (n : nat) (p : Popen),
        stdout p = [] ->
        state p <> Running ->
        test_all_mcp_tools.read_response (S n) p
        = test_all_mcp_tools.read_response n p)
  /\ (test_all_mcp_tools.max_attempts = 10
      /\ forall (request : value) (p : Popen) (pre rest : list string),
           stdin_room p <> Some 0 ->
           stdout p = (pre ++ rest)%list ->
           List.length pre = 10 ->
           Forall skipped pre ->
           exists p',
             test_all_mcp_tools.send_request request p = (Ok VNone, p')
             /\ stdout p' = rest).
Proof.
  split; [|split; [|split; [|split]]].
  - intros request p p' v E Hv.
    destruct (stdin_room p) as [[|n]|] eqn:Er.
    { rewrite (send_request_full _ _ Er) in E. discriminate. }
    all: rewrite (send_request_ok request p) in E by congruence.
    all: destruct (read_response_spec test_all_mcp_tools.max_attempts
                     (wrote p (encode request)))
           as [(pre & line & post & v0 & H1 & H2 & H3 & [H4 H4'] & H5)|[_ H]].
    all: try (rewrite H in E; injection E as <- <-; congruence).
    all: rewrite H5 in E; injection E as <- <-.
    all: exists pre, line, post; auto.
  - split; [vm_compute; reflexivity|].
    intros n p rest E. rewrite read_response_S, E. reflexivity.
  - intros n p line rest E Hs. rewrite read_response_S, E.
    destruct (skipped_dropped _ Hs) as [Hd|Hd]; rewrite Hd; [reflexivity|].
    destruct (startswith (strip line) "{"); reflexivity.
  - intros n p E _. rewrite read_response_S, E. reflexivity.
  - split; [reflexivity|].
    intros request p pre rest Hroom Hout Hlen Hsk.
    rewrite (send_request_ok _ _ Hroom).
    unfold test_all_mcp_tools.max_attempts.
    replace 10 with (List.length pre + 0) by lia.
    rewrite (read_response_skip pre 0 (wrote p (encode request)) rest Hsk Hout).
    eexists. split; reflexivity.
Qed.

Lemma send_request_returns_only_brace_lines_witness :
  (exists pre line post,
      stdout quiet_child = (pre ++ line :: post)%list
      /\ List.length pre < 10
      /\ startswith (strip line) "{" = true
      /\ decode (strip line) = Some pong_response
      /\ stdout (wrote (set_stdout quiet_child []) (encode initialize_request))
         = post)
  /\ test_all_mcp_tools.read_response 1 array_child
     = test_all_mcp_tools.read_response 0
         (set_stdout array_child [encode pong_response])
  /\ exists p',
       test_all_mcp_tools.send_request initialize_request noisy_child
       = (Ok VNone, p')
       /\ stdout p' = [encode pong_response].
Proof.
  destruct send_request_returns_only_brace_lines
    as (Ha & (_ & Hb) & _ & _ & (_ & He)).
  split; [|split].
  - apply (Ha initialize_request quiet_child
             (wrote (set_stdout quiet_child []) (encode initialize_request))
             pong_response).
    + vm_compute. reflexivity.
    + discriminate.
  - apply (Hb 0 array_child [encode pong_response]). reflexivity.
  - apply (He initialize_request noisy_child (repeat noise_line 10)
             [encode pong_response]).
    + vm_compute. discriminate.
    + reflexivity.
    + reflexivity.
    + repeat constructor.
Defined.

(** *** Timeouts in [verify_tool] *)

Lemma dict_get_set (m : list (string * value)) (k : string) (v : value) :
  dict_get (dict_set m k v) k = Some v.
Proof.
  induction m as [|[k' v'] m IH]; simpl.
  - rewrite String.eqb_refl. reflexivity.
  - destruct (String.eqb k' k) eqn:E; simpl; rewrite E; [reflexivity|exact IH].
Qed.

Lemma verify_tool_none (tool_name : string) (test_params : value)
    (s s1 : V.state) :
  V.send_request "tools/call"
    (VDict [("name", VStr tool_name); ("arguments", test_params)])
    V.request_id_default s = (Ok VNone, s1) ->
  V.verify_tool tool_name test_params s
  = (Ok false,
     V.mkState (V.proc s1)
       (dict_set (V.test_results s1) tool_name (VStr "TIMEOUT"))
       (V.clock s1) (V.launch s1)).
Proof.
  intros H. unfold V.verify_tool. unfold bind at 1. rewrite H. reflexivity.
Qed.

(** A request whose loop reads nothing that is JSON gets [None] once a
    reading of the clock is past the ten seconds; the lines that have come
    by then are used up and the others stay. *)
Lemma send_request_unanswered (method : string) (params : value) (id : Z)
    (s : V.state) (p : Popen) (start_time : Q) (readings : list Q) :
  V.proc s = Some p -> stdin_room p <> Some 0 ->
  V.clock s = start_time :: readings ->
  Forall unparsable (firstn (in_time start_time readings) (stdout p)) ->
  V.send_request method params id s
  = (Ok VNone,
     V.mkState
       (Some (set_stdout (wrote p (line_of method params id))
                (skipn (in_time start_time readings) (stdout p))))
       (V.test_results s) (skipn (S (in_time start_time readings)) readings)
       (V.launch s)).
Proof.
  intros Hp Hroom Hc Hun.
  rewrite (verify_send_request_unfold _ _ _ s p Hp Hroom), Hc.
  rewrite poll_none by (apply unparsable_undecoded; exact Hun).
  reflexivity.
Qed.

(** ** [test_mcp_comprehensive] *)

Lemma nth_error_last {A : Type} (l : list A) (x : A) :
  nth_error (l ++ [x])%list (List.length l) = Some x.
Proof. induction l; simpl; auto. Qed.

Lemma replace_nth_last {A : Type} (l : list A) (x y : A) :
  T.replace_nth (List.length l) (l ++ [x])%list y = (l ++ [y])%list.
Proof. induction l; simpl; congruence. Qed.

Lemma test_case_spec (launch : nat -> option Popen) (name : string)
    (request : value) (s : T.state) (p : Popen) :
  launch (List.length (T.processes s)) = Some p ->
  state p = Running ->
  T.test_case launch (name, request) s =
  if exits_within p 15 then
    (Ok tt,
     T.mkState
       (dict_set (T.results s) name
          (if nonempty (strip (concat_lines (stdout p))) then
             VDict [("status", VStr "success");
                    ("response", VStr (concat_lines (stdout p)))]
           else
             VDict [("status", VStr "no_response");
                    ("stderr", VStr (stderr p))]))
       (T.processes s ++ [collected p (encode request)])%list)
  else
    (Ok tt,
     T.mkState
       (dict_set (T.results s) name (VDict [("status", VStr "timeout")]))
       (T.processes s ++ [killed p (encode request)])%list).
Proof.
  intros Hl Hrun.
  unfold T.test_case, try_except, bind, T.Popen_app. rewrite Hl.
  unfold T.on_process. cbn [T.processes T.results].
  rewrite nth_error_last.
  destruct p as [i room o e ea st]. cbn in Hrun. subst st.
  unfold communicate, exits_within, collected, killed.
  fold nl. fold (encode request).
  cbn [state exit_after stdin stdin_room stdout stderr].
  destruct ea as [t|].
  - destruct (Qle_bool t 15) eqn:Eq.
    + cbn [T.results T.processes]. rewrite replace_nth_last.
      destruct (nonempty (strip (concat_lines o))); reflexivity.
    + cbn [is_TimeoutExpired T.processes T.results].
      rewrite replace_nth_last, nth_error_last.
      unfold kill, terminate. cbn [state].
      cbn [T.processes T.results]. rewrite replace_nth_last.
      reflexivity.
  - cbn [is_TimeoutExpired T.processes T.results].
    rewrite replace_nth_last, nth_error_last.
    unfold kill, terminate. cbn [state].
    cbn [T.processes T.results]. rewrite replace_nth_last.
    reflexivity.
Qed.




(** *** What becomes of the child *)

(** Claim C7 on [test_mcp_comprehensive]: when no child exits within 15
    seconds, the run ends with its ten children killed and none of them
    waited for, each test case reported as [timeout]. *)
Theorem comprehensive_leaves_killed_children_unreaped :
  let s' := snd (T.test_mcp_tools (fun _ => Some stuck_child) T.init) in
  map state (T.processes s') = repeat Exited 10
  /\ map (status_of s') (map fst T.test_cases)
     = repeat (Some (VStr "timeout")) 10.
Proof. split; vm_compute; reflexivity. Qed.

(** Every child that does not exit in time ends killed and not waited
    for. *)
Lemma comprehensive_timeout_path_never_waits
    (launch : nat -> option Popen) (name : string) (request : value)
    (s : T.state) (p : Popen) :
  launch (List.length (T.processes s)) = Some p ->
  state p = Running ->
  exits_within p 15 = false ->
  exists p',
    T.processes (snd (T.test_case launch (name, request) s))
    = (T.processes s ++ [p'])%list
    /\ state p' = Exited.
Proof.
  intros Hl Hrun Hex.
  rewrite (test_case_spec launch name request s p Hl Hrun), Hex.
  eexists. split; reflexivity.
Qed.

(** The sibling script waits for the child on every path, and so do the
    two scripts that keep one child for the whole run. *)
Lemma debug_version_reaps (tool_name : string) (request_data : value)
    (timeout : Q) (p p' : Popen) (r : value) :
  test_mcp_debug_version.test_mcp_tool tool_name request_data timeout (Some p)
  = (r, Some p') ->
  state p' = Reaped.
Proof.
  unfold test_mcp_debug_version.test_mcp_tool, communicate, bind, kill,
    terminate, communicate_rest.
  destruct (state p) eqn:Es; destruct (exit_after p) as [t|];
    try destruct (Qle_bool t timeout);
    try destruct (nonempty _);
    cbn [state set_state]; try rewrite Es;
    intros [= _ <-]; reflexivity.
Qed.

Lemma test_all_mcp_tools_reaps (p : Popen) :
  state (snd (test_all_mcp_tools.test_mcp_server p)) = Reaped.
Proof.
  unfold test_all_mcp_tools.test_mcp_server, try_finally.
  destruct (try_except test_all_mcp_tools.exchange any_exception _ p)
    as [r p1].
  unfold bind, terminate, wait. destruct (state p1); reflexivity.
Qed.

Lemma verify_all_tools_reaps (s : V.state) (p : Popen) :
  V.proc (snd (V.main s)) = Some p -> state p = Reaped.
Proof.
  unfold V.main, try_finally.
  destruct (try_except (V.run_all_tests;; V.print_summary) any_exception _ s)
    as [r s1].
  destruct (cleanup_spec s1) as (s' & Hc & _ & Hp). rewrite Hc.
  destruct (V.proc s1).
  - destruct Hp as (p' & Hp' & Hst). cbn. rewrite Hp'. intros [= <-]. exact Hst.
  - cbn. rewrite Hp. discriminate.
Qed.


(** ** The server *)

(** Claim C1.  The handler [ping_slunk] returns the literal
    [Pong slunk!] on every call; dispatching [ping_slunk] with empty
    arguments succeeds with that text as [content[0].text]; and a server
    that has done the handshake answers the [tools/call] request with a
    result holding it. *)
Theorem ping_slunk_answers_pong
    (server_version : string) (capabilities : value) (strict : bool)
    (version : string) (id0 id params0 : value) :
  (forall u : unit, server.ping_slunk u = "Pong slunk!")
  /\ (exists content,
        server.dispatch "ping_slunk" (VDict []) = inr content
        /\ first_text content = Ok (VStr "Pong slunk!"))
  /\ (exists first content,
        server.serve server_version capabilities strict server.Uninitialized
          [ server.mkRequest version (server.initialize params0) id0;
            server.mkRequest version
              (server.tools_call "ping_slunk" (VDict [])) id ]
        = [ first;
            server.mkResponse version id (server.result content) ]
        /\ first_text content = Ok (VStr "Pong slunk!")).
Proof.
  split; [intros []; reflexivity|]. split.
  - eexists. split; reflexivity.
  - eexists; eexists. split; [reflexivity|]. reflexivity.
Qed.

(** Claim C5.  An [initialize] request is answered with a result whose
    [serverInfo.name] is [slunk]. *)
Theorem initialize_names_the_server
    (server_version : string) (capabilities : value) (strict : bool)
    (st : server.session) (version : string) (id params : value) :
  exists r,
    server.handle server_version capabilities strict st
      (server.mkRequest version (server.initialize params) id)
    = (server.mkResponse version id (server.result r), server.Initialized)
    /\ server_name r = Ok (VStr "slunk").
Proof. eexists. split; reflexivity. Qed.

(** Claim C8.  For every [tools/call] request that names a tool which is
    not registered, dispatch fails with [UnknownToolError] and the reply
    is an error response, never a result. *)
Theorem unknown_tool_is_an_error
    (server_version : string) (capabilities : value) (strict : bool)
    (st : server.session) (version : string) (id : value)
    (tool : string) (arguments : value) :
  server.registered tool = false ->
  server.dispatch tool arguments = inl server.UnknownToolError
  /\ exists e,
       fst (server.handle server_version capabilities strict st
              (server.mkRequest version (server.tools_call tool arguments) id))
       = server.mkResponse version id (server.error e).
Proof.
  intros H. unfold server.registered in H.
  assert (Hd : server.dispatch tool arguments = inl server.UnknownToolError).
  { unfold server.dispatch. destruct (server.lookup tool); [discriminate|reflexivity]. }
  split; [exact Hd|].
  unfold server.handle. cbn [server.req_method server.req_version server.req_id].
  rewrite Hd. destruct st, strict; eexists; reflexivity.
Qed.

Lemma unknown_tool_is_an_error_witness :
  server.dispatch "not_a_real_tool" (VDict []) = inl server.UnknownToolError
  /\ exists e,
       fst (server.handle "1.0" (VDict []) false server.Initialized
              (server.mkRequest "2.0"
                 (server.tools_call "not_a_real_tool" (VDict [])) (VInt 3)))
       = server.mkResponse "2.0" (VInt 3) (server.error e).
Proof.
  apply (unknown_tool_is_an_error "1.0" (VDict []) false server.Initialized
           "2.0" (VInt 3) "not_a_real_tool" (VDict [])).
  reflexivity.
Defined.

(** ** What a computation adds to a log: a list of texts kept in the
    state, such as the texts written to the standard input of a child *)

Lemma emits_emits_some {St A : Type} (out : St -> list string) (c : M St A)
    lines :
  emits out c lines -> emits_some out c lines.
Proof.
  intros H s r s' E. destruct (H s r s' E) as (H2 & H3). destruct r as [a|e].
  - exists (List.length lines). rewrite firstn_all. eapply H2. reflexivity.
  - eapply H3. reflexivity.
Qed.

Lemma emits_nil {St A : Type} (out : St -> list string) (c : M St A) :
  (forall s, out (snd (c s)) = out s) -> emits out c [].
Proof.
  intros H s r s' E. specialize (H s). rewrite E in H. cbn in H.
  split; [intros _ _|intros e _; exists 0]; rewrite List.app_nil_r; exact H.
Qed.

Lemma emits_nil_keeps {St A : Type} (out : St -> list string) (c : M St A)
    (s : St) :
  emits out c [] -> out (snd (c s)) = out s.
Proof.
  intros H. destruct (c s) as [r s'] eqn:E.
  destruct (emits_emits_some out c [] H s r s' E) as [k Hk].
  cbn. rewrite Hk, firstn_nil, List.app_nil_r. reflexivity.
Qed.

Lemma emits_ret {St A : Type} (out : St -> list string) (a : A) :
  emits out (ret (St := St) a) [].
Proof. apply emits_nil. reflexivity. Qed.

Lemma emits_eval {St A : Type} (out : St -> list string) (x : result A) :
  emits out (eval (St := St) x) [].
Proof. apply emits_nil. reflexivity. Qed.

Lemma emits_bind {St A B : Type} (out : St -> list string) (c : M St A)
    (k : A -> M St B) (l1 l2 : list string) :
  emits out c l1 -> (forall a, emits out (k a) l2) ->
  emits out (bind c k) (l1 ++ l2)%list.
Proof.
  intros Hc Hk s r s' E. unfold bind in E.
  destruct (c s) as [[a|e] s1] eqn:Ec.
  - destruct (Hc s _ s1 Ec) as (O1 & _). specialize (O1 a eq_refl).
    destruct (Hk a s1 r s' E) as (O2 & R2). split.
    + intros b Hb. rewrite (O2 b Hb), O1, List.app_assoc. reflexivity.
    + intros e He. destruct (R2 e He) as [j Hj]. rewrite Hj, O1.
      destruct (app_firstn_app j l1 l2) as [k' Hk'].
      exists k'. rewrite <- Hk', List.app_assoc. reflexivity.
  - injection E as <- <-. destruct (Hc s _ s1 Ec) as (_ & R1).
    split; [intros b Hb; discriminate|].
    intros e' He'. destruct (R1 e eq_refl) as [j Hj].
    destruct (firstn_app_le j l1 l2) as [k' Hk'].
    exists k'. rewrite Hj, Hk'. reflexivity.
Qed.

Lemma emits_some_bind {St A B : Type} (out : St -> list string) (c : M St A)
    (k : A -> M St B) (l1 l2 : list string) :
  emits out c l1 -> (forall a, emits_some out (k a) l2) ->
  emits_some out (bind c k) (l1 ++ l2)%list.
Proof.
  intros Hc Hk s r s' E. unfold bind in E.
  destruct (c s) as [[a|e] s1] eqn:Ec.
  - destruct (Hc s _ s1 Ec) as (O1 & _). specialize (O1 a eq_refl).
    destruct (Hk a s1 r s' E) as (j & Hj). rewrite Hj, O1.
    destruct (app_firstn_app j l1 l2) as [k' Hk'].
    exists k'. rewrite <- Hk', List.app_assoc. reflexivity.
  - injection E as <- <-. destruct (Hc s _ s1 Ec) as (_ & R1).
    destruct (R1 e eq_refl) as [j Hj].
    destruct (firstn_app_le j l1 l2) as [k' Hk'].
    exists k'. rewrite Hj, Hk'. reflexivity.
Qed.

Lemma emits_bind_nil {St A B : Type} (out : St -> list string) (c : M St A)
    (k : A -> M St B) :
  emits out c [] -> (forall a, emits out (k a) []) -> emits out (bind c k) [].
Proof. intros Hc Hk. apply (emits_bind out c k [] [] Hc Hk). Qed.

Lemma emits_some_bind_nil {St A B : Type} (out : St -> list string)
    (c : M St A) (k : A -> M St B) (lines : list string) :
  emits out c [] -> (forall a, emits_some out (k a) lines) ->
  emits_some out (bind c k) lines.
Proof. intros Hc Hk. apply (emits_some_bind out c k [] lines Hc Hk). Qed.

Lemma emits_some_nothing {St A : Type} (out : St -> list string) (c : M St A)
    (lines : list string) :
  emits out c [] -> emits_some out c lines.
Proof.
  intros H s r s' E.
  destruct (emits_emits_some out c [] H s r s' E) as (k & Hk).
  exists 0. rewrite Hk, firstn_nil. reflexivity.
Qed.

Lemma emits_for_each_nil {St A : Type} (out : St -> list string) (l : list A)
    (body : A -> M St unit) :
  (forall x, emits out (body x) []) -> emits out (for_each l body) [].
Proof.
  intros H. induction l as [|x l IH]; cbn [for_each].
  - apply emits_ret.
  - apply emits_bind_nil; [apply H|intros _; exact IH].
Qed.

Lemma emits_for_each {St A : Type} (out : St -> list string) (l : list A)
    (body : A -> M St unit) (f : A -> string) :
  (forall x, emits out (body x) [f x]) ->
  emits out (for_each l body) (map f l).
Proof.
  intros H. induction l as [|x l IH]; cbn [for_each map].
  - apply emits_ret.
  - apply (emits_bind _ _ _ [f x] (map f l)); [apply H|intros _; exact IH].
Qed.

Lemma emits_some_try_except {St A : Type} (out : St -> list string)
    (body : M St A) (catches : exn -> bool) (handler : exn -> M St A)
    (lines : list string) :
  emits_some out body lines -> (forall e, emits out (handler e) []) ->
  emits_some out (try_except body catches handler) lines.
Proof.
  intros Hb Hh s r s' E. unfold try_except in E.
  destruct (body s) as [[a|e] s1] eqn:Eb.
  - injection E as <- <-. exact (Hb s _ _ Eb).
  - destruct (catches e).
    + destruct (Hb s _ _ Eb) as [k Hk]. exists k. rewrite <- Hk.
      pose proof (emits_nil_keeps out (handler e) s1 (Hh e)) as Hs.
      rewrite E in Hs. exact Hs.
    + injection E as <- <-. exact (Hb s _ _ Eb).
Qed.

Lemma emits_some_try_finally {St A : Type} (out : St -> list string)
    (body : M St A) (final : M St unit) (lines : list string) :
  emits_some out body lines -> emits out final [] ->
  emits_some out (try_finally body final) lines.
Proof.
  intros Hb Hf s r s' E. unfold try_finally in E.
  destruct (body s) as [r1 s1] eqn:Eb.
  destruct (Hb s _ _ Eb) as [k Hk]. exists k. rewrite <- Hk.
  pose proof (emits_nil_keeps out final s1 Hf) as Hs.
  destruct (final s1) as [[u|e] s2]; injection E as <- <-; exact Hs.
Qed.

Lemma bind_Ok {St A B : Type} (c : M St A) (k : A -> M St B) (s s1 : St)
    (a : A) :
  c s = (Ok a, s1) -> bind c k s = k a s1.
Proof. intros H. unfold bind. rewrite H. reflexivity. Qed.

Lemma bind_Raise {St A B : Type} (c : M St A) (k : A -> M St B) (s s1 : St)
    (e : exn) :
  c s = (Raise e, s1) -> bind c k s = (Raise e, s1).
Proof. intros H. unfold bind. rewrite H. reflexivity. Qed.

Ltac hush :=
  repeat first
    [ apply emits_ret
    | apply emits_eval
    | apply emits_bind_nil; [|intros ?]
    | match goal with
      | |- emits _ (if ?b then _ else _) _ => destruct b
      | |- emits _ (match ?x with _ => _ end) _ => destruct x
      end ].

(** ** What a computation keeps true *)

Lemma keeps_ret {St A : Type} (I : St -> Prop) (a : A) :
  keeps I (ret (St := St) a).
Proof. intros s r s' E. injection E as <- <-. auto. Qed.

Lemma keeps_eval {St A : Type} (I : St -> Prop) (x : result A) :
  keeps I (eval (St := St) x).
Proof. intros s r s' E. injection E as <- <-. auto. Qed.

Lemma keeps_bind {St A B : Type} (I : St -> Prop) (c : M St A)
    (k : A -> M St B) :
  keeps I c -> (forall a, keeps I (k a)) -> keeps I (bind c k).
Proof.
  intros Hc Hk s r s' E HI. unfold bind in E.
  destruct (c s) as [[a|e] s1] eqn:Ec.
  - exact (Hk a s1 r s' E (Hc s _ s1 Ec HI)).
  - injection E as <- <-. exact (Hc s _ s1 Ec HI).
Qed.

Lemma keeps_for_each {St A : Type} (I : St -> Prop) (l : list A)
    (body : A -> M St unit) :
  (forall x, In x l -> keeps I (body x)) -> keeps I (for_each l body).
Proof.
  induction l as [|x l IH]; intros H; cbn [for_each].
  - apply keeps_ret.
  - apply keeps_bind; [apply H; left; reflexivity|].
    intros _. apply IH. intros y Hy. apply H. right. exact Hy.
Qed.

Lemma keeps_try_except {St A : Type} (I : St -> Prop) (body : M St A)
    (catches : exn -> bool) (handler : exn -> M St A) :
  keeps I body -> (forall e, keeps I (handler e)) ->
  keeps I (try_except body catches handler).
Proof.
  intros Hb Hh s r s' E HI. unfold try_except in E.
  destruct (body s) as [[a|e] s1] eqn:Eb.
  - injection E as <- <-. exact (Hb s _ _ Eb HI).
  - destruct (catches e).
    + exact (Hh e s1 r s' E (Hb s _ _ Eb HI)).
    + injection E as <- <-. exact (Hb s _ _ Eb HI).
Qed.

Lemma keeps_try_finally {St A : Type} (I : St -> Prop) (body : M St A)
    (final : M St unit) :
  keeps I body -> keeps I final -> keeps I (try_finally body final).
Proof.
  intros Hb Hf s r s' E HI. unfold try_finally in E.
  destruct (body s) as [r1 s1] eqn:Eb.
  pose proof (Hb s _ _ Eb HI) as H1.
  destruct (final s1) as [[u|e] s2] eqn:Ef; injection E as <- <-;
    exact (Hf s1 _ _ Ef H1).
Qed.

Ltac steady :=
  repeat first
    [ apply keeps_ret
    | apply keeps_eval
    | apply keeps_bind; [|intros ?]
    | match goal with
      | |- keeps _ (if ?b then _ else _) => destruct b
      | |- keeps _ (match ?x with _ => _ end) => destruct x
      end ].

(** ** A whole run of [test_all_mcp_tools] *)

Lemma skipn_past {A : Type} (pre : list A) (x : A) (post : list A) :
  skipn (S (List.length pre)) (pre ++ x :: post)%list = post.
Proof. induction pre; simpl; auto. Qed.

Lemma read_response_keeps (n : nat) (p : Popen) :
  exists r rest,
    TA.read_response n p = (r, set_stdout p rest)
    /\ exists k, rest = skipn k (stdout p).
Proof.
  destruct (read_response_spec n p)
    as [(pre & line & post & v & Ho & _ & _ & _ & H)|[_ H]].
  - exists (Ok v), post. split; [exact H|].
    exists (S (List.length pre)). rewrite Ho, skipn_past. reflexivity.
  - exists (Ok VNone), (skipn n (stdout p)). split; [exact H|].
    exists n. reflexivity.
Qed.

Lemma emits_send_request (request : value) :
  emits stdin (TA.send_request request) [encode request].
Proof.
  intros p r p' E.
  destruct (stdin_room p) as [[|n]|] eqn:Er.
  - rewrite (send_request_full request p Er) in E. injection E as <- <-.
    split; [intros a Ha; discriminate|].
    intros e He. exists 0. rewrite List.app_nil_r. reflexivity.
  - rewrite send_request_ok in E by congruence.
    destruct (read_response_keeps TA.max_attempts (wrote p (encode request)))
      as (r0 & rest & H & _).
    rewrite H in E. injection E as <- <-. cbn. split.
    + intros _ _. reflexivity.
    + intros e _. exists 1. reflexivity.
  - rewrite send_request_ok in E by congruence.
    destruct (read_response_keeps TA.max_attempts (wrote p (encode request)))
      as (r0 & rest & H & _).
    rewrite H in E. injection E as <- <-. cbn. split.
    + intros _ _. reflexivity.
    + intros e _. exists 1. reflexivity.
Qed.

Lemma emits_test_tool (it : Z * (string * value * string)) :
  emits stdin (TA.test_tool (fst it) (snd it)) [encode (tool_request it)].
Proof.
  destruct it as [i [[name params] descr]]. cbn [fst snd].
  unfold TA.test_tool, tool_request.
  apply (emits_bind _ _ _ [_] []); [apply emits_send_request|].
  intros response. hush.
Qed.

Lemma emits_read_stderr : emits stdin read_stderr [].
Proof. apply emits_nil. reflexivity. Qed.

Lemma emits_hang_up : emits stdin (terminate ;; wait) [].
Proof.
  apply emits_nil. intros p. unfold bind, terminate, wait.
  destruct (state p); reflexivity.
Qed.

Lemma emits_some_exchange : emits_some stdin TA.exchange (map encode all_requests).
Proof.
  unfold TA.exchange, all_requests. cbn [map].
  apply emits_some_bind_nil.
  { apply emits_nil. intros p. reflexivity. }
  intros _.
  apply (emits_some_bind _ _ _ [_] _); [apply emits_send_request|].
  intros response.
  apply emits_some_bind_nil; [hush|]. intros r.
  apply emits_some_bind_nil; [hush|]. intros info.
  apply emits_some_bind_nil; [hush|]. intros _.
  apply (emits_some_bind _ _ _ [_] _); [apply emits_send_request|].
  intros response2.
  assert (Hrest : emits_some stdin
    (has_error <- eval (contains "error" response2) ;;
     if has_error then _ <- eval (getitem response2 "error") ;; ret tt
     else
       has_result <- eval (contains "result" response2) ;;
       if negb has_result then ret tt
       else
         r <- eval (getitem response2 "result") ;;
         tools <- eval (getitem r "tools") ;;
         _ <- eval (len tools) ;;
         items <- eval (iter tools) ;;
         for_each items
           (fun tool => _ <- eval (getitem tool "name") ;; ret tt) ;;
         for_each (TA.enumerate TA.tool_tests 3)
           (fun it => TA.test_tool (fst it) (snd it)))
    (map encode (map tool_request (TA.enumerate TA.tool_tests 3)))).
  { apply emits_some_bind_nil; [hush|]. intros has_error.
    destruct has_error; [apply emits_some_nothing; hush|].
    apply emits_some_bind_nil; [hush|]. intros has_result.
    destruct has_result; cbn [negb]; [|apply emits_some_nothing; hush].
    apply emits_some_bind_nil; [hush|]. intros r'.
    apply emits_some_bind_nil; [hush|]. intros tools.
    apply emits_some_bind_nil; [hush|]. intros _.
    apply emits_some_bind_nil; [hush|]. intros items.
    apply emits_some_bind_nil.
    { apply emits_for_each_nil. intros tool. hush. }
    intros _. apply emits_emits_some. rewrite map_map.
    apply (emits_for_each stdin (TA.enumerate TA.tool_tests 3)
             (fun it => TA.test_tool (fst it) (snd it))
             (fun it => encode (tool_request it))).
    intros it. apply emits_test_tool. }
  destruct response2; try exact Hrest.
  apply emits_some_nothing. hush.
Qed.

(** Whatever the child answers, what [test_mcp_server] writes to it is
    a first part of one fixed sequence of ten requests: [initialize],
    [tools/list] and the eight tool calls in the order of [tool_tests].
    Their ids are 1 to 10 in this order, so no two requests of a run
    share an id.  On every path the child ends terminated and waited
    for. *)
Theorem test_mcp_server_requests (p : Popen) :
  (exists k,
      stdin (snd (TA.test_mcp_server p))
      = (stdin p ++ map encode (firstn k all_requests))%list)
  /\ map (fun request => getitem request "id") all_requests
     = map (fun i => Ok (VInt i)) [1; 2; 3; 4; 5; 6; 7; 8; 9; 10]%Z
  /\ state (snd (TA.test_mcp_server p)) = Reaped.
Proof.
  split; [|split; [reflexivity|]].
  - assert (H : emits_some stdin TA.test_mcp_server (map encode all_requests)).
    { unfold TA.test_mcp_server.
      apply emits_some_try_finally; [|apply emits_hang_up].
      apply emits_some_try_except; [apply emits_some_exchange|].
      intros e. apply emits_bind_nil; [apply emits_read_stderr|].
      intros _. apply emits_ret. }
    destruct (TA.test_mcp_server p) as [r p'] eqn:E.
    destruct (H p r p' E) as [k Hk]. exists k. cbn [snd].
    rewrite Hk, firstn_map. reflexivity.
  - unfold TA.test_mcp_server, try_finally.
    destruct (try_except TA.exchange any_exception _ p) as [r p1].
    unfold bind, terminate, wait. destruct (state p1); reflexivity.
Qed.

(** When the next ten lines of the child are no response (each does not
    begin with a brace, or is not JSON), the handshake gets [None], the
    lookup of the server name in it raises [TypeError], and the run stops
    there: only the [initialize] request has been written, the ten lines
    are used up, and the child is terminated and waited for. *)
Theorem test_mcp_server_without_handshake (p : Popen) :
  stdin_room p <> Some 0 ->
  TA.max_attempts <= List.length (stdout p) ->
  Forall skipped (firstn TA.max_attempts (stdout p)) ->
  fst (TA.exchange p) = Raise TypeError
  /\ stdin (snd (TA.test_mcp_server p))
     = (stdin p ++ [encode (TA.request "initialize" (VDict []) 1)])%list
  /\ stdout (snd (TA.test_mcp_server p)) = skipn TA.max_attempts (stdout p)
  /\ state (snd (TA.test_mcp_server p)) = Reaped.
Proof.
  intros Hroom _ Hsk.
  assert (He : TA.exchange p
               = (Raise TypeError,
                  set_stdout
                    (wrote (set_stderr p EmptyString)
                       (encode (TA.request "initialize" (VDict []) 1)))
                    (skipn TA.max_attempts (stdout p)))).
  { unfold TA.exchange.
    erewrite bind_Ok by reflexivity.
    erewrite bind_Ok
      by (rewrite send_request_ok by exact Hroom;
          apply read_response_none; exact Hsk).
    reflexivity. }
  unfold TA.test_mcp_server, try_finally, try_except. rewrite He.
  cbn [any_exception fst]. unfold bind, read_stderr, ret, terminate, wait.
  cbn [state set_stderr set_stdout wrote].
  destruct (state p); cbn; auto.
Qed.

Lemma test_mcp_server_without_handshake_witness :
  fst (TA.exchange noisy_child) = Raise TypeError
  /\ stdin (snd (TA.test_mcp_server noisy_child))
     = (stdin noisy_child
        ++ [encode (TA.request "initialize" (VDict []) 1)])%list
  /\ stdout (snd (TA.test_mcp_server noisy_child))
     = skipn TA.max_attempts (stdout noisy_child)
  /\ state (snd (TA.test_mcp_server noisy_child)) = Reaped.
Proof.
  apply (test_mcp_server_without_handshake noisy_child).
  - discriminate.
  - vm_compute. lia.
  - repeat constructor.
Defined.

Lemma Forall_skipn {A : Type} (P : A -> Prop) (k : nat) (l : list A) :
  Forall P l -> Forall P (skipn k l).
Proof.
  revert l. induction k as [|k IH]; intros l H; [exact H|].
  destruct l as [|x l]; [constructor|]. inversion H; subst. cbn. auto.
Qed.

Lemma getitem_contains (v : value) (k : string) (x : value) :
  getitem v k = Ok x -> contains k v = Ok true.
Proof.
  destruct v; try discriminate. cbn. destruct (dict_get m k); [|discriminate].
  reflexivity.
Qed.

Lemma getitem_truthy (v : value) (k : string) (x : value) :
  getitem v k = Ok x -> truthy v = true.
Proof. destruct v as [| | | | |[|kv m]]; try discriminate. reflexivity. Qed.

Lemma test_tool_unanswered (it : Z * (string * value * string)) (p : Popen) :
  stdin_room p = None -> Forall skipped (stdout p) ->
  exists p',
    TA.test_tool (fst it) (snd it) p = (Ok tt, p')
    /\ stdin p' = (stdin p ++ [encode (tool_request it)])%list
    /\ stdin_room p' = None /\ Forall skipped (stdout p')
    /\ state p' = state p.
Proof.
  intros Hroom Hsk. destruct it as [i [[name params] descr]]. cbn [fst snd].
  unfold TA.test_tool, tool_request.
  erewrite bind_Ok
    by (rewrite send_request_ok by (rewrite Hroom; discriminate);
        apply read_response_none; apply Forall_firstn; exact Hsk).
  eexists. split; [reflexivity|].
  cbn [stdin stdin_room stdout state wrote set_stdout]. rewrite Hroom.
  repeat split. apply Forall_skipn. exact Hsk.
Qed.

Lemma tool_tests_unanswered (l : list (Z * (string * value * string))) :
  forall p : Popen,
  stdin_room p = None -> Forall skipped (stdout p) ->
  exists p',
    for_each l (fun it => TA.test_tool (fst it) (snd it)) p = (Ok tt, p')
    /\ stdin p' = (stdin p ++ map encode (map tool_request l))%list
    /\ state p' = state p.
Proof.
  induction l as [|it l IH]; intros p Hroom Hsk.
  - exists p. cbn. rewrite List.app_nil_r. auto.
  - destruct (test_tool_unanswered it p Hroom Hsk)
      as (p1 & H1 & Hin & Hr1 & Hs1 & Hst1).
    destruct (IH p1 Hr1 Hs1) as (p2 & H2 & Hin2 & Hst2).
    exists p2. cbn [for_each]. rewrite (bind_Ok _ _ _ _ _ H1), H2.
    split; [reflexivity|]. rewrite Hin2, Hin, Hst2, Hst1.
    cbn [map]. rewrite <- List.app_assoc. auto.
Qed.

Lemma tools_have_names {St : Type} (tools : list value) (s : St) :
  Forall (fun tool => exists name, getitem tool "name" = Ok name) tools ->
  for_each tools (fun tool => _ <- eval (getitem tool "name") ;; ret tt) s
  = (Ok tt, s).
Proof.
  induction 1 as [|tool tools [name Hn] _ IH]; [reflexivity|].
  cbn [for_each]. unfold bind at 1. unfold bind at 1. unfold eval at 1.
  rewrite Hn. cbn. exact IH.
Qed.

(** A server that answers the handshake and the listing and then only
    writes lines that are no response (not beginning with a brace, or not
    JSON), ten or more for each tool, gets the whole sequence: the eight
    tool calls are all written, one after the other, although none of
    them is answered, and the run ends without an exception. *)
Theorem test_mcp_server_complete_run (p : Popen) (line1 line2 : string)
    (rest : list string) (v1 v2 : value) :
  stdin_room p = None ->
  stdout p = line1 :: line2 :: rest ->
  object_line line1 v1 -> answers_handshake v1 ->
  object_line line2 v2 -> answers_listing v2 ->
  Forall skipped rest ->
  TA.max_attempts * List.length TA.tool_tests <= List.length rest ->
  exists p',
    TA.test_mcp_server p = (Ok tt, p')
    /\ stdin p' = (stdin p ++ map encode all_requests)%list
    /\ state p' = Reaped.
Proof.
  intros Hroom Hout Ho1 (r1 & info & name & Hr1 & Hinfo & Hname)
    Ho2 (Herr & r2 & tools & Hr2 & Htools & Hnames) Hsk _.
  assert (He : exists p1,
             TA.exchange p = (Ok tt, p1)
             /\ stdin p1 = (stdin p ++ map encode all_requests)%list).
  { unfold TA.exchange.
    erewrite bind_Ok by reflexivity.
    erewrite bind_Ok
      by (rewrite send_request_ok by (cbn; rewrite Hroom; discriminate);
          eapply read_response_object; [cbn; exact Hout|exact Ho1]).
    erewrite bind_Ok by (unfold eval; rewrite Hr1; reflexivity).
    erewrite bind_Ok by (unfold eval; rewrite Hinfo; reflexivity).
    erewrite bind_Ok by (unfold eval; rewrite Hname; reflexivity).
    erewrite bind_Ok
      by (rewrite send_request_ok by (cbn; rewrite Hroom; discriminate);
          eapply read_response_object; [cbn; reflexivity|exact Ho2]).
    destruct v2 as [| | | | |m2]; try discriminate.
    erewrite bind_Ok by (unfold eval; rewrite Herr; reflexivity).
    cbn iota.
    erewrite bind_Ok
      by (unfold eval; rewrite (getitem_contains _ _ _ Hr2); reflexivity).
    cbn [negb].
    erewrite bind_Ok by (unfold eval; rewrite Hr2; reflexivity).
    erewrite bind_Ok by (unfold eval; rewrite Htools; reflexivity).
    erewrite bind_Ok by reflexivity.
    erewrite bind_Ok by reflexivity.
    erewrite bind_Ok by (apply tools_have_names; exact Hnames).
    match goal with
    | |- exists p1, for_each _ _ ?q = _ /\ _ =>
        destruct (tool_tests_unanswered (TA.enumerate TA.tool_tests 3) q)
          as (p1 & H1 & Hin & _)
    end.
    - cbn. rewrite Hroom. reflexivity.
    - cbn. exact Hsk.
    - exists p1. split; [exact H1|]. rewrite Hin. cbn [stdin wrote set_stdout
        set_stderr]. unfold all_requests. cbn [map].
      rewrite <- !List.app_assoc. reflexivity. }
  destruct He as (p1 & He & Hin).
  unfold TA.test_mcp_server, try_finally, try_except. rewrite He.
  unfold bind, terminate, wait.
  destruct (state p1); eexists; (split; [reflexivity|]); cbn; auto.
Qed.

Lemma test_mcp_server_complete_run_witness :
  exists p',
    TA.test_mcp_server rambling_child = (Ok tt, p')
    /\ stdin p' = (stdin rambling_child ++ map encode all_requests)%list
    /\ state p' = Reaped.
Proof.
  apply (test_mcp_server_complete_run rambling_child (encode init_response)
           (encode list_response) (repeat noise_line 80)
           init_response list_response).
  - reflexivity.
  - reflexivity.
  - split; vm_compute; reflexivity.
  - exists (VDict [("serverInfo",
                    VDict [("name", VStr "slunk"); ("version", VStr "1.0")]);
                   ("capabilities", VDict [])]),
      (VDict [("name", VStr "slunk"); ("version", VStr "1.0")]), (VStr "slunk").
    repeat split.
  - split; vm_compute; reflexivity.
  - split; [reflexivity|].
    exists (VDict [("tools", VList [])]), []. repeat split. constructor.
  - apply Forall_forall. intros l Hl. apply repeat_spec in Hl. subst l.
    left. reflexivity.
  - vm_compute. lia.
Defined.

(** The loop over [tool_tests] takes the first item of [result.content]
    only after testing that the list is not empty: a tool call answered
    with an empty list of content, or with a result that has no content
    at all, passes without an exception, and the loop goes on. *)
Theorem test_tool_tolerates_empty_content (i : Z)
    (test : string * value * string) (p p1 : Popen)
    (response : value) (result : list (string * value)) :
  TA.send_request (tool_request (i, test)) p = (Ok response, p1) ->
  getitem response "result" = Ok (VDict result) ->
  dict_get result "content" = None
  \/ dict_get result "content" = Some (VList []) ->
  TA.test_tool i test p = (Ok tt, p1).
Proof.
  intros Hs Hr Hc. destruct test as [[name params] descr].
  unfold TA.test_tool. unfold tool_request in Hs.
  rewrite (bind_Ok _ _ _ _ _ Hs).
  erewrite bind_Ok
    by (unfold eval; rewrite (getitem_truthy _ _ _ Hr),
          (getitem_contains _ _ _ Hr); reflexivity).
  cbn iota.
  erewrite bind_Ok by (unfold eval; rewrite Hr; reflexivity).
  destruct Hc as [Hc|Hc].
  - erewrite bind_Ok by (unfold eval, contains; rewrite Hc; reflexivity).
    reflexivity.
  - erewrite bind_Ok by (unfold eval, contains; rewrite Hc; reflexivity).
    cbn iota.
    erewrite bind_Ok
      by (erewrite bind_Ok by (unfold eval, getitem; rewrite Hc; reflexivity);
          reflexivity).
    reflexivity.
Qed.

Lemma test_tool_tolerates_empty_content_witness :
  TA.test_tool 3 ("searchConversations", search_params, EmptyString)
    (mkPopen [] None [encode empty_result] EmptyString None Running)
  = (Ok tt,
     mkPopen
       [encode (tool_request
                  (3%Z, ("searchConversations", search_params, EmptyString)))]
       None [] EmptyString None Running).
Proof.
  apply (test_tool_tolerates_empty_content 3
           ("searchConversations", search_params, EmptyString)
           (mkPopen [] None [encode empty_result] EmptyString None Running) _
           empty_result [("content", VList [])]).
  - vm_compute. reflexivity.
  - reflexivity.
  - right. reflexivity.
Defined.

(** ** A whole run of [verify_all_tools] *)

Lemma verify_send_request_results (method : string) (params : value) (id : Z)
    (s : V.state) (r : result value) (s1 : V.state) :
  V.send_request method params id s = (r, s1) ->
  V.test_results s1 = V.test_results s.
Proof.
  unfold V.send_request, bind, V.on_proc.
  destruct (V.proc s) as [p|].
  - destruct (write _ p) as [[[]|e] p1]; cbn [V.proc V.set_proc V.clock].
    + destruct (V.clock s) as [|start_time readings].
      * intros [= <- <-]. reflexivity.
      * destruct (V.poll start_time readings p1) as [r0 [rd p']].
        intros [= <- <-]. reflexivity.
    + intros [= <- <-]. reflexivity.
  - intros [= <- <-]. reflexivity.
Qed.

(** What [verify_tool] returns and what it records go together.  It
    returns [True] only after recording [SUCCESS] for the tool.  When it
    returns [False] it has recorded one of the failures for the tool, or,
    for a response that has neither an [error] nor a [result], nothing at
    all.  When it raises, it has recorded nothing. *)
Theorem verify_tool_verdict (tool_name : string) (test_params : value)
    (s s' : V.state) (r : result bool) :
  V.verify_tool tool_name test_params s = (r, s') ->
  match r with
  | Ok true =>
      V.test_results s'
      = dict_set (V.test_results s) tool_name (VStr "SUCCESS")
  | Ok false =>
      V.test_results s' = V.test_results s
      \/ exists why,
           failure why
           /\ V.test_results s'
              = dict_set (V.test_results s) tool_name (VStr why)
  | Raise _ => V.test_results s' = V.test_results s
  end.
Proof.
  unfold V.verify_tool. intros H.
  destruct (V.send_request "tools/call"
              (VDict [("name", VStr tool_name); ("arguments", test_params)])
              V.request_id_default s) as [[response|e] s1] eqn:Es.
  - rewrite (bind_Ok _ _ _ _ _ Es) in H.
    apply verify_send_request_results in Es. rewrite <- Es.
    unfold bind, eval, ret, V.set_result in H.
    destruct response as [| | | | |m]; cbn in H;
      repeat (match type of H with
              | context [if truthy ?c then _ else _] =>
                  destruct (truthy c) eqn:?
              | context [match len ?c with _ => _ end] =>
                  destruct (len c) eqn:?
              | context [match ?x with _ => _ end] => destruct x eqn:?
              end; cbn beta iota in H);
      injection H as <- <-; cbn [V.test_results]; try reflexivity;
      try (left; reflexivity);
      right; eexists; (split; [|reflexivity]); unfold failure; cbn;
      solve [auto | right; eexists; reflexivity].
  - rewrite (bind_Raise _ _ _ _ _ Es) in H. injection H as <- <-.
    exact (verify_send_request_results _ _ _ _ _ _ Es).
Qed.

Lemma verify_tool_verdict_witness :
  V.test_results
    (snd (V.verify_tool "searchConversations" search_params waiting_verifier))
  = V.test_results waiting_verifier
  \/ exists why,
       failure why
       /\ V.test_results
            (snd (V.verify_tool "searchConversations" search_params
                    waiting_verifier))
          = dict_set (V.test_results waiting_verifier) "searchConversations"
              (VStr why).
Proof.
  apply (verify_tool_verdict "searchConversations" search_params
           waiting_verifier _ (Ok false)).
  vm_compute. reflexivity.
Defined.

Lemma cleanup_reaps (s : V.state) (p : Popen) :
  V.proc s = Some p ->
  V.cleanup s = (Ok tt, V.set_proc s (Some (set_state p Reaped))).
Proof.
  intros Hp. unfold V.cleanup, V.on_proc. rewrite Hp.
  unfold bind, terminate, wait. destruct (state p); reflexivity.
Qed.

(** Whatever the surroundings, [main] returns without an exception, and
    a child that the verifier holds at the end has been terminated and
    waited for: every exception of the run is caught and only printed,
    and [cleanup] cannot fail. *)
Theorem verify_main_never_raises (s : V.state) :
  exists s',
    V.main s = (Ok tt, s')
    /\ forall p, V.proc s' = Some p -> state p = Reaped.
Proof.
  unfold V.main, try_finally, try_except.
  destruct ((V.run_all_tests ;; V.print_summary) s) as [[[]|e] s1];
    cbn [any_exception]; unfold ret;
    (destruct (V.proc s1) as [p1|] eqn:Ep;
     [ rewrite (cleanup_reaps s1 p1 Ep); eexists; split; [reflexivity|];
       cbn; intros p [= <-]; reflexivity
     | unfold V.cleanup; rewrite Ep; eexists; split; [reflexivity|];
       rewrite Ep; discriminate ]).
Qed.

(** When the executable cannot be started, a fresh verifier ends as it
    began: nothing is recorded, no reading of the clock is used, there is
    no child to clean up, and the [FileNotFoundError] does not leave
    [main]. *)
Theorem verify_main_without_executable (s : V.state) :
  V.launch s = None -> V.proc s = None -> V.main s = (Ok tt, s).
Proof.
  intros Hl Hp. destruct s as [pr res cl la]. cbn in Hl, Hp. subst.
  reflexivity.
Qed.

Lemma verify_main_without_executable_witness :
  V.main (V.init [0%Q; 1%Q] None) = (Ok tt, V.init [0%Q; 1%Q] None).
Proof.
  apply (verify_main_without_executable (V.init [0%Q; 1%Q] None));
    reflexivity.
Defined.

(** When every line that the child writes before a reading of the
    clock is found past the ten seconds is not JSON, each read getting
    such a line, the handshake gets [None] and the run stops there: only
    the [initialize] request has been written, no tool has been tried,
    nothing is recorded, the lines that come later stay unread, and the
    child is terminated and waited for. *)
Theorem verify_main_without_handshake (s : V.state) (child : Popen)
    (start_time : Q) (readings : list Q) :
  V.launch s = Some child ->
  stdin_room child <> Some 0 ->
  V.clock s = start_time :: readings ->
  in_time start_time readings <= List.length (stdout child) ->
  Forall unparsable (firstn (in_time start_time readings) (stdout child)) ->
  exists s' p',
    V.main s = (Ok tt, s')
    /\ V.test_results s' = V.test_results s
    /\ V.proc s' = Some p'
    /\ stdin p'
       = (stdin child ++ [line_of "initialize" VNone V.request_id_default])%list
    /\ stdout p' = skipn (in_time start_time readings) (stdout child)
    /\ state p' = Reaped.
Proof.
  intros Hl Hroom Hc _ Hun.
  pose proof (send_request_unanswered "initialize" VNone V.request_id_default
                (V.set_proc s (Some child)) child start_time readings
                eq_refl Hroom Hc Hun) as Hs.
  match type of Hs with _ = (_, ?q) => set (s1 := q) in * end.
  assert (Hrun : (V.run_all_tests ;; V.print_summary) s = (Ok tt, s1)).
  { unfold V.run_all_tests.
    erewrite bind_Ok; [|erewrite bind_Ok; [|unfold V.start_server; rewrite Hl;
                                             reflexivity]].
    - reflexivity.
    - unfold V.exercise_server. erewrite bind_Ok by exact Hs. reflexivity. }
  unfold V.main, try_finally, try_except. rewrite Hrun.
  erewrite cleanup_reaps by reflexivity.
  eexists; eexists. split; [reflexivity|]. cbn. auto.
Qed.

Lemma verify_main_without_handshake_witness :
  exists s' p',
    V.main deaf_verifier = (Ok tt, s')
    /\ V.test_results s' = V.test_results deaf_verifier
    /\ V.proc s' = Some p'
    /\ stdin p'
       = (stdin chatty_child
          ++ [line_of "initialize" VNone V.request_id_default])%list
    /\ stdout p' = skipn (in_time 0 [1; 11]%Q) (stdout chatty_child)
    /\ state p' = Reaped.
Proof.
  apply (verify_main_without_handshake deaf_verifier chatty_child
           0%Q [1; 11]%Q).
  - reflexivity.
  - discriminate.
  - reflexivity.
  - vm_compute. lia.
  - apply Forall_cons; [reflexivity|apply Forall_nil].
Defined.

Lemma dict_set_keys (m : list (string * value)) (k : string) (v : value) :
  map fst (dict_set m k v) = map fst m
  \/ (~ In k (map fst m) /\ map fst (dict_set m k v) = (map fst m ++ [k])%list).
Proof.
  induction m as [|[k' v'] m IH]; cbn.
  - right. auto.
  - destruct (String.eqb k' k) eqn:E; cbn.
    + left. reflexivity.
    + apply String.eqb_neq in E. destruct IH as [IH|[Hn IH]].
      * left. rewrite IH. reflexivity.
      * right. rewrite IH. split; [|reflexivity]. intros [H|H]; auto.
Qed.

Lemma tidy_dict_set (m : list (string * value)) (k : string) (v : value) :
  In k tool_names -> tidy m -> tidy (dict_set m k v).
Proof.
  intros Hk [Hd Hi]. unfold tidy.
  destruct (dict_set_keys m k v) as [H|[Hn H]]; rewrite H; [auto|]. split.
  - apply NoDup_app; [exact Hd|repeat constructor; intros []|].
    intros x Hx [<-|[]]. exact (Hn Hx).
  - apply incl_app; [exact Hi|]. intros x [<-|[]]. exact Hk.
Qed.

Lemma keeps_unchanged {A : Type} (P : list (string * value) -> Prop)
    (c : M V.state A) :
  (forall s r s', c s = (r, s') -> V.test_results s' = V.test_results s) ->
  keeps (fun s => P (V.test_results s)) c.
Proof. intros H s r s' E HP. rewrite (H s r s' E). exact HP. Qed.

Lemma keeps_tidy_send_request (method : string) (params : value) (id : Z) :
  keeps (fun s => tidy (V.test_results s)) (V.send_request method params id).
Proof.
  apply keeps_unchanged. intros s r s'.
  apply verify_send_request_results.
Qed.

Lemma keeps_tidy_set_result (k : string) (v : value) :
  In k tool_names ->
  keeps (fun s => tidy (V.test_results s)) (V.set_result k v).
Proof.
  intros Hk s r s' E. injection E as <- <-. cbn. apply tidy_dict_set. exact Hk.
Qed.

Lemma keeps_tidy_verify_tool (tool_name : string) (test_params : value) :
  In tool_name tool_names ->
  keeps (fun s => tidy (V.test_results s))
    (V.verify_tool tool_name test_params).
Proof.
  intros Hk. unfold V.verify_tool.
  apply keeps_bind; [apply keeps_tidy_send_request|]. intros response.
  repeat first
    [ apply keeps_ret
    | apply keeps_eval
    | apply keeps_tidy_set_result; exact Hk
    | apply keeps_bind; [|intros ?]
    | match goal with
      | |- keeps _ (if ?b then _ else _) => destruct b
      | |- keeps _ (match ?x with _ => _ end) => destruct x
      end ].
Qed.

Lemma keeps_tidy_main : keeps (fun s => tidy (V.test_results s)) V.main.
Proof.
  unfold V.main. apply keeps_try_finally.
  - apply keeps_try_except; [|intros e; apply keeps_ret].
    apply keeps_bind; [|intros _; apply keeps_ret].
    unfold V.run_all_tests. apply keeps_bind.
    { apply keeps_unchanged. intros s r s'. unfold V.start_server.
      destruct (V.launch s); intros [= <- <-]; reflexivity. }
    intros _. unfold V.exercise_server.
    apply keeps_bind; [apply keeps_tidy_send_request|]. intros init_response.
    apply keeps_bind; [steady|]. intros initialized.
    destruct initialized; [|apply keeps_ret].
    apply keeps_bind; [steady|]. intros r.
    apply keeps_bind; [steady|]. intros server_info.
    apply keeps_bind; [steady|]. intros _.
    apply keeps_bind; [steady|]. intros _.
    apply keeps_bind; [apply keeps_tidy_send_request|]. intros tools_response.
    apply keeps_bind; [steady|]. intros listed.
    destruct listed; [|apply keeps_ret].
    apply keeps_bind; [steady|]. intros r'.
    apply keeps_bind; [steady|]. intros tools.
    apply keeps_bind; [steady|]. intros _.
    apply keeps_bind; [steady|]. intros items.
    apply keeps_bind.
    { apply keeps_for_each. intros tool _. steady. }
    intros _. apply keeps_for_each. intros [[name params] descr] Hin.
    apply keeps_bind; [|intros _; apply keeps_ret].
    apply keeps_tidy_verify_tool.
    apply (in_map (fun test => fst (fst test))) in Hin. exact Hin.
  - apply keeps_unchanged. intros s r s'. unfold V.cleanup, V.on_proc.
    destruct (V.proc s) as [p|]; [|intros [= <- <-]; reflexivity].
    destruct ((terminate ;; wait) p). intros [= <- <-]. reflexivity.
Qed.

(** At the end of a run of a fresh verifier, whatever the child and the
    clock, the recorded results are keyed by names of [tool_tests], each
    at most once.  So the summary counts at most eight tools, no more
    successes than tools, and its count of failures is not negative. *)
Theorem verify_main_results_are_tidy (readings : list Q)
    (child : option Popen) :
  let results := V.test_results (snd (V.main (V.init readings child))) in
  NoDup (map fst results)
  /\ incl (map fst results) tool_names
  /\ V.success_count results <= V.total_count results
  /\ V.total_count results <= 8.
Proof.
  intros results.
  assert (H : tidy results).
  { subst results. destruct (V.main (V.init readings child)) as [r s'] eqn:E.
    apply (keeps_tidy_main _ _ _ E). split; [constructor|intros x []]. }
  destruct H as [Hd Hi]. repeat split; try assumption.
  - unfold V.success_count, V.total_count. apply filter_length_le.
  - unfold V.total_count. rewrite <- (length_map fst).
    apply (NoDup_incl_length Hd Hi).
Qed.

Lemma poll_first (start_time now : Q) (readings : list Q) (p : Popen)
    (line : string) (rest : list string) (v : value) :
  V.Qlt_bool (now - start_time) 10 = true ->
  stdout p = line :: rest -> decode line = Some v ->
  V.poll start_time (now :: readings) p = (Ok v, (readings, set_stdout p rest)).
Proof.
  intros Ht Hout Hd. cbn [V.poll]. rewrite Ht. unfold readline. rewrite Hout.
  destruct line as [|c line]; [discriminate|]. cbn [nonempty].
  unfold loads. rewrite Hd. reflexivity.
Qed.

Lemma verify_send_request_answered (method : string) (params : value)
    (id : Z) (s : V.state) (p : Popen) (start_time now : Q)
    (readings : list Q) (line : string) (rest : list string) (v : value) :
  V.proc s = Some p -> stdin_room p <> Some 0 ->
  V.clock s = start_time :: now :: readings ->
  V.Qlt_bool (now - start_time) 10 = true ->
  stdout p = line :: rest -> decode line = Some v ->
  V.send_request method params id s
  = (Ok v,
     V.mkState (Some (set_stdout (wrote p (line_of method params id)) rest))
       (V.test_results s) readings (V.launch s)).
Proof.
  intros Hp Hroom Hc Ht Hout Hd.
  rewrite (verify_send_request_unfold _ _ _ s p Hp Hroom), Hc.
  rewrite (poll_first start_time now readings
             (wrote p (line_of method params id)) line rest v Ht Hout Hd).
  reflexivity.
Qed.

Lemma tools_unanswered (tests : list (string * value * string)) :
  forall (s : V.state) (p : Popen),
  V.proc s = Some p -> stdin_room p = None ->
  unanswered (List.length tests) (V.clock s) (stdout p) ->
  exists s' p',
    for_each tests
      (fun test =>
         let '(name, params, _) := test in
         _ <- V.verify_tool name params ;; ret tt) s
    = (Ok tt, s')
    /\ V.proc s' = Some p'
    /\ stdin p' = (stdin p ++ map call_line tests)%list
    /\ V.test_results s' = all_timeouts tests (V.test_results s).
Proof.
  induction tests as [|[[name params] descr] tests IH]; intros s p Hp Hroom Hun.
  - exists s, p. cbn. rewrite List.app_nil_r. auto.
  - cbn [List.length unanswered] in Hun.
    destruct (V.clock s) as [|start_time readings] eqn:Hc; [contradiction|].
    destruct Hun as (_ & Hnow & Hlater).
    assert (Hr0 : stdin_room p <> Some 0) by (rewrite Hroom; discriminate).
    pose proof (send_request_unanswered "tools/call"
                  (VDict [("name", VStr name); ("arguments", params)])
                  V.request_id_default s p start_time readings Hp Hr0 Hc Hnow)
      as Hs.
    pose proof (verify_tool_none name params s _ Hs) as Hv.
    match type of Hv with _ = (_, ?q) => set (s1 := q) in * end.
    assert (Hroom1 : stdin_room
                       (set_stdout
                          (wrote p
                             (line_of "tools/call"
                                (VDict [("name", VStr name);
                                        ("arguments", params)])
                                V.request_id_default))
                          (skipn (in_time start_time readings) (stdout p)))
                     = None) by (cbn; rewrite Hroom; reflexivity).
    destruct (IH s1 _ eq_refl Hroom1 Hlater)
      as (s' & p' & Hf & Hp' & Hin' & Hres').
    exists s', p'. cbn [for_each].
    erewrite bind_Ok; [|erewrite bind_Ok by exact Hv; reflexivity].
    split; [exact Hf|]. split; [exact Hp'|].
    rewrite Hin', Hres'. unfold s1.
    cbn [V.test_results map all_timeouts fold_left fst stdin wrote
         set_stdout].
    rewrite <- List.app_assoc. auto.
Qed.

(** A server that answers the handshake and the listing in time and
    then, for each of the eight tools, only writes lines that are not
    JSON until a reading of the clock is past the ten seconds, gets all
    ten requests, and every tool of the table is recorded as a timeout:
    the summary counts eight tools and no success. *)
Theorem verify_main_silent_tools (s : V.state) (child : Popen)
    (t0 t1 t2 t3 : Q) (later : list Q) (line1 line2 : string)
    (rest : list string) (v1 v2 : value) :
  V.launch s = Some child -> V.test_results s = [] ->
  V.clock s = t0 :: t1 :: t2 :: t3 :: later ->
  V.Qlt_bool (t1 - t0) 10 = true -> V.Qlt_bool (t3 - t2) 10 = true ->
  stdin_room child = None ->
  stdout child = line1 :: line2 :: rest ->
  decode line1 = Some v1 -> names_server v1 ->
  decode line2 = Some v2 -> lists_tools v2 ->
  unanswered (List.length V.tool_tests) later rest ->
  exists s' p',
    V.main s = (Ok tt, s')
    /\ V.proc s' = Some p'
    /\ stdin p' = (stdin child ++ expected_lines)%list
    /\ state p' = Reaped
    /\ V.test_results s'
       = map (fun name => (name, VStr "TIMEOUT")) tool_names
    /\ V.success_count (V.test_results s') = 0
    /\ V.total_count (V.test_results s') = 8.
Proof.
  intros Hl Hres0 Hc Ht1 Ht2 Hroom Hout Hd1
    (r1 & info & name & version & Hr1 & Hinfo & Hname & Hversion)
    Hd2 (r2 & tools & Hr2 & Htools & Hnames) Hun.
  assert (He : exists s1 p1,
             V.exercise_server (V.set_proc s (Some child)) = (Ok tt, s1)
             /\ V.proc s1 = Some p1
             /\ stdin p1 = (stdin child ++ expected_lines)%list
             /\ V.test_results s1 = all_timeouts V.tool_tests []).
  { unfold V.exercise_server.
    erewrite bind_Ok
      by (apply (verify_send_request_answered "initialize" VNone
                   V.request_id_default (V.set_proc s (Some child)) child
                   t0 t1 (t2 :: t3 :: later) line1 (line2 :: rest) v1);
          [reflexivity|rewrite Hroom; discriminate|exact Hc|exact Ht1
          |exact Hout|exact Hd1]).
    erewrite bind_Ok
      by (unfold eval; rewrite (getitem_truthy _ _ _ Hr1),
            (getitem_contains _ _ _ Hr1); reflexivity).
    cbn iota.
    erewrite bind_Ok by (unfold eval; rewrite Hr1; reflexivity).
    erewrite bind_Ok by (unfold eval; rewrite Hinfo; reflexivity).
    erewrite bind_Ok by (unfold eval; rewrite Hname; reflexivity).
    erewrite bind_Ok by (unfold eval; rewrite Hversion; reflexivity).
    erewrite bind_Ok
      by (eapply (verify_send_request_answered "tools/list" (VDict []) 2 _ _
                    t2 t3 later line2 rest v2);
          [reflexivity|cbn; rewrite Hroom; discriminate|reflexivity|exact Ht2
          |reflexivity|exact Hd2]).
    erewrite bind_Ok
      by (unfold eval; rewrite (getitem_truthy _ _ _ Hr2),
            (getitem_contains _ _ _ Hr2); reflexivity).
    cbn iota.
    erewrite bind_Ok by (unfold eval; rewrite Hr2; reflexivity).
    erewrite bind_Ok by (unfold eval; rewrite Htools; reflexivity).
    erewrite bind_Ok by reflexivity.
    erewrite bind_Ok by reflexivity.
    erewrite bind_Ok by (apply tools_have_names; exact Hnames).
    match goal with
    | |- exists s1 p1, for_each _ _ ?q = _ /\ _ =>
        destruct (tools_unanswered V.tool_tests q
                    (set_stdout
                       (wrote
                          (set_stdout
                             (wrote child
                                (line_of "initialize" VNone
                                   V.request_id_default))
                             (line2 :: rest))
                          (line_of "tools/list" (VDict []) 2))
                       rest))
          as (s1 & p1 & Hf & Hp1 & Hin & Hres1)
    end.
    - reflexivity.
    - cbn. rewrite Hroom. reflexivity.
    - exact Hun.
    - exists s1, p1. split; [exact Hf|]. split; [exact Hp1|].
      rewrite Hin, Hres1.
      cbn [stdin wrote set_stdout V.test_results V.set_proc].
      rewrite Hres0. unfold expected_lines.
      rewrite <- !List.app_assoc. auto. }
  destruct He as (s1 & p1 & He & Hp1 & Hin & Hres1).
  assert (Hrun : (V.run_all_tests ;; V.print_summary) s = (Ok tt, s1)).
  { unfold V.run_all_tests.
    erewrite bind_Ok; [|erewrite bind_Ok; [|unfold V.start_server; rewrite Hl;
                                             reflexivity]].
    - reflexivity.
    - exact He. }
  unfold V.main, try_finally, try_except. rewrite Hrun.
  rewrite (cleanup_reaps s1 p1 Hp1).
  eexists; eexists. split; [reflexivity|].
  cbn [V.proc V.set_proc V.test_results stdin state set_state].
  rewrite Hres1. repeat split. exact Hin.
Qed.

Lemma verify_main_silent_tools_witness :
  exists s' p',
    V.main stalling_verifier = (Ok tt, s')
    /\ V.proc s' = Some p'
    /\ stdin p' = (stdin stalling_child ++ expected_lines)%list
    /\ state p' = Reaped
    /\ V.test_results s'
       = map (fun name => (name, VStr "TIMEOUT")) tool_names
    /\ V.success_count (V.test_results s') = 0
    /\ V.total_count (V.test_results s') = 8.
Proof.
  apply (verify_main_silent_tools stalling_verifier stalling_child
           0%Q 1%Q 2%Q 3%Q
           [10; 11; 21; 30; 31; 41; 50; 51; 61; 70; 71; 81;
            90; 91; 101; 110; 111; 121; 130; 131; 141; 150; 151; 161]%Q
           (encode init_response) (encode list_response)
           (repeat noise_line 8) init_response list_response).
  - reflexivity.
  - reflexivity.
  - reflexivity.
  - reflexivity.
  - reflexivity.
  - reflexivity.
  - reflexivity.
  - vm_compute. reflexivity.
  - exists (VDict [("serverInfo",
                    VDict [("name", VStr "slunk"); ("version", VStr "1.0")]);
                   ("capabilities", VDict [])]),
      (VDict [("name", VStr "slunk"); ("version", VStr "1.0")]),
      (VStr "slunk"), (VStr "1.0").
    repeat split.
  - vm_compute. reflexivity.
  - exists (VDict [("tools", VList [])]), []. repeat split. constructor.
  - cbn -[is_json noise_line]. repeat split; try lia;
      apply Forall_cons; try reflexivity; apply Forall_nil.
Defined.

(** The line that [send_request] of [verify_all_tools] writes gives the
    request back when it is stripped and parsed: an object with the
    members [jsonrpc], [method], [params] and [id].  Its [params] is the
    argument when that is truthy, and an empty object otherwise, so a
    call without [params] still sends an object. *)
Theorem verify_request_round_trip (method : string) (params : value)
    (request_id : Z) :
  wf params = true ->
  loads (strip (line_of method params request_id))
  = Ok (VDict [("jsonrpc", VStr "2.0"); ("method", VStr method);
               ("params", if truthy params then params else VDict []);
               ("id", VInt request_id)]).
Proof.
  intros Hwf. unfold line_of, V.request, nl, or_else.
  rewrite strip_dumps_dict. apply loads_dumps.
  cbn [wf map fst snd forallb distinct existsb negb andb orb].
  destruct (truthy params); cbn; rewrite ?Hwf; reflexivity.
Qed.

Lemma verify_request_round_trip_witness :
  loads (strip (line_of "initialize" VNone V.request_id_default))
  = Ok (VDict [("jsonrpc", VStr "2.0"); ("method", VStr "initialize");
               ("params", if truthy VNone then VNone else VDict []);
               ("id", VInt V.request_id_default)]).
Proof.
  apply (verify_request_round_trip "initialize" VNone V.request_id_default).
  reflexivity.
Defined.

(** [send_request] of [verify_all_tools] does not look at the id of
    what it reads.  When a line that is not JSON is all that has come
    before the ten seconds are over, the request gets [None]; the
    response that comes after it stays unread, and the next request
    returns it as its own. *)
Theorem verify_late_response_goes_to_next_request
    (method1 method2 : string) (params1 params2 : value) (id1 id2 : Z)
    (s : V.state) (p : Popen) (t0 t1 t2 t3 t4 : Q) (later : list Q)
    (noise line : string) (rest : list string) (v : value) :
  V.proc s = Some p -> stdin_room p = None ->
  V.clock s = t0 :: t1 :: t2 :: t3 :: t4 :: later ->
  V.Qlt_bool (t1 - t0) 10 = true -> V.Qlt_bool (t2 - t0) 10 = false ->
  V.Qlt_bool (t4 - t3) 10 = true ->
  stdout p = noise :: line :: rest ->
  unparsable noise -> decode line = Some v ->
  exists s1 s2 p2,
    V.send_request method1 params1 id1 s = (Ok VNone, s1)
    /\ V.send_request method2 params2 id2 s1 = (Ok v, s2)
    /\ V.proc s2 = Some p2
    /\ stdin p2
       = (stdin p ++ [line_of method1 params1 id1;
                      line_of method2 params2 id2])%list
    /\ stdout p2 = rest.
Proof.
  intros Hp Hroom Hc Ht1 Ht2 Ht4 Hout Hn Hd.
  assert (H1 : V.send_request method1 params1 id1 s
               = (Ok VNone,
                  V.mkState
                    (Some (set_stdout (wrote p (line_of method1 params1 id1))
                             (line :: rest)))
                    (V.test_results s) (t3 :: t4 :: later) (V.launch s))).
  { rewrite (verify_send_request_unfold _ _ _ s p Hp)
      by (rewrite Hroom; discriminate).
    rewrite Hc. cbn [V.poll]. rewrite Ht1. unfold readline.
    cbn [stdout wrote]. rewrite Hout.
    destruct noise as [|c noise]; cbn [nonempty].
    - cbn [V.poll]. rewrite Ht2. reflexivity.
    - unfold loads. rewrite (not_json_decode _ Hn).
      cbn [V.poll]. rewrite Ht2. reflexivity. }
  eexists; eexists; eexists. split; [exact H1|]. split.
  - apply (verify_send_request_answered method2 params2 id2 _
             (set_stdout (wrote p (line_of method1 params1 id1)) (line :: rest))
             t3 t4 later line rest v);
      try reflexivity; try assumption.
    cbn. rewrite Hroom. discriminate.
  - split; [reflexivity|]. cbn [stdin stdout wrote set_stdout].
    rewrite <- List.app_assoc. split; reflexivity.
Qed.

Lemma verify_late_response_goes_to_next_request_witness :
  exists s1 s2 p2,
    V.send_request "initialize" VNone 1 slow_verifier = (Ok VNone, s1)
    /\ V.send_request "tools/list" (VDict []) 2 s1 = (Ok init_response, s2)
    /\ V.proc s2 = Some p2
    /\ stdin p2
       = (stdin slow_child
          ++ [line_of "initialize" VNone 1;
              line_of "tools/list" (VDict []) 2])%list
    /\ stdout p2 = [].
Proof.
  apply (verify_late_response_goes_to_next_request "initialize" "tools/list"
           VNone (VDict []) 1 2 slow_verifier slow_child
           0%Q 9%Q 11%Q 12%Q 13%Q [] noise_line (encode init_response) []
           init_response).
  - reflexivity.
  - reflexivity.
  - reflexivity.
  - reflexivity.
  - reflexivity.
  - reflexivity.
  - reflexivity.
  - reflexivity.
  - vm_compute. reflexivity.
Defined.

(** ** The search scripts *)

Lemma search_send_request_spec (request : value) (p : Popen) :
  stdin_room p <> Some 0 ->
  MS.send_request request p
  = (reading (hd EmptyString (stdout p)), exchanged p request).
Proof.
  intros Hroom. unfold MS.send_request. fold nl. fold (encode request).
  rewrite (bind_Ok _ _ _ _ _ (write_ok p _ Hroom)).
  unfold bind, readline, reading, exchanged. cbn [stdout wrote].
  destruct (stdout p) as [|line rest] eqn:E; cbn [hd tl].
  - destruct p. cbn in E. subst. reflexivity.
  - destruct (nonempty (strip line)); reflexivity.
Qed.

Lemma semantic_send_request_same : SS.send_request = MS.send_request.
Proof. reflexivity. Qed.

Lemma emits_search_send_request (request : value) :
  emits stdin (MS.send_request request) [encode request].
Proof.
  intros p r p' E.
  destruct (stdin_room p) as [[|n]|] eqn:Er.
  - unfold MS.send_request in E. fold nl in E. fold (encode request) in E.
    rewrite (bind_Raise _ _ _ _ _ (write_full p _ Er)) in E.
    injection E as <- <-.
    split; [intros a Ha; discriminate|].
    intros e He. exists 0. rewrite List.app_nil_r. reflexivity.
  - rewrite search_send_request_spec in E by congruence.
    injection E as <- <-. cbn. split.
    + intros _ _. reflexivity.
    + intros e _. exists 1. reflexivity.
  - rewrite search_send_request_spec in E by congruence.
    injection E as <- <-. cbn. split.
    + intros _ _. reflexivity.
    + intros e _. exists 1. reflexivity.
Qed.

Lemma emits_show (response : value) : emits stdin (SS.show response) [].
Proof. unfold SS.show. hush. Qed.

Lemma hang_up_reaps {A : Type} (body : M Popen A) (p : Popen) :
  state (snd (try_finally body (terminate ;; wait) p)) = Reaped.
Proof.
  unfold try_finally. destruct (body p) as [r p1].
  unfold bind, terminate, wait. destruct (state p1); reflexivity.
Qed.

(** Whatever the child does, [test_search] of [test_mcp_search] leaves
    it terminated and waited for, also when an exception goes on to the
    caller, and what it has written to the child is a first part of its
    four requests, whose ids are 1 to 4. *)
Theorem search_test_search_cleans_up (p : Popen) :
  state (snd (MS.test_search p)) = Reaped
  /\ (exists k,
        stdin (snd (MS.test_search p))
        = (stdin p ++ map encode (firstn k search_requests))%list)
  /\ map (fun request => getitem request "id") search_requests
     = map (fun i => Ok (VInt i)) [1; 2; 3; 4]%Z.
Proof.
  split; [apply hang_up_reaps|]. split; [|reflexivity].
  assert (H : emits_some stdin MS.test_search (map encode search_requests)).
  { unfold MS.test_search. apply emits_some_try_finally; [|apply emits_hang_up].
    apply emits_emits_some. unfold MS.searches, search_requests. cbn [map].
    apply (emits_bind _ _ _ [_] [_; _; _]);
      [apply emits_search_send_request|intros _].
    apply (emits_bind _ _ _ [_] [_; _]);
      [apply emits_search_send_request|intros _].
    apply (emits_bind _ _ _ [_] [_]);
      [apply emits_search_send_request|intros _].
    apply (emits_bind _ _ _ [_] []);
      [apply emits_search_send_request|intros _].
    apply emits_ret. }
  destruct (MS.test_search p) as [r p'] eqn:E.
  destruct (H p r p' E) as [k Hk]. exists k. cbn [snd].
  rewrite Hk, firstn_map. reflexivity.
Qed.

(** The same holds for [test_search] of [test_semantic_search], which
    also looks into the responses. *)
Theorem semantic_test_search_cleans_up (p : Popen) :
  state (snd (SS.test_search p)) = Reaped
  /\ (exists k,
        stdin (snd (SS.test_search p))
        = (stdin p ++ map encode (firstn k semantic_requests))%list)
  /\ map (fun request => getitem request "id") semantic_requests
     = map (fun i => Ok (VInt i)) [1; 2; 3; 4]%Z.
Proof.
  split; [apply hang_up_reaps|]. split; [|reflexivity].
  assert (H : emits_some stdin SS.test_search (map encode semantic_requests)).
  { unfold SS.test_search. apply emits_some_try_finally; [|apply emits_hang_up].
    apply emits_emits_some. unfold SS.searches, semantic_requests. cbn [map].
    rewrite semantic_send_request_same.
    apply (emits_bind _ _ _ [_] [_; _; _]);
      [apply emits_search_send_request|intros _].
    apply (emits_bind _ _ _ [_] [_; _]);
      [apply emits_search_send_request|intros response].
    apply (emits_bind _ _ _ [] [_; _]); [apply emits_show|intros _].
    apply (emits_bind _ _ _ [_] [_]);
      [apply emits_search_send_request|intros response2].
    apply (emits_bind _ _ _ [] [_]); [apply emits_show|intros _].
    apply (emits_bind _ _ _ [_] []);
      [apply emits_search_send_request|intros response3].
    apply emits_show. }
  destruct (SS.test_search p) as [r p'] eqn:E.
  destruct (H p r p' E) as [k Hk]. exists k. cbn [snd].
  rewrite Hk, firstn_map. reflexivity.
Qed.

Lemma searches_exchanges : MS.searches = exchanges search_requests.
Proof. reflexivity. Qed.

Lemma reading_fine (line : string) : fine line -> exists v, reading line = Ok v.
Proof.
  unfold reading, loads. intros [H|[v H]].
  - rewrite H. eexists. reflexivity.
  - rewrite H. destruct (nonempty (strip line)); eexists; reflexivity.
Qed.

Lemma reading_garbled (line : string) :
  garbled line -> reading line = Raise JSONDecodeError.
Proof.
  unfold reading, loads. intros [H1 H2].
  rewrite H1, (not_json_decode _ H2). reflexivity.
Qed.

Lemma exchanges_garbled (bad : string) (rest : list string)
    (good : list string) :
  forall (requests : list value) (p : Popen),
  stdin_room p = None ->
  stdout p = (good ++ bad :: rest)%list ->
  Forall fine good -> List.length good < List.length requests ->
  garbled bad ->
  exists p',
    exchanges requests p = (Raise JSONDecodeError, p')
    /\ stdin p'
       = (stdin p ++ map encode (firstn (S (List.length good)) requests))%list
    /\ stdout p' = rest /\ state p' = state p.
Proof.
  induction good as [|line good IH]; intros requests p Hroom Hout Hf Hl Hb;
    (destruct requests as [|request requests]; [cbn in Hl; lia|]);
    cbn [exchanges];
    assert (Hr : stdin_room p <> Some 0) by (rewrite Hroom; discriminate);
    pose proof (search_send_request_spec request p Hr) as Hs;
    rewrite Hout in Hs; cbn [hd List.app] in Hs.
  - rewrite (reading_garbled bad Hb) in Hs.
    rewrite (bind_Raise _ _ _ _ _ Hs). eexists. split; [reflexivity|].
    unfold exchanged. cbn. rewrite Hout. cbn. auto.
  - inversion Hf as [|? ? Hline Hgood]; subst.
    destruct (reading_fine line Hline) as [v Hv]. rewrite Hv in Hs.
    rewrite (bind_Ok _ _ _ _ _ Hs).
    destruct (IH requests (exchanged p request)) as (p' & He & Hin & Ho & Hst);
      try assumption.
    + unfold exchanged. cbn. rewrite Hroom. reflexivity.
    + unfold exchanged. cbn. rewrite Hout. reflexivity.
    + cbn in Hl. lia.
    + exists p'. split; [exact He|]. rewrite Hin, Ho, Hst.
      unfold exchanged. cbn. rewrite <- List.app_assoc. auto.
Qed.


Lemma try_finally_hang_up {A : Type} (body : M Popen A) (p p1 : Popen)
    (r : result A) :
  body p = (r, p1) ->
  try_finally body (terminate ;; wait) p = (r, set_state p1 Reaped).
Proof.
  intros H. unfold try_finally. rewrite H. unfold bind, terminate, wait.
  destruct (state p1); reflexivity.
Qed.

(** [send_request] of the search scripts reads one line for each
    request, whatever the line holds.  When the child puts a blank line
    before a response, the request at hand gets [None], and the response
    is returned for the next request. *)
Theorem search_blank_line_shifts_responses (request1 request2 : value)
    (p : Popen) (blank line : string) (rest : list string) (v : value) :
  stdin_room p = None ->
  stdout p = blank :: line :: rest ->
  strip blank = EmptyString ->
  decode (strip line) = Some v ->
  exists p1 p2,
    MS.send_request request1 p = (Ok VNone, p1)
    /\ SS.send_request request1 p = (Ok VNone, p1)
    /\ MS.send_request request2 p1 = (Ok v, p2)
    /\ SS.send_request request2 p1 = (Ok v, p2)
    /\ stdin p2 = (stdin p ++ [encode request1; encode request2])%list
    /\ stdout p2 = rest.
Proof.
  intros Hroom Hout Hblank Hd.
  assert (Hr : stdin_room p <> Some 0) by (rewrite Hroom; discriminate).
  assert (Hr1 : stdin_room (exchanged p request1) <> Some 0)
    by (cbn; rewrite Hroom; discriminate).
  assert (Ho1 : stdout (exchanged p request1) = line :: rest)
    by (unfold exchanged; cbn; rewrite Hout; reflexivity).
  assert (Hn : nonempty (strip line) = true)
    by (destruct (strip line); [discriminate|reflexivity]).
  exists (exchanged p request1), (exchanged (exchanged p request1) request2).
  rewrite semantic_send_request_same.
  rewrite (search_send_request_spec request1 p Hr).
  rewrite (search_send_request_spec request2 _ Hr1).
  rewrite Hout, Ho1. cbn [hd].
  unfold reading, loads. rewrite Hblank, Hd, Hn. cbn [nonempty].
  repeat split.
  - unfold exchanged. cbn. rewrite <- List.app_assoc. reflexivity.
  - unfold exchanged at 1. cbn [stdout set_stdout]. rewrite Ho1. reflexivity.
Qed.

Lemma search_blank_line_shifts_responses_witness :
  exists p1 p2,
    MS.send_request MS.init_request late_child = (Ok VNone, p1)
    /\ SS.send_request MS.init_request late_child = (Ok VNone, p1)
    /\ MS.send_request MS.search_request p1 = (Ok pong_response, p2)
    /\ SS.send_request MS.search_request p1 = (Ok pong_response, p2)
    /\ stdin p2
       = (stdin late_child
          ++ [encode MS.init_request; encode MS.search_request])%list
    /\ stdout p2 = [].
Proof.
  apply (search_blank_line_shifts_responses MS.init_request MS.search_request
           late_child nl (encode pong_response) [] pong_response).
  - reflexivity.
  - reflexivity.
  - reflexivity.
  - vm_compute. reflexivity.
Defined.

(** [test_search] of [test_mcp_search] stops at the first line that is
    neither blank nor JSON: [json.loads] raises, nothing catches the
    exception, and it reaches the caller.  The requests after that line
    are never written; the child is terminated and waited for all the
    same. *)
Theorem search_stops_at_garbled_line (p : Popen) (good : list string)
    (bad : string) (rest : list string) :
  stdin_room p = None ->
  stdout p = (good ++ bad :: rest)%list ->
  Forall fine good -> List.length good < 4 ->
  garbled bad ->
  exists p',
    MS.test_search p = (Raise JSONDecodeError, p')
    /\ stdin p'
       = (stdin p
          ++ map encode (firstn (S (List.length good)) search_requests))%list
    /\ stdout p' = rest /\ state p' = Reaped.
Proof.
  intros Hroom Hout Hf Hl Hb.
  destruct (exchanges_garbled bad rest good search_requests p Hroom Hout Hf
              Hl Hb) as (p1 & He & Hin & Ho & _).
  unfold MS.test_search. rewrite searches_exchanges.
  rewrite (try_finally_hang_up _ _ _ _ He).
  eexists. split; [reflexivity|]. cbn. auto.
Qed.

Lemma search_stops_at_garbled_line_witness :
  exists p',
    MS.test_search logging_child = (Raise JSONDecodeError, p')
    /\ stdin p'
       = (stdin logging_child
          ++ map encode (firstn 2 search_requests))%list
    /\ stdout p' = [encode pong_response] /\ state p' = Reaped.
Proof.
  apply (search_stops_at_garbled_line logging_child [encode init_response]
           noise_line [encode pong_response]).
  - reflexivity.
  - reflexivity.
  - apply Forall_cons; [|apply Forall_nil].
    right. exists init_response. vm_compute. reflexivity.
  - cbn. lia.
  - split; vm_compute; reflexivity.
Defined.



Lemma show_empty_content (response result : value) (p : Popen) :
  getitem response "result" = Ok result ->
  getitem result "content" = Ok (VList []) ->
  SS.show response p = (Raise IndexError, p).
Proof.
  intros Hr Hc. unfold SS.show.
  erewrite bind_Ok
    by (unfold eval; rewrite (getitem_truthy _ _ _ Hr),
          (getitem_contains _ _ _ Hr); reflexivity).
  erewrite bind_Ok
    by (erewrite bind_Ok by (unfold eval; rewrite Hr; reflexivity);
        unfold eval; rewrite (getitem_contains _ _ _ Hc); reflexivity).
  cbn iota.
  erewrite bind_Ok by (unfold eval; rewrite Hr; reflexivity).
  erewrite bind_Ok by (unfold eval; rewrite Hc; reflexivity).
  reflexivity.
Qed.

(** [test_search] of [test_semantic_search] takes the first item of
    [result.content] after testing only that [content] is there.  When
    the response to the first search has an empty list of content, the
    run ends with an [IndexError] that reaches the caller; the two
    searches that would follow are never written, and the child is
    terminated and waited for. *)
Theorem semantic_empty_content_raises (p : Popen) (line1 line2 : string)
    (rest : list string) (response result : value) :
  stdin_room p = None ->
  stdout p = line1 :: line2 :: rest ->
  fine line1 ->
  decode (strip line2) = Some response ->
  getitem response "result" = Ok result ->
  getitem result "content" = Ok (VList []) ->
  exists p',
    SS.test_search p = (Raise IndexError, p')
    /\ stdin p'
       = (stdin p ++ map encode (firstn 2 semantic_requests))%list
    /\ state p' = Reaped.
Proof.
  intros Hroom Hout Hf Hd Hr Hc.
  assert (Hr0 : stdin_room p <> Some 0) by (rewrite Hroom; discriminate).
  assert (Hr1 : stdin_room (exchanged p SS.init_request) <> Some 0)
    by (cbn; rewrite Hroom; discriminate).
  assert (Ho1 : stdout (exchanged p SS.init_request) = line2 :: rest)
    by (unfold exchanged; cbn; rewrite Hout; reflexivity).
  assert (Hn : nonempty (strip line2) = true)
    by (destruct (strip line2); [discriminate|reflexivity]).
  destruct (reading_fine line1 Hf) as [v1 Hv1].
  assert (He : SS.searches p
               = (Raise IndexError,
                  exchanged (exchanged p SS.init_request) SS.search_request)).
  { unfold SS.searches. rewrite semantic_send_request_same.
    erewrite bind_Ok
      by (rewrite (search_send_request_spec _ p Hr0), Hout; cbn [hd];
          rewrite Hv1; reflexivity).
    erewrite bind_Ok
      by (rewrite (search_send_request_spec _ _ Hr1), Ho1; cbn [hd];
          unfold reading, loads; rewrite Hn, Hd; reflexivity).
    erewrite bind_Raise
      by (apply (show_empty_content response result _ Hr Hc)).
    reflexivity. }
  unfold SS.test_search. rewrite (try_finally_hang_up _ _ _ _ He).
  eexists. split; [reflexivity|]. cbn. rewrite <- List.app_assoc. auto.
Qed.

Lemma semantic_empty_content_raises_witness :
  exists p',
    SS.test_search empty_handed_child = (Raise IndexError, p')
    /\ stdin p'
       = (stdin empty_handed_child
          ++ map encode (firstn 2 semantic_requests))%list
    /\ state p' = Reaped.
Proof.
  apply (semantic_empty_content_raises empty_handed_child
           (encode init_response) (encode empty_response) [] empty_response
           (VDict [("content", VList [])])).
  - reflexivity.
  - reflexivity.
  - right. exists init_response. vm_compute. reflexivity.
  - vm_compute. reflexivity.
  - reflexivity.
  - reflexivity.
Defined.

(** ** The scripts that start one child for each test *)

Lemma dict_set_add_key (m : list (string * value)) (k : string) (v : value) :
  map fst (dict_set m k v) = add_key (map fst m) k.
Proof.
  unfold add_key. induction m as [|[k' v'] m IH]; cbn; [reflexivity|].
  rewrite (String.eqb_sym k k').
  destruct (String.eqb k' k); cbn; [reflexivity|].
  rewrite IH. destruct (existsb (String.eqb k) (map fst m)); reflexivity.
Qed.

Lemma reported_dict_set (m : list (string * value)) (k : string)
    (entry : value) :
  reported entry -> Forall (fun kv => reported (snd kv)) m ->
  Forall (fun kv => reported (snd kv)) (dict_set m k entry).
Proof.
  intros He. induction 1 as [|[k' v'] m Hkv Hm IH]; cbn.
  - repeat constructor. exact He.
  - destruct (String.eqb k' k); constructor; auto.
Qed.

Lemma successful_reported (results : list (string * value)) :
  Forall (fun kv => reported (snd kv)) results ->
  exists n, T.successful results = Ok n /\ n <= List.length results.
Proof.
  induction 1 as [|[k entry] results (status & Hs & _) _ (n & Hn & Hle)].
  - exists 0. auto.
  - cbn [T.successful List.length]. cbn [snd] in Hs. rewrite Hs, Hn.
    destruct (eq_str (VStr status) "success"); eexists; split;
      try reflexivity; lia.
Qed.

Lemma test_case_unfold (launch : nat -> option Popen) (name : string)
    (request : value) (s : T.state) :
  T.test_case launch (name, request) s =
  match launch (List.length (T.processes s)) with
  | None =>
      (Ok tt,
       T.mkState (dict_set (T.results s) name (failed FileNotFoundError))
         (T.processes s))
  | Some p =>
      match communicate (encode request) 15 p with
      | (Ok (out, err), p') =>
          (Ok tt,
           T.mkState (dict_set (T.results s) name (answered out err))
             (T.processes s ++ [p'])%list)
      | (Raise _, p') =>
          (Ok tt,
           T.mkState (dict_set (T.results s) name timed_out)
             (T.processes s ++ [snd (kill p')])%list)
      end
  end.
Proof.
  unfold T.test_case, try_except, bind, T.Popen_app.
  destruct (launch (List.length (T.processes s))) as [p|]; [|reflexivity].
  unfold T.on_process. cbn [T.processes T.results].
  rewrite nth_error_last.
  destruct p as [i room o e ea st].
  unfold communicate, answered. fold nl. fold (encode request).
  cbn [state exit_after stdin stdin_room stdout stderr].
  destruct st; [destruct ea as [t|]; [destruct (Qle_bool t 15)|]| |];
    cbn [is_TimeoutExpired T.processes T.results];
    rewrite ?replace_nth_last, ?nth_error_last;
    unfold kill, terminate; cbn [state snd];
    cbn [T.processes T.results]; rewrite ?replace_nth_last;
    try reflexivity;
    destruct (nonempty (strip (concat_lines o))); reflexivity.
Qed.

Lemma communicate_outcome (text : string) (timeout : Q) (p : Popen) :
  (exists out err p',
      communicate text timeout p = (Ok (out, err), p') /\ state p' = Reaped)
  \/ (exists p',
        communicate text timeout p = (Raise TimeoutExpired, p')
        /\ state p = Running /\ exits_within p timeout = false
        /\ stdin p' = (stdin p ++ [text])%list).
Proof.
  unfold communicate, exits_within.
  destruct (state p) eqn:Es; [destruct (exit_after p) as [t|];
                              [destruct (Qle_bool t timeout)|]| |];
    try (left; eexists; eexists; eexists; split; reflexivity);
    right; eexists; repeat split; reflexivity.
Qed.

Lemma kill_not_running (p : Popen) : state (snd (kill p)) <> Running.
Proof.
  unfold kill, terminate. destruct (state p) eqn:E; cbn; rewrite ?E;
    discriminate.
Qed.

Lemma test_case_outcome (launch : nat -> option Popen) (name : string)
    (request : value) (s : T.state) :
  exists s' entry status,
    T.test_case launch (name, request) s = (Ok tt, s')
    /\ T.results s' = dict_set (T.results s) name entry
    /\ getitem entry "status" = Ok (VStr status)
    /\ In status statuses
    /\ match launch (List.length (T.processes s)) with
       | None => status = "error" /\ T.processes s' = T.processes s
       | Some p =>
           status <> "error"
           /\ exists p', T.processes s' = (T.processes s ++ [p'])%list
                         /\ state p' <> Running
       end.
Proof.
  rewrite test_case_unfold.
  destruct (launch (List.length (T.processes s))) as [p|].
  - destruct (communicate_outcome (encode request) 15 p)
      as [(out & err & p' & H & Hst)|(p' & H & _)]; rewrite H.
    + unfold answered. destruct (nonempty (strip out));
        eexists; eexists; eexists; (split; [reflexivity|]);
        cbn [T.results T.processes];
        (split; [reflexivity|]); (split; [reflexivity|]);
        (split; [cbn; auto|]); (split; [discriminate|]);
        exists p'; (split; [reflexivity|]); rewrite Hst; discriminate.
    + eexists; eexists; eexists; (split; [reflexivity|]).
      cbn [T.results T.processes].
      split; [reflexivity|]. split; [reflexivity|]. split; [cbn; auto|].
      split; [discriminate|]. eexists. split; [reflexivity|].
      apply kill_not_running.
  - eexists; eexists; eexists; (split; [reflexivity|]).
    cbn [T.results T.processes].
    split; [reflexivity|]. split; [reflexivity|]. split; [cbn; auto|].
    split; reflexivity.
Qed.

Lemma test_cases_outcome (launch : nat -> option Popen)
    (cases : list (string * value)) :
  forall s : T.state,
  Forall (fun kv => reported (snd kv)) (T.results s) ->
  Forall (fun p => state p <> Running) (T.processes s) ->
  exists s',
    for_each cases (T.test_case launch) s = (Ok tt, s')
    /\ map fst (T.results s')
       = fold_left add_key (map fst cases) (map fst (T.results s))
    /\ Forall (fun kv => reported (snd kv)) (T.results s')
    /\ Forall (fun p => state p <> Running) (T.processes s')
    /\ List.length (T.processes s')
       <= List.length (T.processes s) + List.length cases.
Proof.
  induction cases as [|[name request] cases IH]; intros s Hr Hp.
  - exists s. cbn. repeat split; auto. lia.
  - destruct (test_case_outcome launch name request s)
      as (s1 & entry & status & H1 & Hres & Hst & Hin & Hl).
    assert (Hr1 : Forall (fun kv => reported (snd kv)) (T.results s1)).
    { rewrite Hres. apply reported_dict_set; [|exact Hr].
      exists status. auto. }
    assert (Hp1 : Forall (fun p => state p <> Running) (T.processes s1)
                  /\ List.length (T.processes s1)
                     <= S (List.length (T.processes s))).
    { destruct (launch (List.length (T.processes s))) as [p|].
      - destruct Hl as (_ & p' & -> & Hp'). split.
        + apply Forall_app. split; [exact Hp|]. repeat constructor. exact Hp'.
        + rewrite length_app. cbn. lia.
      - destruct Hl as (_ & ->). split; [exact Hp|lia]. }
    destruct Hp1 as [Hp1 Hlen1].
    destruct (IH s1 Hr1 Hp1) as (s' & H & Hk & Hr' & Hp' & Hlen).
    exists s'. cbn [for_each]. rewrite (bind_Ok _ _ _ _ _ H1).
    split; [exact H|]. split.
    + rewrite Hk, Hres, dict_set_add_key. reflexivity.
    + repeat split; try assumption. cbn [List.length]. lia.
Qed.

(** Whatever the ten children do, and whether they can be started or
    not, [test_mcp_tools] runs through all its test cases without an
    exception.  At the end [results] has exactly the ten names, in the
    order of [test_cases]; every entry has a status, one of [success],
    [no_response], [timeout] and [error], so the count of the summary is
    defined and at most ten; and none of the children started, ten at
    most, is still running. *)
Theorem comprehensive_run_is_total (launch : nat -> option Popen) :
  exists s' n,
    T.test_mcp_tools launch T.init = (Ok tt, s')
    /\ map fst (T.results s') = map fst T.test_cases
    /\ Forall (fun kv => reported (snd kv)) (T.results s')
    /\ T.successful (T.results s') = Ok n /\ n <= 10
    /\ List.length (T.processes s') <= 10
    /\ Forall (fun p => state p <> Running) (T.processes s').
Proof.
  destruct (test_cases_outcome launch T.test_cases T.init)
    as (s' & H & Hk & Hr & Hp & Hlen); try constructor.
  destruct (successful_reported _ Hr) as (n & Hn & Hle).
  exists s', n. split; [exact H|]. split; [exact Hk|].
  repeat split; try assumption.
  rewrite <- (length_map fst), Hk in Hle. exact Hle.
Qed.

(** When the executable cannot be started, the test case is reported
    as [error]: the [FileNotFoundError] does not leave the test case, no
    child is added to the list, and the results of the other test cases
    stay as they are. *)
Theorem comprehensive_error_when_launch_fails (launch : nat -> option Popen)
    (name : string) (request : value) (s : T.state) :
  launch (List.length (T.processes s)) = None ->
  exists s' entry,
    T.test_case launch (name, request) s = (Ok tt, s')
    /\ T.results s' = dict_set (T.results s) name entry
    /\ status_of s' name = Some (VStr "error")
    /\ T.processes s' = T.processes s.
Proof.
  intros Hl. rewrite test_case_unfold, Hl.
  eexists; eexists. split; [reflexivity|]. cbn [T.results T.processes].
  split; [reflexivity|]. split; [|reflexivity].
  unfold status_of. cbn [T.results]. rewrite dict_get_set. reflexivity.
Qed.

Lemma comprehensive_error_when_launch_fails_witness :
  exists s' entry,
    T.test_case (fun _ => None) ("Initialize", initialize_request) T.init
    = (Ok tt, s')
    /\ T.results s' = dict_set (T.results T.init) "Initialize" entry
    /\ status_of s' "Initialize" = Some (VStr "error")
    /\ T.processes s' = T.processes T.init.
Proof.
  apply (comprehensive_error_when_launch_fails (fun _ => None) "Initialize"
           initialize_request T.init).
  reflexivity.
Defined.

(** For a child that starts, [test_mcp_tool] of [test_mcp_debug_version]
    writes the request, and on every path the child has been waited for;
    after a timeout it is killed first.  Each status is reported only
    where it belongs: [timeout] only when the child does not exit within
    the timeout, [success] only when it does and has put something other
    than white space, [no_response] only when it does and has not.  A
    child that writes nothing at all is reported as [no_response] when it
    exits in time and as [timeout] when it does not. *)
Theorem debug_test_mcp_tool_outcome (tool_name : string)
    (request_data : value) (timeout : Q) (p : Popen) :
  state p = Running ->
  exists r p',
    DV.test_mcp_tool tool_name request_data timeout (Some p) = (r, Some p')
    /\ state p' = Reaped
    /\ stdin p' = (stdin p ++ [encode request_data])%list
    /\ (getitem r "status" = Ok (VStr "timeout") ->
        exits_within p timeout = false)
    /\ (getitem r "status" = Ok (VStr "success") ->
        exits_within p timeout = true
        /\ nonempty (strip (concat_lines (stdout p))) = true)
    /\ (getitem r "status" = Ok (VStr "no_response") ->
        exits_within p timeout = true
        /\ nonempty (strip (concat_lines (stdout p))) = false)
    /\ (stdout p = [] -> stderr p = EmptyString ->
        getitem r "status"
        = Ok (VStr (if exits_within p timeout
                    then "no_response" else "timeout"))).
Proof.
  intros Hrun. destruct p as [i room o e ea st]. cbn in Hrun. subst st.
  unfold DV.test_mcp_tool, communicate, exits_within.
  fold nl. fold (encode request_data).
  cbn [state exit_after stdin stdin_room stdout stderr].
  destruct ea as [t|]; [destruct (Qle_bool t timeout)|].
  - destruct (nonempty (strip (concat_lines o))) eqn:En;
      eexists; eexists; (split; [reflexivity|]);
      repeat split; try reflexivity; try discriminate; try exact En;
      intros -> _; discriminate.
  - eexists; eexists; (split; [reflexivity|]);
      repeat split; try reflexivity; discriminate.
  - eexists; eexists; (split; [reflexivity|]);
      repeat split; try reflexivity; discriminate.
Qed.

Lemma debug_test_mcp_tool_outcome_witness :
  exists r p',
    DV.test_mcp_tool "Initialize" initialize_request 15 (Some stuck_child)
    = (r, Some p')
    /\ state p' = Reaped
    /\ stdin p' = (stdin stuck_child ++ [encode initialize_request])%list
    /\ (getitem r "status" = Ok (VStr "timeout") ->
        exits_within stuck_child 15 = false)
    /\ (getitem r "status" = Ok (VStr "success") ->
        exits_within stuck_child 15 = true
        /\ nonempty (strip (concat_lines (stdout stuck_child))) = true)
    /\ (getitem r "status" = Ok (VStr "no_response") ->
        exits_within stuck_child 15 = true
        /\ nonempty (strip (concat_lines (stdout stuck_child))) = false)
    /\ (stdout stuck_child = [] -> stderr stuck_child = EmptyString ->
        getitem r "status"
        = Ok (VStr (if exits_within stuck_child 15
                    then "no_response" else "timeout"))).
Proof.
  apply (debug_test_mcp_tool_outcome "Initialize" initialize_request 15
           stuck_child).
  reflexivity.
Defined.

Lemma debug_test_mcp_tool_reported (tool_name : string) (request_data : value)
    (timeout : Q) (launch : option Popen) :
  reported (fst (DV.test_mcp_tool tool_name request_data timeout launch))
  /\ reaped (snd (DV.test_mcp_tool tool_name request_data timeout launch)).
Proof.
  destruct launch as [p|].
  - destruct (DV.test_mcp_tool tool_name request_data timeout (Some p))
      as [r child] eqn:E. cbn [fst snd]. split.
    + revert E. unfold DV.test_mcp_tool, communicate, bind, kill, terminate,
        communicate_rest.
      destruct (state p); destruct (exit_after p) as [t|];
        try destruct (Qle_bool t timeout);
        try destruct (nonempty _);
        intros [= <- _]; eexists; (split; [reflexivity|]); cbn; auto.
    + intros p' ->. exact (debug_version_reaps _ _ _ _ _ _ E).
  - cbn. split.
    + eexists. split; [reflexivity|]. cbn. auto.
    + intros p' [=].
Qed.

Lemma debug_run_outcome (launch : nat -> option Popen)
    (cases : list (string * value)) :
  forall (n : nat) (results : list (string * value)),
  Forall (fun kv => reported (snd kv)) results ->
  map fst (fst (DV.run launch n cases results))
  = fold_left add_key (map fst cases) (map fst results)
  /\ Forall (fun kv => reported (snd kv)) (fst (DV.run launch n cases results))
  /\ Forall reaped (snd (DV.run launch n cases results))
  /\ List.length (snd (DV.run launch n cases results)) = List.length cases.
Proof.
  induction cases as [|[name request] cases IH]; intros n results Hr.
  - cbn. auto.
  - cbn [DV.run].
    destruct (debug_test_mcp_tool_reported name request 15 (launch n))
      as [Hrep Hreap].
    destruct (DV.test_mcp_tool name request 15 (launch n)) as [r child].
    cbn [fst snd] in Hrep, Hreap.
    destruct (IH (S n) (dict_set results name r)
                (reported_dict_set _ _ _ Hrep Hr)) as (Hk & Hr' & Hc & Hlen).
    destruct (DV.run launch (S n) cases (dict_set results name r))
      as [results' children].
    cbn [fst snd] in *. rewrite Hk, dict_set_add_key.
    repeat split; auto. cbn [List.length]. rewrite Hlen. reflexivity.
Qed.

(** Whatever the four children do, and whether they can be started or
    not, [main] of [test_mcp_debug_version] ends with the four names in
    [results], in the order of the test cases; every entry has one of
    the four statuses, so the count of the summary is defined and at most
    four; and every child that was started has been waited for. *)
Theorem debug_main_is_total (launch : nat -> option Popen) :
  map fst (fst (DV.main launch))
  = ["Initialize"; "Tools List"; "searchConversations"; "search_messages"]
  /\ Forall (fun kv => reported (snd kv)) (fst (DV.main launch))
  /\ (exists n, DV.successful (fst (DV.main launch)) = Ok n /\ n <= 4)
  /\ Forall reaped (snd (DV.main launch))
  /\ List.length (snd (DV.main launch)) = 4.
Proof.
  unfold DV.main.
  destruct (debug_run_outcome launch DV.test_cases 0 [])
    as (Hk & Hr & Hc & Hlen); [constructor|].
  split; [exact Hk|]. split; [exact Hr|]. split; [|split; assumption].
  destruct (successful_reported _ Hr) as (n & Hn & Hle).
  exists n. split; [exact Hn|].
  rewrite <- (length_map fst), Hk in Hle. exact Hle.
Qed.

Lemma single_test_mcp_tool_reaps (tool_name : string) (request_data : value)
    (launch : option Popen) :
  reaped (SG.test_mcp_tool tool_name request_data launch).
Proof.
  destruct launch as [p|]; [|intros p' [=]].
  unfold SG.test_mcp_tool, communicate, bind, kill, terminate,
    communicate_rest.
  destruct (state p) eqn:Es; destruct (exit_after p) as [t|];
    try destruct (Qle_bool t 10);
    cbn [state set_state snd]; try rewrite Es;
    intros p' [= <-]; reflexivity.
Qed.

(** [test_mcp_tool] of [test_mcp_single] starts no child when the
    executable is missing, and otherwise leaves the child waited for on
    every path, killing it first when it has not exited after ten
    seconds; a child that was running has been sent the request and
    nothing else.  So [main] leaves none of its three children behind. *)
Theorem single_reaps_every_child (launch : nat -> option Popen) :
  (forall tool_name request_data,
      SG.test_mcp_tool tool_name request_data None = None)
  /\ (forall tool_name request_data p,
        exists p',
          SG.test_mcp_tool tool_name request_data (Some p) = Some p'
          /\ state p' = Reaped
          /\ (state p = Running ->
              stdin p' = (stdin p ++ [encode request_data])%list))
  /\ Forall reaped (SG.main launch)
  /\ List.length (SG.main launch) = 3.
Proof.
  split; [reflexivity|]. split.
  - intros tool_name request_data p.
    pose proof (single_test_mcp_tool_reaps tool_name request_data (Some p))
      as Hr.
    destruct (SG.test_mcp_tool tool_name request_data (Some p)) as [p'|] eqn:E.
    + exists p'. split; [reflexivity|]. split; [apply Hr; reflexivity|].
      intros Hrun. revert E.
      unfold SG.test_mcp_tool, communicate, bind, kill, terminate,
        communicate_rest.
      fold nl. fold (encode request_data). rewrite Hrun.
      destruct (exit_after p) as [t|]; try destruct (Qle_bool t 10);
        cbn [state set_state snd]; intros [= <-]; reflexivity.
    + exfalso. revert E. unfold SG.test_mcp_tool.
      destruct (communicate _ 10 p) as [[a|[]] q]; discriminate.
  - split; [|reflexivity]. unfold SG.main.
    repeat constructor; apply single_test_mcp_tool_reaps.
Qed.
